(* ===== verification/_CoqProject ===== *)
-Q . S2P
Prelude.v
PyStr.v
Html.v
Json.v
Gender.v
Aarhus.v
AarhusSpec.v
Crawl.v
CrawlSpec.v
Pisa.v
Csv.v
Frame.v
Dashboard.v
