(* ===== verification/Prelude.v ===== *)
(** * A verification development of university-faculty-scrapers

    The repository (src/src/*.py) holds two web scrapers and two chart
    scripts.  The scrapers are the engineering core, a crawl-extract-enrich
    pipeline:

    - aarhus_scraper.py: [scrape_aarhus] walks the paginated staff
      directory of cs.au.dk.  For every page it fetches the document, finds
      every "pure5-persons" container, takes the category from the nearest
      preceding "csc-header" heading, reads six positional cells per table
      row, drops rows whose identity key (e-mail, else name) was seen,
      guesses a gender with an offline detector ([get_gender]) and follows
      the "Next" link of the browse box, stopping on a link back to the
      page just fetched or on any exception.
    - pisa_scraper.py: [scrape_pisa] reads one page of di.unipi.it whose
      rows carry their category in [data-cat], rebuilds obfuscated e-mails
      from three attributes, resolves genders through genderize.io with a
      run-scoped cache and a strict 0.8 confidence threshold, and fetches
      a per-person JSON record ([get_detailed_info]) whose two HTML
      fragments are flattened into lists, failures becoming "Error/Empty".
    - aarhus_visualizer.py, pisa_visualizer.py: read the CSV file of a
      scraper with pandas and draw four charts each: counts of genders,
      categories or roles, job titles and buildings (the ten most frequent
      for Aarhus; for Pisa a Role derived from the category and a
      Building derived from the room).

    ** Files, in dependency order

    - [Prelude] (this file): Python exceptions as values ([py_exc], the
      result type [res] with its [let?] bind in [py_scope]); [py_index]
      ([l[i]] with IndexError); [flow] and [for_each], a Python [for] loop
      whose body may raise and keeps its mutations when it does; the hint
      databases [pyscrape] and [pyrw] and the tactics [case_streq] and
      [py_simp].
    - [PyStr]: the str methods the code calls (split, strip, join,
      startswith, [in], replace, lower, capitalize, split(",")) on ASCII
      strings, and [clean_text] (aarhus_scraper.py 19-21); split inverts
      " ".join on words, and clean_text leaves the words of its argument
      separated by single spaces ([canonical]).
    - [Html]: the BeautifulSoup queries on a parsed document tree ([node]):
      [.text], [get_text(strip=True)], [find]/[find_all] in document order
      with tag/class filters, attributes with their KeyError, [.string] and
      [find_previous]; and [PageSource], a site as [requests.get] plus the
      parser see it, with [raise_for_status].
    - [Json]: decoded JSON values and Python's [in], [[]] and truthiness on
      them, as get_detailed_info uses them.
    - [Gender]: Module [Local], the offline resolver of aarhus_scraper.py
      (23-37), against the interface [GenderDetector]; Module [Net],
      genderize.io with the 0.8 threshold (pisa_scraper.py 17-29) against
      [GenderizeApi], and [gender_lookup], the cache of scrape_pisa
      (98-104), with the event log of requests and sleeps.
    - [Aarhus]: Module [Aarhus], one iteration of the crawl: [extract_row]
      (74-86), [row_step] with the deduplication (69-103), the category of
      a container (59-63), [container_step], [extract_page], the Next link
      ([find_next_link], [next_url], 105-123) and [page_step], the loop
      body with its [try] (50-127); urljoin is the interface [UrlJoin].
      The state is [acc] (all_staff_data, seen_ids).
    - [AarhusSpec]: the abstract specification of one page: its rows in
      document order with their categories ([page_rows]), their records
      ([page_records]) and the first-occurrence filter [keep_first];
      [extract_page] refines it when no row raises.
    - [Crawl]: the [while current_url] loop (39-137) as [crawl], an
      interpreter with one unit of fuel per page, and as [crawls], the
      big-step relation of its terminating runs; [next_of], the Next
      relation of a site as the loop follows it; the demo sites of the
      witnesses.
    - [CrawlSpec]: a whole run against the specification: the records of
      a run that ends normally are [keep_first] of the records of the
      fetched pages, in fetch order; a page whose rows raise part-way
      keeps the records of its earlier rows.
    - [Pisa]: [get_detailed_info] (31-63), the cells of a row
      ([row_names], [email_of], [website_of], [phone_of], [later_cells],
      [detail_of]), [row_step] (88-139) and [scrape_pisa] (65-142), with
      [pisa_state] (cache, rows written, count, events).
    - [Csv]: the files the scrapers write (Module [Sink]: DictWriter rows
      in field order, written only when records were gathered; the Pisa
      header and rows, also after an exception), Python's csv quoting
      ([write_field], [csv_line], [csv_text]) and pandas' tokenizer
      ([tokenize], [csv_read]), with the round trip [csv_read_write].
    - [Frame]: pandas' [read_csv] (NA strings read as missing cells),
      column access, [value_counts] (a count in order of first appearance
      then a stable sort by decreasing count), [nlargest], [isin] and
      seaborn's [countplot].  Csv and Frame model library behaviour from
      its documentation; they are not repository code and the theorems
      about them are lemmas that the Dashboard theorems use.
    - [Dashboard]: Module [AarhusViz], [create_charts] of
      aarhus_visualizer.py (12-45), and Module [PisaViz],
      [create_dashboard] of pisa_visualizer.py (12-59) with its Role and
      Building columns; the theorems that compose scraper, file and chart.

    The components talk through typeclass interfaces for what the code only
    calls: [PageSource], [UrlJoin], [GenderDetector], [GenderizeApi],
    [DetailApi], [HtmlParser].  Theorems are stated for every instance;
    witnesses and scenarios use small concrete instances.

    ** What the theorems show

    - Deduplication (Aarhus, Crawl): the records of any run have distinct
      identity keys; of two rows with one key only the first is kept.
    - Refinement (AarhusSpec): the nested loops of a page with the set
      [seen_ids] compute the first-occurrence filter of the page's
      records in document order; that filter keeps exactly the first
      record of every new key; a whole run that ends normally, with no
      row raising, yields that filter over the rows of all fetched pages,
      page by page and row by row (CrawlSpec).
    - Categories (Aarhus): the backward find_previous search equals a
      single forward pass that carries the current heading.
    - Pagination (Crawl): the cycle guard stops on a self link; a failed
      fetch aborts keeping the records; [crawl] computes exactly the runs
      of [crawls]; the loop ends whenever the chain of Next links it
      follows is finite (accessibility of [next_of]); a two-page cycle
      diverges.
    - Enrichment (Gender, Pisa): a genderize.io answer is taken exactly
      when its probability is strictly above 0.8; the offline resolver
      does not raise on clean names; genderize.io is asked once per first-name key in a run
      and rows sharing a key get the same label.
    - Details (Pisa): the e-mail is "N/A" without a link or local part,
      and otherwise exactly name@domain.tld of the attributes; a failed
      detail fetch gives "Error/Empty"; the detail API affects nothing but
      the two detail fields.
    - Files and charts (Dashboard, over Csv and Frame): the Top 10 charts
      draw the ten most frequent values, most frequent first, with their
      counts; the gender pie of a crawl has only the three labels and
      counts every record; the Pisa building chart counts every row and
      the role chart the rows with a category; the Building of a room is
      its last word, "Unknown" for a one-word or missing room.
    - Findings: short Aarhus rows abort the crawl; six-cell Pisa rows and
      blank first names crash scrape_pisa; relative profile links lose
      their slash; a blank row gets the empty key; a failing row keeps the
      earlier rows of its page; the "N/A" sentinels of the Pisa file are
      read back as missing cells; the Pisa dashboard crashes when no row
      has a category; an Aarhus run that gathers nothing leaves the file
      of an earlier run in place for the charts.

    ** Fuel

    [crawl] takes one unit of fuel per page.  The loop of the code need not
    terminate (a two-page cycle), so fuel is not a bound that can always be
    met: [crawl_refines] shows that every terminating run is computed for
    all large enough fuel, [crawl_terminates] that some fuel suffices
    whenever the Next chain from the current page is finite (the fuel is
    the height of that chain plus one), and the witnesses use 3 to 10
    units for sites of one or two pages.  Every other loop of the code is over a finite list and
    is a structural recursion.

    ** What is not modelled

    - The parsers and libraries the code only calls (html.parser,
      json.loads, urllib.parse.urljoin, gender_guesser, requests) are
      interfaces; documents and JSON bodies are given parsed.  Non-string
      HTML fragments in the JSON record are taken as a TypeError of
      BeautifulSoup.
    - The prints are not modelled; the files are strings ([Sink]) and
      "no file" is [None]; sleeps and requests are events of the Pisa run;
      the one-second delay of the Aarhus loop is not modelled (the fetched
      URLs are recorded in order instead).
    - Probabilities are rationals ([Q]) compared with 4/5, not doubles.
    - Strings are ASCII, with Python's whitespace restricted to ASCII.
    - Of the chart scripts only the data of the charts is modelled: the
      drawing (matplotlib and seaborn styles, percentages of the pies, the
      PNG file) is output only.  pandas' inference of numeric columns is
      not modelled (every column is read as text); it would change a
      label only in a column whose every cell is a number.  The tie order
      of [value_counts] is the stable one pandas gives on the small
      numbers of distinct values these files have.
    - The tokenizer is modelled for the quoting of the "excel" dialect
      that the writer uses; escape characters, comments and other
      dialects of pandas are not.
*)

From Stdlib Require Export String Ascii.
From stdpp Require Export base list gmap strings.

(** ** Python exceptions as values *)

(** The exceptions the modelled code can raise.  [RequestError] stands for
    every exception of the [requests] library (transport errors and the
    [HTTPError] of [raise_for_status]). *)
Inductive py_exc :=
  | IndexError
  | KeyError
  | TypeError
  | ValueError
  | AttributeError
  | RequestError.

#[export] Instance py_exc_eq_dec : EqDecision py_exc.
Proof. solve_decision. Defined.

(** The result of a Python computation that may raise. *)
Inductive res (A : Type) : Type :=
  | Ok (a : A)
  | Raise (e : py_exc).
Arguments Ok {A} a.
Arguments Raise {A} e.

Definition res_bind {A B} (c : res A) (k : A -> res B) : res B :=
  match c with
  | Ok a => k a
  | Raise e => Raise e
  end.

Definition res_map {A B} (f : A -> B) (c : res A) : res B :=
  res_bind c (fun a => Ok (f a)).

(** [try: c except: d] of Python, where the handler ignores the exception. *)
Definition res_catch {A} (c : res A) (d : A) : A :=
  match c with
  | Ok a => a
  | Raise _ => d
  end.

Declare Scope py_scope.
Delimit Scope py_scope with py.
Notation "'let?' x ':=' c 'in' k" := (res_bind c (fun x => k))
  (at level 10, x name, c at level 100, k at level 200) : py_scope.
Notation "'let?' ' p ':=' c 'in' k" := (res_bind c (fun x => match x with p => k end))
  (at level 10, p pattern, c at level 100, k at level 200) : py_scope.
Open Scope py_scope.

(** Python's [l[i]] on a list: IndexError out of range. *)
Definition py_index {A} (l : list A) (i : nat) : res A :=
  match l !! i with
  | Some x => Ok x
  | None => Raise IndexError
  end.

(** Python's [d[k]] on an association list: KeyError when absent. *)
Definition py_getkey {V} (d : list (string * V)) (k : string) : res V :=
  match list_find (fun kv => kv.1 = k) d with
  | Some (_, kv) => Ok kv.2
  | None => Raise KeyError
  end.

(** ** Generic lemmas shared by the components *)

Create HintDb pyscrape discriminated.
Create Rewrite HintDb pyrw.

Lemma res_bind_ok {A B} (a : A) (k : A -> res B) : res_bind (Ok a) k = k a.
Proof. reflexivity. Qed.

Lemma res_bind_raise {A B} e (k : A -> res B) : res_bind (Raise e) k = Raise e.
Proof. reflexivity. Qed.

Lemma res_bind_Ok_inv {A B} (c : res A) (k : A -> res B) b :
  res_bind c k = Ok b -> exists a, c = Ok a /\ k a = Ok b.
Proof. destruct c; simpl; [eauto | discriminate]. Qed.

Lemma py_index_lt {A} (l : list A) i :
  i < length l -> exists x, py_index l i = Ok x /\ l !! i = Some x.
Proof.
  intros Hi. destruct (lookup_lt_is_Some_2 l i Hi) as [x Hx].
  exists x. unfold py_index. by rewrite Hx.
Qed.

Lemma py_index_ge {A} (l : list A) i :
  length l <= i -> py_index l i = Raise IndexError.
Proof. intros Hi. unfold py_index. by rewrite lookup_ge_None_2. Qed.

Lemma py_index_0 {A} (x : A) (l : list A) : py_index (x :: l) 0 = Ok x.
Proof. reflexivity. Qed.

Lemma py_index_S {A} (x : A) (l : list A) (i : nat) : py_index (x :: l) (S i) = py_index l i.
Proof. reflexivity. Qed.

Lemma py_index_nil {A} (i : nat) : py_index (@nil A) i = Raise IndexError.
Proof. reflexivity. Qed.

#[export] Hint Rewrite @res_bind_ok @res_bind_raise @py_index_0 @py_index_S @py_index_nil : pyrw.

(** [if p then a else b] on booleans produced by [String.eqb]. *)
Lemma string_eqb_refl (s : string) : String.eqb s s = true.
Proof. apply String.eqb_refl. Qed.

Lemma string_eqb_neq (s t : string) : s <> t -> String.eqb s t = false.
Proof. apply String.eqb_neq. Qed.

#[export] Hint Rewrite string_eqb_refl : pyrw.
#[export] Hint Resolve string_eqb_neq : pyscrape.

(** Case analysis on every [String.eqb] test of the goal. *)
Ltac case_streq :=
  repeat match goal with
  | |- context [String.eqb ?a ?b] =>
      destruct (String.eqb_spec a b); subst; try congruence
  | H : context [String.eqb ?a ?b] |- _ =>
      destruct (String.eqb_spec a b); subst; try congruence
  end.

(** Normalise the result-monad plumbing of a goal. *)
Ltac py_simp := autorewrite with pyrw in *; simpl in *.

(** ** Loops whose body may raise *)

(** The state after one iteration of a Python loop body: the loop goes on
    with the new state, or an exception escapes with the state the body had
    reached when it raised (Python's mutations are not rolled back). *)
Inductive flow (S : Type) : Type :=
  | Cont (s : S)
  | Stop (e : py_exc) (s : S).
Arguments Cont {S} s.
Arguments Stop {S} e s.

Definition flow_state {S} (f : flow S) : S :=
  match f with Cont s => s | Stop _ s => s end.

(** [for x in l: body] where [body] may raise. *)
Fixpoint for_each {A S} (body : A -> S -> flow S) (l : list A) (s : S) : flow S :=
  match l with
  | [] => Cont s
  | x :: l' =>
      match body x s with
      | Cont s' => for_each body l' s'
      | Stop e s' => Stop e s'
      end
  end.

Lemma for_each_app {A S} (body : A -> S -> flow S) l1 l2 s :
  for_each body (l1 ++ l2) s =
  match for_each body l1 s with
  | Cont s' => for_each body l2 s'
  | Stop e s' => Stop e s'
  end.
Proof.
  revert s. induction l1 as [|x l1 IH]; intros s; simpl; [done |].
  destruct (body x s); [apply IH | done].
Qed.

Lemma for_each_ext {A S} (b1 b2 : A -> S -> flow S) l s :
  (forall x s, b1 x s = b2 x s) -> for_each b1 l s = for_each b2 l s.
Proof.
  intros Hb. revert s. induction l as [|x l IH]; intros s; simpl; [done |].
  rewrite Hb. destruct (b2 x s); [apply IH | done].
Qed.

Lemma for_each_map {A B S} (f : A -> B) (body : B -> S -> flow S) l s :
  for_each body (map f l) s = for_each (fun x => body (f x)) l s.
Proof.
  revert s. induction l as [|x l IH]; intros s; simpl; [done |].
  destruct (body (f x) s); [apply IH | done].
Qed.

(** A loop over the items of items is the nested loop. *)
Lemma for_each_concat {A B S} (f : A -> list B) (body : B -> S -> flow S) l s :
  for_each body (concat (map f l)) s = for_each (fun x s => for_each body (f x) s) l s.
Proof.
  revert s. induction l as [|x l IH]; intros s; simpl; [done |].
  rewrite for_each_app. destruct (for_each body (f x) s); [apply IH | done].
Qed.

Section for_each_invariant.
Context {A S : Type} (Inv : S -> Prop) (body : A -> S -> flow S).
Hypothesis body_inv : forall x s, Inv s -> Inv (flow_state (body x s)).

(** A property every iteration keeps holds of the state a loop ends in,
    normally or by an exception. *)
Lemma for_each_inv l s : Inv s -> Inv (flow_state (for_each body l s)).
Proof.
  revert s. induction l as [|x l IH]; intros s Hs; simpl; [done |].
  specialize (body_inv x s Hs). destruct (body x s); simpl in *; auto.
Qed.
End for_each_invariant.
