(* ===== verification/PyStr.v ===== *)
(** * Python's string methods on ASCII strings

    The scrapers normalise every cell with Python's [str] methods:
    [clean_text] of aarhus_scraper.py (lines 19-21) is
    [" ".join(text.strip().split())], pisa_scraper.py strips cells and
    removes the "tel." label with [replace], and both take first names with
    [split()[0]].  This file defines those methods on [string] (ASCII) and
    proves the facts the components use: [split()] yields non-empty words
    without whitespace, [split] inverts [" ".join] on such words, stripping
    does not change the words, and [clean_text] is idempotent. *)

From S2P Require Import Prelude.
Local Open Scope string_scope.

(** ** Characters *)

(** Python's [str.isspace] on ASCII: \t \n \x0b \x0c \r, \x1c-\x1f and
    the space. *)
Definition is_space (c : ascii) : bool :=
  let n := nat_of_ascii c in
  ((Nat.leb 9 n) && (Nat.leb n 13)) || ((Nat.leb 28 n) && (Nat.leb n 32)).

Definition ascii_lower (c : ascii) : ascii :=
  let n := nat_of_ascii c in
  if (Nat.leb 65 n) && (Nat.leb n 90) then ascii_of_nat (n + 32) else c.

Definition ascii_upper (c : ascii) : ascii :=
  let n := nat_of_ascii c in
  if (Nat.leb 97 n) && (Nat.leb n 122) then ascii_of_nat (n - 32) else c.

(** ** Methods *)

(** [str.lower()]. *)
Fixpoint py_lower (s : string) : string :=
  match s with
  | EmptyString => EmptyString
  | String c s' => String (ascii_lower c) (py_lower s')
  end.

(** [str.capitalize()]: first character upper case, the rest lower case. *)
Definition py_capitalize (s : string) : string :=
  match s with
  | EmptyString => EmptyString
  | String c s' => String (ascii_upper c) (py_lower s')
  end.

(** [str.split()] without a separator: the maximal runs of non-whitespace
    characters.  [cur] is the word read so far. *)
Definition flush (cur : string) : list string :=
  if String.eqb cur "" then [] else [cur].

Fixpoint split_go (s cur : string) : list string :=
  match s with
  | EmptyString => flush cur
  | String c s' =>
      if is_space c then flush cur ++ split_go s' ""
      else split_go s' (cur ++ String c "")
  end.

Definition py_split (s : string) : list string := split_go s "".

(** [sep.join(ws)]. *)
Fixpoint py_join (sep : string) (ws : list string) : string :=
  match ws with
  | [] => ""
  | [w] => w
  | w :: ws' => w ++ sep ++ py_join sep ws'
  end.

(** [str.lstrip()], [str.rstrip()] and [str.strip()]. *)
Fixpoint lstrip (s : string) : string :=
  match s with
  | EmptyString => EmptyString
  | String c s' => if is_space c then lstrip s' else s
  end.

Fixpoint rstrip (s : string) : string :=
  match s with
  | EmptyString => EmptyString
  | String c s' =>
      let r := rstrip s' in
      if is_space c && String.eqb r "" then "" else String c r
  end.

Definition py_strip (s : string) : string := rstrip (lstrip s).

(** [clean_text] of aarhus_scraper.py, lines 19-21. *)
Definition clean_text (text : string) : string :=
  if String.eqb text "" then ""
  else py_join " " (py_split (py_strip text)).

(** [s.startswith(p)]. *)
Definition py_startswith (s p : string) : bool := String.prefix p s.

(** [needle in hay] on strings. *)
Fixpoint py_contains (needle hay : string) : bool :=
  String.prefix needle hay ||
  match hay with
  | EmptyString => false
  | String _ h' => py_contains needle h'
  end.

(** [s.replace(old, new)]: left to right, non-overlapping.  [skip] counts
    the characters of a replaced occurrence still to be dropped. *)
Fixpoint replace_go (old new : string) (skip : nat) (s : string) : string :=
  match s with
  | EmptyString => EmptyString
  | String c s' =>
      match skip with
      | S k => replace_go old new k s'
      | O =>
          if String.prefix old s then new ++ replace_go old new (String.length old - 1) s'
          else String c (replace_go old new 0 s')
      end
  end.

(** [s.replace("", new)] inserts [new] around every character. *)
Fixpoint interleave (new s : string) : string :=
  match s with
  | EmptyString => new
  | String c s' => new ++ String c (interleave new s')
  end.

Definition py_replace (old new s : string) : string :=
  if String.eqb old "" then interleave new s else replace_go old new 0 s.

(** [s.split(sep)] with a one-character separator: every field, empty ones
    included. *)
Fixpoint split_sep_go (sep : ascii) (s cur : string) : list string :=
  match s with
  | EmptyString => [cur]
  | String c s' =>
      if Ascii.eqb c sep then cur :: split_sep_go sep s' ""
      else split_sep_go sep s' (cur ++ String c "")
  end.

Definition py_split_sep (sep : ascii) (s : string) : list string :=
  split_sep_go sep s "".

(** ** Words *)

Fixpoint no_space (s : string) : bool :=
  match s with
  | EmptyString => true
  | String c s' => negb (is_space c) && no_space s'
  end.

(** What [split()] produces: a non-empty run of non-whitespace. *)
Definition word_ok (w : string) : Prop := w <> "" /\ no_space w = true.

(** ** String append *)

(** stdpp declares [String.append] [simpl never]: its two equations. *)
Lemma str_app_nil_l (b : string) : "" ++ b = b.
Proof. reflexivity. Qed.

Lemma str_app_cons (x : ascii) (a b : string) : String x a ++ b = String x (a ++ b).
Proof. reflexivity. Qed.

Lemma str_app_assoc (a b c : string) : (a ++ b) ++ c = a ++ (b ++ c).
Proof. induction a as [|x a IH]; [done |]. by rewrite !str_app_cons, IH. Qed.

Lemma str_app_nil_r (a : string) : a ++ "" = a.
Proof. induction a as [|x a IH]; [done |]. by rewrite str_app_cons, IH. Qed.

Lemma str_app_nil_inv (a b : string) : a ++ b = "" -> a = "" /\ b = "".
Proof. destruct a; [auto | rewrite str_app_cons; discriminate]. Qed.

Lemma no_space_app (a b : string) :
  no_space (a ++ b) = no_space a && no_space b.
Proof.
  induction a as [|x a IH]; [done |].
  rewrite str_app_cons. simpl. rewrite IH. by destruct (is_space x), (no_space a).
Qed.

#[export] Hint Rewrite str_app_nil_l str_app_cons str_app_assoc str_app_nil_r no_space_app : pyrw.

(** [startswith] under a common prefix. *)
Lemma prefix_app (a b c : string) : String.prefix (a ++ b) (a ++ c) = String.prefix b c.
Proof.
  induction a as [|x a IH]; [done |].
  rewrite !str_app_cons. simpl. destruct (ascii_dec x x); [exact IH | done].
Qed.

(** ** Splitting *)

Lemma is_space_sp : is_space " " = true.
Proof. reflexivity. Qed.

Lemma flush_ok (cur : string) :
  no_space cur = true -> Forall word_ok (flush cur).
Proof.
  unfold flush. case_streq; intros H; constructor; [by split | constructor].
Qed.

Lemma split_go_words (s cur : string) :
  no_space cur = true -> Forall word_ok (split_go s cur).
Proof.
  revert cur. induction s as [|c s IH]; intros cur Hcur; simpl.
  - by apply flush_ok.
  - destruct (is_space c) eqn:Hc.
    + apply Forall_app. split; [by apply flush_ok | by apply IH].
    + apply IH. rewrite no_space_app, Hcur. simpl. by rewrite Hc.
Qed.

(** Every word [split()] returns is non-empty and has no whitespace. *)
Lemma py_split_words (s : string) : Forall word_ok (py_split s).
Proof. by apply split_go_words. Qed.

Lemma split_go_word (w s cur : string) :
  no_space w = true -> split_go (w ++ s) cur = split_go s (cur ++ w).
Proof.
  revert cur. induction w as [|c w IH]; intros cur Hw; simpl.
  - by rewrite str_app_nil_r.
  - simpl in Hw. apply andb_prop in Hw as [Hc Hw].
    destruct (is_space c); [discriminate |].
    rewrite IH by done. by rewrite str_app_assoc.
Qed.

Lemma split_go_nil_spaces (s : string) :
  rstrip s = "" -> split_go s "" = [].
Proof.
  induction s as [|c s IH]; simpl; [done |].
  destruct (is_space c), (String.eqb_spec (rstrip s) ""); simpl;
    intros H; try discriminate.
  by rewrite IH.
Qed.

Lemma split_go_lstrip (s : string) : split_go (lstrip s) "" = split_go s "".
Proof.
  induction s as [|c s IH]; simpl; [done |].
  destruct (is_space c) eqn:Hc; [exact IH | simpl; by rewrite Hc].
Qed.

Lemma split_go_rstrip (s cur : string) : split_go (rstrip s) cur = split_go s cur.
Proof.
  revert cur. induction s as [|c s IH]; intros cur; simpl; [done |].
  destruct (is_space c) eqn:Hc; simpl.
  - case_streq.
    + rewrite split_go_nil_spaces by done. simpl. by rewrite app_nil_r.
    + simpl. rewrite Hc. by rewrite IH.
  - rewrite Hc. by rewrite IH.
Qed.

(** Stripping before splitting changes nothing. *)
Lemma py_split_strip (s : string) : py_split (py_strip s) = py_split s.
Proof.
  unfold py_split, py_strip. by rewrite split_go_rstrip, split_go_lstrip.
Qed.

(** Round trip: [split()] inverts [" ".join] on words. *)
Lemma py_split_join (ws : list string) :
  Forall word_ok ws -> py_split (py_join " " ws) = ws.
Proof.
  unfold py_split. induction ws as [|w ws IH]; intros Hws; [done |].
  inversion Hws as [|? ? [Hne Hw] Hrest]; subst.
  unfold flush in *.
  destruct ws as [|w' ws'].
  - change (py_join " " [w]) with w.
    rewrite <- (str_app_nil_r w) at 1. rewrite split_go_word by done.
    cbn [split_go]. unfold flush. by rewrite string_eqb_neq.
  - change (py_join " " (w :: w' :: ws')) with (w ++ " " ++ py_join " " (w' :: ws')).
    rewrite split_go_word by done. rewrite str_app_cons, str_app_nil_l.
    cbn [split_go]. rewrite is_space_sp. unfold flush.
    rewrite string_eqb_neq by done. rewrite IH by done. reflexivity.
Qed.

(** [clean_text] joins the words of its argument with single spaces. *)
Lemma clean_text_words (s : string) : clean_text s = py_join " " (py_split s).
Proof.
  unfold clean_text. case_streq; [reflexivity | by rewrite py_split_strip].
Qed.

Lemma py_split_clean (s : string) : py_split (clean_text s) = py_split s.
Proof. rewrite clean_text_words. apply py_split_join, py_split_words. Qed.

(** A string in the normal form of [clean_text]: its only whitespace is
    single spaces between non-space characters (none at either end).
    [after_space] is true at the start and after a space. *)
Fixpoint canon_go (after_space : bool) (s : string) : bool :=
  match s with
  | EmptyString => negb after_space
  | String c s' =>
      if is_space c then Ascii.eqb c " " && negb after_space && canon_go true s'
      else canon_go false s'
  end.

Definition canonical (s : string) : bool :=
  match s with EmptyString => true | _ => canon_go true s end.

Lemma canon_go_no_space (w r : string) :
  no_space w = true -> canon_go false (w ++ r) = canon_go false r.
Proof.
  induction w as [|c w IH]; intros Hw; [done |].
  simpl in Hw. apply andb_prop in Hw as [Hc Hw].
  rewrite str_app_cons. simpl. apply negb_true_iff in Hc. rewrite Hc. by apply IH.
Qed.

Lemma canon_go_word (p : bool) (w r : string) :
  word_ok w -> canon_go p (w ++ r) = canon_go false r.
Proof.
  intros [Hne Hw]. destruct w as [|c w]; [done |].
  simpl in Hw. apply andb_prop in Hw as [Hc Hw].
  rewrite str_app_cons. simpl. apply negb_true_iff in Hc. rewrite Hc. by apply canon_go_no_space.
Qed.

Lemma canon_go_join (ws : list string) :
  Forall word_ok ws -> ws <> [] -> canon_go true (py_join " " ws) = true.
Proof.
  induction 1 as [|w ws Hw Hws IH]; intros Hne; [by destruct Hne |].
  destruct ws as [|w' ws'].
  - change (py_join " " [w]) with w. rewrite <- (str_app_nil_r w). by rewrite canon_go_word.
  - change (py_join " " (w :: w' :: ws')) with (w ++ " " ++ py_join " " (w' :: ws')).
    rewrite canon_go_word by done. rewrite str_app_cons, str_app_nil_l. simpl. by apply IH.
Qed.

(** C15: [clean_text] collapses whitespace: its result is in normal form
    (single spaces between words, none at either end, no other
    whitespace) and has exactly the words of its argument. *)
Theorem clean_text_canonical (s : string) :
  canonical (clean_text s) = true /\ py_split (clean_text s) = py_split s.
Proof.
  split; [| apply py_split_clean]. rewrite clean_text_words.
  pose proof (py_split_words s) as Hws.
  destruct (py_split s) as [|w ws] eqn:Hs; [done |].
  inversion Hws as [|? ? [Hne Hw] _]; subst.
  assert (Hj : exists u, py_join " " (w :: ws) = w ++ u).
  { destruct ws; [exists ""; by rewrite str_app_nil_r | by eexists]. }
  destruct Hj as [u Hu]. destruct w as [|c w]; [done |].
  rewrite Hu, str_app_cons. change (canon_go true (String c (w ++ u)) = true).
  rewrite <- str_app_cons, <- Hu. by apply canon_go_join.
Qed.

Example clean_text_example :
  clean_text (String "009" "  Aarhus   University" ++ "  ") = "Aarhus University".
Proof. reflexivity. Qed.
