(* ===== verification/Html.v ===== *)
(** * The BeautifulSoup queries the scrapers use

    A parsed HTML document is a tree of [node]s (text or element with its
    tag, attributes and children); the parser itself (bs4 with
    html.parser) is not modelled.  The queries are those of
    aarhus_scraper.py and pisa_scraper.py:
    - [.text] / [get_text()] and [get_text(strip=True)];
    - [find_all(name, class_=..., attrs=...)] and [find(...)], which
      search the descendants of a tag in document order;
    - [tag['attr']] (KeyError when absent), [tag.get('attr', default)],
      [tag.has_attr('attr')];
    - [.string], used by the [string=] filter of the "Next" link search;
    - [find_previous(...)], which walks the elements that precede a tag in
      document order, nearest first. *)

From S2P Require Import Prelude PyStr.

Local Set Warnings "-register-all".
Inductive node :=
  | Text (s : string)
  | Elem (tag : string) (attrs : list (string * string)) (kids : list node).

(** Induction on nodes with a hypothesis for every child. *)
Section node_ind_strong.
Variable P : node -> Prop.
Hypothesis HText : forall s, P (Text s).
Hypothesis HElem : forall t a kids, Forall P kids -> P (Elem t a kids).

Fixpoint node_ind' (n : node) : P n :=
  match n with
  | Text s => HText s
  | Elem t a kids =>
      HElem t a kids
        ((fix go (l : list node) : Forall P l :=
            match l with
            | [] => Forall_nil_2 _
            | k :: l' => Forall_cons_2 _ _ _ (node_ind' k) (go l')
            end) kids)
  end.
End node_ind_strong.

(** ** Text *)

(** The text pieces of a node, in document order. *)
Fixpoint strings (n : node) : list string :=
  match n with
  | Text s => [s]
  | Elem _ _ kids => List.concat (List.map strings kids)
  end.

Definition str_concat (l : list string) : string := fold_right String.append "" l.

(** [tag.text]. *)
Definition node_text (n : node) : string := str_concat (strings n).

(** [tag.get_text(strip=True)]: every piece stripped, empty pieces dropped,
    joined with the empty separator. *)
Definition get_text_strip (n : node) : string :=
  str_concat (List.map py_strip (strings n)).

(** [tag.string]: the text of a node with a single text descendant chain. *)
Fixpoint node_string (n : node) : option string :=
  match n with
  | Text s => Some s
  | Elem _ _ [k] => node_string k
  | Elem _ _ _ => None
  end.

(** ** Document order *)

(** The node and its descendants, in document (pre-)order. *)
Fixpoint subtree (n : node) : list node :=
  n :: match n with
       | Text _ => []
       | Elem _ _ kids => List.concat (List.map subtree kids)
       end.

(** What [find_all] searches: the descendants, the node itself excluded. *)
Definition descendants (n : node) : list node :=
  match n with
  | Text _ => []
  | Elem _ _ kids => List.concat (List.map subtree kids)
  end.

(** ** Attributes and filters *)

Fixpoint assoc_get (k : string) (l : list (string * string)) : option string :=
  match l with
  | [] => None
  | (k', v) :: l' => if String.eqb k k' then Some v else assoc_get k l'
  end.

Definition get_attr (n : node) (k : string) : option string :=
  match n with
  | Text _ => None
  | Elem _ a _ => assoc_get k a
  end.

(** [tag['k']]. *)
Definition py_attr (n : node) (k : string) : res string :=
  match get_attr n k with
  | Some v => Ok v
  | None => Raise KeyError
  end.

(** [tag.get('k', d)]. *)
Definition attr_or (n : node) (k d : string) : string :=
  match get_attr n k with
  | Some v => v
  | None => d
  end.

(** [tag.has_attr('k')]. *)
Definition has_attr (n : node) (k : string) : bool :=
  match get_attr n k with
  | Some _ => true
  | None => false
  end.

Definition is_tag (t : string) (n : node) : bool :=
  match n with
  | Text _ => false
  | Elem t' _ _ => String.eqb t t'
  end.

(** [class_='c']: [c] is one of the whitespace-separated classes, or the
    whole class attribute. *)
Definition has_class (c : string) (n : node) : bool :=
  match get_attr n "class" with
  | Some v => existsb (String.eqb c) (py_split v) || String.eqb v c
  | None => false
  end.

(** [find_all(name, class_=c)] and [find(...)] for a filter [p]. *)
Definition find_all (p : node -> bool) (n : node) : list node :=
  List.filter p (descendants n).

Definition find_first (p : node -> bool) (n : node) : option node :=
  head (find_all p n).

Definition tag_class (t c : string) (n : node) : bool := is_tag t n && has_class c n.

(** ** [find_previous] *)

(** The elements before position [i] of the document order, nearest
    first, are searched for the first that satisfies [p]. *)
Fixpoint walk_back (p : node -> bool) (before : list node) : option node :=
  match before with
  | [] => None
  | x :: r => if p x then Some x else walk_back p r
  end.

Definition find_previous (p : node -> bool) (order : list node) (i : nat) : option node :=
  walk_back p (rev (take i order)).

(** The positions of the nodes of [order] that satisfy [p], with the nodes:
    the containers a [find_all] returns, with their place in the document. *)
Definition positions (p : node -> bool) (order : list node) : list (nat * node) :=
  List.filter (fun ix => p ix.2) (zip (seq 0 (length order)) order).

(** ** Documents fetched with [requests] *)

(** A page fetch: a transport error, or a status and the parsed document. *)
Inductive fetch_reply :=
  | FetchError
  | FetchOk (status : Z) (doc : node).

(** A web site, as [requests.get(url, headers=HEADERS)] followed by
    [BeautifulSoup(response.content, 'html.parser')] sees it. *)
Class PageSource := fetch_page : string -> fetch_reply.

(** [response.raise_for_status()] raises for the statuses 400-599. *)
Definition raise_for_status (status : Z) : bool := (400 <=? status)%Z && (status <? 600)%Z.

(** ** Facts about the queries *)

(** [walk_back] returns the nearest node satisfying [p]: everything it
    passes over fails [p]. *)
Lemma walk_back_Some (p : node -> bool) (l : list node) (h : node) :
  walk_back p l = Some h <->
  exists l1 l2, l = (l1 ++ h :: l2)%list /\ p h = true /\ Forall (fun x => p x = false) l1.
Proof.
  split.
  - induction l as [|x l IH]; simpl; [discriminate |].
    destruct (p x) eqn:Hx.
    + intros [= <-]. exists [], l. auto.
    + intros (l1 & l2 & -> & Hh & Hl1)%IH. exists (x :: l1), l2. auto.
  - intros (l1 & l2 & -> & Hh & Hl1). induction Hl1 as [|x l1 Hx _ IH]; simpl.
    + by rewrite Hh.
    + by rewrite Hx.
Qed.

Lemma walk_back_None (p : node -> bool) (l : list node) :
  walk_back p l = None <-> Forall (fun x => p x = false) l.
Proof.
  induction l as [|x l IH]; simpl; [split; auto |].
  destruct (p x) eqn:Hx; [split; [discriminate | inversion 1; congruence] |].
  rewrite IH. split; [auto | inversion 1; auto].
Qed.

Lemma walk_back_snoc (p : node -> bool) (l : list node) (x : node) :
  walk_back p (rev (l ++ [x])%list) = if p x then Some x else walk_back p (rev l).
Proof. by rewrite rev_app_distr. Qed.
