(* ===== verification/Json.v ===== *)
(** * Decoded JSON values and the Python operations on them

    [response.json()] of pisa_scraper.py (line 40) gives a Python value
    built from dicts, lists, strings, numbers, booleans and None.  The code
    then uses [key in data], [data[key]] and the truthiness test
    [if pub_html:] (lines 44-46, 53-55).  Python gives these operations
    different meanings on each kind of value, and raises TypeError where
    they make no sense; this file writes them out.  A decoded object keeps
    the last of duplicated keys (as [json.loads] does), so lookups read the
    last binding. *)

From Stdlib Require Import QArith.
From S2P Require Import Prelude PyStr.

Local Set Warnings "-register-all".
Inductive json :=
  | JNull
  | JBool (b : bool)
  | JNum (q : Q)
  | JStr (s : string)
  | JArr (l : list json)
  | JObj (kvs : list (string * json)).

(** The last binding of [k] in an object. *)
Definition obj_lookup (k : string) (kvs : list (string * json)) : option json :=
  fold_left (fun acc kv => if String.eqb kv.1 k then Some kv.2 else acc) kvs None.

Definition is_jstr (k : string) (v : json) : bool :=
  match v with JStr s => String.eqb s k | _ => false end.

(** [k in v] for a string [k]: a key of a dict, an element of a list, a
    substring of a string; TypeError on None, booleans and numbers. *)
Definition json_in (k : string) (v : json) : res bool :=
  match v with
  | JObj kvs => Ok (bool_decide (is_Some (obj_lookup k kvs)))
  | JArr l => Ok (existsb (is_jstr k) l)
  | JStr s => Ok (py_contains k s)
  | _ => Raise TypeError
  end.

(** [v[k]] for a string [k]: KeyError on a dict without [k], TypeError on
    everything that is not a dict. *)
Definition json_getitem (v : json) (k : string) : res json :=
  match v with
  | JObj kvs => match obj_lookup k kvs with Some x => Ok x | None => Raise KeyError end
  | _ => Raise TypeError
  end.

(** [bool(v)]. *)
Definition truthy (v : json) : bool :=
  match v with
  | JNull => false
  | JBool b => b
  | JNum q => negb (Qeq_bool q 0)
  | JStr s => negb (String.eqb s "")
  | JArr l => negb (bool_decide (l = []))
  | JObj kvs => negb (bool_decide (kvs = []))
  end.

(** ** Facts *)

Lemma obj_lookup_snoc (k k' : string) (v : json) (kvs : list (string * json)) :
  obj_lookup k (kvs ++ [(k', v)]) = if String.eqb k' k then Some v else obj_lookup k kvs.
Proof. unfold obj_lookup. by rewrite fold_left_app. Qed.

(** On a dict, [in] and [[]] agree: a key that is [in] can be read. *)
Lemma json_in_getitem (kvs : list (string * json)) (k : string) :
  json_in k (JObj kvs) = Ok true -> exists v, json_getitem (JObj kvs) k = Ok v.
Proof.
  simpl. intros [= Hin]. apply bool_decide_eq_true in Hin as [v Hv].
  exists v. by rewrite Hv.
Qed.
