(* ===== verification/Gender.v ===== *)
(** * Gender enrichment: the offline detector and the cached web lookup

    Two resolvers turn a name into a gender label:
    - [Local]: [get_gender(full_name, detector)] of aarhus_scraper.py
      (lines 23-37) takes the first name after the comma of
      "Lastname, Firstname", capitalises it and asks the offline
      [gender_guesser] detector, mapping its answer to "Female", "Male" or
      "Unknown".  It can raise IndexError, which the crawl loop turns into
      an abort.
    - [Net]: [get_gender(first_name)] of pisa_scraper.py (lines 17-29)
      queries genderize.io and accepts the answer only when its
      probability is strictly above 0.8; every failure gives "unknown".
      [scrape_pisa] (lines 98-104) caches the answer under the lower-cased
      first token, so that a token is looked up at most once per run.
    The detector and the web service are external collaborators, given as
    the typeclass interfaces [GenderDetector] and [GenderizeApi]. *)

From Stdlib Require Import QArith.
From S2P Require Import Prelude PyStr.

(** ** The offline detector (aarhus_scraper.py) *)

(** [gender_guesser.detector.Detector(case_sensitive=True).get_gender]:
    one of "male", "female", "mostly_male", "mostly_female", "andy",
    "unknown". *)
Class GenderDetector := detector_get_gender : string -> string.

Module Local.
Section Local.
Context `{GenderDetector}.

(** [full_name.split(",")[1].strip()] when the name has a comma. *)
Definition name_part_of (full_name : string) : res string :=
  if py_contains "," full_name then
    let? p := py_index (py_split_sep "," full_name) 1 in Ok (py_strip p)
  else Ok full_name.

(** Lines 23-37. *)
Definition get_gender (full_name : string) : res string :=
  if String.eqb full_name "" then Ok "Unknown" else
  let? name_part := name_part_of full_name in
  let? w := py_index (py_split name_part) 0 in
  let guess := detector_get_gender (py_capitalize w) in
  Ok (if py_contains "female" guess then "Female"
      else if py_contains "male" guess then "Male"
      else "Unknown").
End Local.
End Local.

(** ** The web lookup (pisa_scraper.py) *)

(** The decoded body of a genderize.io answer: the ["gender"] and
    ["probability"] members ([None] when absent or null). *)
Record genderize_json := {
  gj_gender : option string;
  gj_probability : option Q
}.

(** An HTTP exchange with genderize.io: a transport error, or a status with
    a body that decodes ([Some]) or not ([None]). *)
Inductive genderize_reply :=
  | GNetError
  | GReply (status : Z) (body : option genderize_json).

Class GenderizeApi := genderize : string -> genderize_reply.

(** The events a run sends to the outside world, in order. *)
Inductive event :=
  | GenderRequest (name : string)
  | DetailRequest (url : string)
  | Sleep (ms : nat).

Module Net.
Section Net.
Context `{GenderizeApi}.

(** [data['probability'] > 0.8]. *)
Definition confident (p : Q) : bool := negb (Qle_bool p (4 # 5)).

(** The answer of lines 23-26 for a decoded 200 reply. *)
Definition accept (j : genderize_json) : option string :=
  match gj_gender j with
  | Some g =>
      if String.eqb g "" then None
      else match gj_probability j with
           | Some p => if confident p then Some g else None
           | None => None
           end
  | None => None
  end.

(** Lines 17-29: every exception is caught and gives "unknown". *)
Definition get_gender (first_name : string) : string :=
  match py_split first_name with
  | [] => "unknown"
  | clean_name :: _ =>
      match genderize clean_name with
      | GReply 200 (Some j) =>
          match accept j with Some g => g | None => "unknown" end
      | _ => "unknown"
      end
  end.

(** The cache of [scrape_pisa], lines 98-104: the key is the lower-cased
    first token; a miss asks genderize.io and sleeps 0.1 s.  The
    IndexError of an empty first name escapes (it is outside any try). *)
Definition gender_lookup (cache : gmap string string) (first_name : string)
  : res (string * gmap string string * list event) :=
  let? w := py_index (py_split first_name) 0 in
  let name_key := py_lower w in
  match cache !! name_key with
  | Some g => Ok (g, cache, [])
  | None =>
      let g := get_gender first_name in
      Ok (g, <[name_key := g]> cache, [GenderRequest w; Sleep 100])
  end.
End Net.
End Net.

(** ** Properties of the offline resolver *)

Module LocalFacts.
Import Local.
Section LocalFacts.
Context `{GenderDetector}.

Lemma label_of_guess_cases (guess : string) :
  let g := if py_contains "female" guess then "Female"
           else if py_contains "male" guess then "Male" else "Unknown" in
  g = "Female" \/ g = "Male" \/ g = "Unknown".
Proof. simpl. destruct (py_contains "female" guess), (py_contains "male" guess); auto. Qed.

(** The offline resolver only ever answers "Female", "Male" or
    "Unknown", the labels the chart script counts. *)
Lemma get_gender_labels (full_name g : string) :
  get_gender full_name = Ok g -> g = "Female" \/ g = "Male" \/ g = "Unknown".
Proof.
  unfold get_gender. case_streq; [intros [= <-]; auto |].
  intros (np & _ & (w & _ & Hg)%res_bind_Ok_inv)%res_bind_Ok_inv.
  injection Hg as <-. apply label_of_guess_cases.
Qed.

Lemma py_split_nonempty_of_clean (s : string) :
  s <> "" -> clean_text s = s -> py_split s <> [].
Proof.
  intros Hne Hc Hs. rewrite clean_text_words, Hs in Hc. simpl in Hc. congruence.
Qed.

(** C17: on a cleaned, non-empty name without a comma (what the table
    cell gives for "Firstname Lastname"), the offline resolver does not
    raise. *)
Theorem get_gender_total (full_name : string) :
  full_name <> "" -> clean_text full_name = full_name ->
  py_contains "," full_name = false ->
  exists g, get_gender full_name = Ok g.
Proof.
  intros Hne Hc Hcomma. unfold get_gender, name_part_of.
  rewrite string_eqb_neq, Hcomma by done. simpl.
  destruct (py_split full_name) as [|w ws] eqn:Hs;
    [by destruct (py_split_nonempty_of_clean full_name) |].
  by eexists.
Qed.

(** The only exception it can raise is IndexError (from
    [split(",")[1]] or [split()[0]]). *)
Lemma get_gender_raise (full_name : string) (e : py_exc) :
  get_gender full_name = Raise e -> e = IndexError.
Proof.
  unfold get_gender, name_part_of, py_index. intros Hr.
  repeat (case_match; simpl in Hr); congruence.
Qed.
End LocalFacts.
End LocalFacts.

(** ** Properties of the web lookup and of its cache *)

Module NetFacts.
Import Net.
Section NetFacts.
Context `{GenderizeApi}.

Lemma confident_spec (p : Q) : confident p = true <-> (4 # 5 < p)%Q.
Proof.
  unfold confident. rewrite negb_true_iff.
  split; intros Hp.
  - apply Qnot_le_lt. intros Hle. apply Qle_bool_iff in Hle. congruence.
  - destruct (Qle_bool p (4 # 5)) eqn:E; [| done].
    apply Qle_bool_iff in E. exfalso. by apply (Qlt_not_le _ _ Hp).
Qed.

(** C7: the confidence threshold is exclusive: a decoded 200 reply that
    names a non-empty gender is accepted exactly when its probability is
    strictly above 0.8; at 0.8 or below the answer is "unknown". *)
Theorem get_gender_threshold (first_name w g : string) (j : genderize_json) (p : Q) :
  head (py_split first_name) = Some w -> genderize w = GReply 200 (Some j) ->
  gj_gender j = Some g -> g <> "" -> gj_probability j = Some p ->
  ((4 # 5 < p)%Q -> get_gender first_name = g) /\
  ((p <= 4 # 5)%Q -> get_gender first_name = "unknown").
Proof.
  intros Hw Hj Hg Hne Hp. unfold get_gender.
  destruct (py_split first_name) as [|w' ws]; simpl in Hw; [discriminate |].
  injection Hw as ->. rewrite Hj. unfold accept. rewrite Hg, Hp, string_eqb_neq by done.
  split; intros Hq.
  - by rewrite (proj2 (confident_spec p) Hq).
  - destruct (confident p) eqn:Hc; [| done].
    apply confident_spec in Hc. exfalso. by apply (Qlt_not_le _ _ Hc).
Qed.

Lemma confident_boundary : confident (4 # 5) = false.
Proof. reflexivity. Qed.

(** The first-name tokens a list of events asks genderize.io about. *)
Definition requests (evs : list event) : list string :=
  flat_map (fun e => match e with GenderRequest w => [w] | _ => [] end) evs.

Lemma requests_app (e1 e2 : list event) : requests (e1 ++ e2) = requests e1 ++ requests e2.
Proof. apply flat_map_app. Qed.

(** The cache invariant: every token asked about is cached under its
    key, and no key was asked about twice. *)
Definition cache_inv (cache : gmap string string) (evs : list event) : Prop :=
  NoDup (py_lower <$> requests evs) /\
  forall w, w ∈ requests evs -> is_Some (cache !! py_lower w).

(** A lookup only adds to the cache, and keeps the invariant. *)
Lemma gender_lookup_inv (cache cache' : gmap string string) (evs evs' : list event)
      (first_name g : string) :
  gender_lookup cache first_name = Ok (g, cache', evs') ->
  cache_inv cache evs ->
  cache ⊆ cache' /\ cache_inv cache' (evs ++ evs').
Proof.
  unfold gender_lookup. intros (w & _ & Hl)%res_bind_Ok_inv [Hnd Hin].
  destruct (cache !! py_lower w) as [g0|] eqn:Hc.
  - injection Hl as <- <- <-. rewrite app_nil_r. done.
  - injection Hl as <- <- <-. split; [by apply insert_subseteq |].
    unfold cache_inv. rewrite requests_app, fmap_app. simpl. split.
    + apply NoDup_app. split; [done |]. split; [| apply NoDup_singleton].
      intros k Hk ->%list_elem_of_singleton.
      apply list_elem_of_fmap in Hk as (w' & Hw' & Hin').
      destruct (Hin w' Hin') as [x Hx]. congruence.
    + intros w' [Hw' | ->%list_elem_of_singleton]%elem_of_app.
      * destruct (decide (py_lower w = py_lower w')) as [<-|Hne];
          [by rewrite lookup_insert_eq | rewrite lookup_insert_ne; auto].
      * by rewrite lookup_insert_eq.
Qed.

(** The cache only grows. *)
Lemma gender_lookup_subseteq (cache cache' : gmap string string) (evs : list event)
      (first_name g : string) :
  gender_lookup cache first_name = Ok (g, cache', evs) -> cache ⊆ cache'.
Proof.
  unfold gender_lookup. intros (w & _ & Hl)%res_bind_Ok_inv.
  destruct (cache !! py_lower w) eqn:Hc; injection Hl as <- <- <-; [done |].
  by apply insert_subseteq.
Qed.

(** The key a first name is cached under: its lower-cased first token. *)
Definition name_key (first_name : string) : option string :=
  py_lower <$> head (py_split first_name).

(** After a lookup the answer is cached under the name's key. *)
Lemma gender_lookup_cached (cache cache' : gmap string string) (evs : list event)
      (first_name g : string) :
  gender_lookup cache first_name = Ok (g, cache', evs) ->
  exists k, name_key first_name = Some k /\ cache' !! k = Some g.
Proof.
  unfold gender_lookup, name_key, py_index. intros Hl.
  destruct (py_split first_name) as [|w ws]; [done |]. simpl in Hl.
  exists (py_lower w). split; [done |].
  destruct (cache !! py_lower w) eqn:Hc; injection Hl as <- <- <-; [done |].
  by rewrite lookup_insert_eq.
Qed.

(** A cache hit asks nothing and returns the cached label. *)
Lemma gender_lookup_hit (cache : gmap string string) (first_name w g : string) :
  head (py_split first_name) = Some w -> cache !! py_lower w = Some g ->
  gender_lookup cache first_name = Ok (g, cache, []).
Proof.
  intros Hw Hc. unfold gender_lookup, py_index.
  destruct (py_split first_name); simpl in *; [discriminate |].
  injection Hw as ->. simpl. by rewrite Hc.
Qed.
End NetFacts.
End NetFacts.

Module GenderWitness.
Import Local LocalFacts Net NetFacts.

#[local] Instance demo_detector : GenderDetector :=
  fun n => if String.eqb n "Anna" then "female"
           else if String.eqb n "Bo" then "mostly_male" else "andy".

Lemma get_gender_total_witness :
  "Bo Lund" <> "" /\ clean_text "Bo Lund" = "Bo Lund" /\ py_contains "," "Bo Lund" = false /\
  exists g, Local.get_gender "Bo Lund" = Ok g.
Proof.
  refine (conj _ (conj _ (conj _ _))); [discriminate | vm_compute; reflexivity | vm_compute; reflexivity |].
  apply get_gender_total; [discriminate | vm_compute; reflexivity | vm_compute; reflexivity].
Defined.

(** genderize.io answering with probability exactly 0.8. *)
#[local] Instance boundary_api : GenderizeApi :=
  fun _ => GReply 200 (Some {| gj_gender := Some "female"; gj_probability := Some (4 # 5)%Q |}).

Lemma get_gender_threshold_witness :
  head (py_split "Maria Rossi") = Some "Maria" /\
  genderize "Maria" = GReply 200 (Some {| gj_gender := Some "female"; gj_probability := Some (4 # 5)%Q |}) /\
  Net.get_gender "Maria Rossi" = "unknown".
Proof.
  assert (H1 : head (py_split "Maria Rossi") = Some "Maria") by (vm_compute; reflexivity).
  assert (H2 : genderize "Maria" =
               GReply 200 (Some {| gj_gender := Some "female"; gj_probability := Some (4 # 5)%Q |}))
    by reflexivity.
  split_and!; [exact H1 | exact H2 |].
  apply (proj2 (get_gender_threshold "Maria Rossi" "Maria" "female" _ (4 # 5) H1 H2 eq_refl
                  ltac:(discriminate) eq_refl)).
  apply Qle_refl.
Defined.
End GenderWitness.
