(* ===== verification/Aarhus.v ===== *)
(** * One page of the Aarhus staff directory (aarhus_scraper.py)

    The body of the [while] loop of [scrape_aarhus] (lines 50-127), split
    the way the code nests it:
    - [extract_row] reads the six positional cells of a row (lines 74-86);
    - [row_step] is one iteration of [for row in rows] (lines 69-103):
      skip a row without cells, deduplicate on [unique_id] against
      [seen_ids], resolve the gender, append the record;
    - [container_step] is one iteration of [for container in person_lists]
      (lines 58-103), with the category of the nearest preceding
      "csc-header" heading (lines 60-63);
    - [extract_page] runs the containers of a page; [find_next_link]
      (lines 106-112) and [next_url] (lines 114-123) choose the next page;
    - [page_step] is the whole loop body with its [try]: the fetch, the
      extraction and the choice of the next URL, any exception ending the
      crawl with the records gathered so far.
    The state the loop mutates ([all_staff_data], [seen_ids]) is the record
    [acc]; the site is the interface [PageSource]. *)

From S2P Require Import Prelude PyStr Html Gender.

(** One output row of aarhus_staff.csv (lines 93-103). *)
Record staff := {
  st_category : string;
  st_name : string;
  st_gender : string;
  st_job_title : string;
  st_email : string;
  st_phone : string;
  st_mobile : string;
  st_building : string;
  st_profile_link : string
}.

(** [all_staff_data] and [seen_ids]. *)
Record acc := {
  records : list staff;
  seen_ids : gset string
}.

(** The cells of a row as read by lines 74-86, before deduplication. *)
Record raw_row := {
  rr_name : string;
  rr_profile_link : string;
  rr_job_title : string;
  rr_email : string;
  rr_phone : string;
  rr_mobile : string;
  rr_building : string
}.

(** [urllib.parse.urljoin], a library function the code only calls. *)
Class UrlJoin := urljoin : string -> string -> string.

(** How a page ends the loop body. *)
Inductive page_end :=
  | NextPage (url : string)
  | LastPage
  | PageError (e : py_exc).

Module Aarhus.

(** ** Cells (lines 74-86) *)

(** [clean_text(a.text) if a else clean_text(cell.text)] for the first
    link [a] of the cell. *)
Definition link_or_cell_text (cell : node) : string :=
  match find_first (is_tag "a") cell with
  | Some a => clean_text (node_text a)
  | None => clean_text (node_text cell)
  end.

(** Lines 77-79: a relative link is glued to the site origin. *)
Definition absolute_profile (link : string) : string :=
  if negb (String.eqb link "") && negb (py_startswith link "http")
  then String.append "https://cs.au.dk" link else link.

Definition extract_row (cols : list node) : res raw_row :=
  let? c0 := py_index cols 0 in
  let name := link_or_cell_text c0 in
  let? profile_link :=
    match find_first (is_tag "a") c0 with
    | Some a => py_attr a "href"
    | None => Ok ""
    end in
  let? c1 := py_index cols 1 in
  let? c2 := py_index cols 2 in
  let? c3 := py_index cols 3 in
  let? c4 := py_index cols 4 in
  let? c5 := py_index cols 5 in
  Ok {| rr_name := name;
        rr_profile_link := absolute_profile profile_link;
        rr_job_title := clean_text (node_text c1);
        rr_email := link_or_cell_text c2;
        rr_phone := clean_text (node_text c3);
        rr_mobile := clean_text (node_text c4);
        rr_building := clean_text (node_text c5) |}.

(** [unique_id = email if email else name] (line 89). *)
Definition unique_id (email name : string) : string :=
  if String.eqb email "" then name else email.

Definition staff_uid (s : staff) : string := unique_id (st_email s) (st_name s).

Definition mk_staff (category : string) (r : raw_row) (gender : string) : staff :=
  {| st_category := category; st_name := rr_name r; st_gender := gender;
     st_job_title := rr_job_title r; st_email := rr_email r;
     st_phone := rr_phone r; st_mobile := rr_mobile r;
     st_building := rr_building r; st_profile_link := rr_profile_link r |}.

Section Page.
Context `{GenderDetector} `{PageSource}.

(** ** One row (lines 70-103) *)

(** The key is added to [seen_ids] before [get_gender] runs, so an
    exception of [get_gender] leaves the key seen and the record out. *)
Definition row_step (category : string) (row : node) (a : acc) : flow acc :=
  match find_all (is_tag "td") row with
  | [] => Cont a
  | cols =>
      match extract_row cols with
      | Raise e => Stop e a
      | Ok r =>
          let uid := unique_id (rr_email r) (rr_name r) in
          if decide (uid ∈ seen_ids a) then Cont a
          else
            let seen' := {[uid]} ∪ seen_ids a in
            match Local.get_gender (rr_name r) with
            | Raise e => Stop e {| records := records a; seen_ids := seen' |}
            | Ok g => Cont {| records := records a ++ [mk_staff category r g];
                              seen_ids := seen' |}
            end
      end
  end.

(** ** One container (lines 58-103) *)

Definition is_header : node -> bool := tag_class "div" "csc-header".
Definition is_persons : node -> bool := tag_class "div" "pure5-persons".

(** The category of a heading: the cleaned text of its first h2. *)
Definition header_category (h : node) : string :=
  match find_first (is_tag "h2") h with
  | Some h2 => clean_text (node_text h2)
  | None => "Unknown"
  end.

Definition category_of (header : option node) : string :=
  match header with
  | Some h => header_category h
  | None => "Unknown"
  end.

(** Lines 60-63, for the container at position [i] of the document. *)
Definition container_category (order : list node) (i : nat) : string :=
  category_of (find_previous is_header order i).

Definition container_step (order : list node) (ix : nat * node) (a : acc) : flow acc :=
  let category := container_category order ix.1 in
  match find_first (tag_class "table" "pure-persons-table") ix.2 with
  | None => Cont a
  | Some table => for_each (row_step category) (find_all (is_tag "tr") table) a
  end.

(** Lines 55-103: every "pure5-persons" container of the page. *)
Definition extract_page (doc : node) (a : acc) : flow acc :=
  let order := descendants doc in
  for_each (container_step order) (positions is_persons order) a.

(** ** The next page (lines 106-123) *)

Definition is_browsebox : node -> bool := tag_class "div" "tx-pure-pure5-browsebox".

(** [box.find('a', string=lambda t: t and "Next" in t)]. *)
Definition is_next_anchor (n : node) : bool :=
  is_tag "a" n &&
  match node_string n with
  | Some t => negb (String.eqb t "") && py_contains "Next" t
  | None => false
  end.

Fixpoint next_in_boxes (boxes : list node) : res (option string) :=
  match boxes with
  | [] => Ok None
  | b :: bs =>
      match find_first is_next_anchor b with
      | Some c => res_map Some (py_attr c "href")
      | None => next_in_boxes bs
      end
  end.

Definition find_next_link (doc : node) : res (option string) :=
  next_in_boxes (find_all is_browsebox doc).

Context `{UrlJoin}.

(** Lines 114-123: an empty link ends the crawl; a relative one is
    joined to the site root; a link back to the page just fetched ends
    the crawl (the cycle guard). *)
Definition next_url (current : string) (next : option string) : option string :=
  match next with
  | None => None
  | Some l =>
      if String.eqb l "" then None
      else
        let l' := if py_startswith l "http" then l else urljoin "https://cs.au.dk/" l in
        if String.eqb l' current then None else Some l'
  end.

(** ** The loop body (lines 50-127) *)

(** The [try] block: fetch, extract, choose the next page.  Whatever it
    raises ends the crawl with the records appended so far. *)
Definition page_step (current : string) (a : acc) : acc * page_end :=
  match fetch_page current with
  | FetchError => (a, PageError RequestError)
  | FetchOk status doc =>
      if raise_for_status status then (a, PageError RequestError)
      else
        match extract_page doc a with
        | Stop e a' => (a', PageError e)
        | Cont a' =>
            match find_next_link doc with
            | Raise e => (a', PageError e)
            | Ok next =>
                match next_url current next with
                | Some u => (a', NextPage u)
                | None => (a', LastPage)
                end
            end
        end
  end.
End Page.

End Aarhus.

(** ** Category inheritance *)

Module AarhusCategory.
Import Aarhus.

(** The single left-to-right pass of the design: a current category,
    replaced at every heading, given to every container that follows. *)
Fixpoint scan_categories (cur : string) (order : list node) : list string :=
  match order with
  | [] => []
  | x :: order' =>
      (if is_persons x then [cur] else []) ++
      scan_categories (if is_header x then header_category x else cur) order'
  end.

Lemma container_categories_from (l1 l2 : list node) :
  map (fun ix => container_category (l1 ++ l2) ix.1)
      (List.filter (fun ix => is_persons ix.2) (zip (seq (length l1) (length l2)) l2)) =
  scan_categories (category_of (walk_back is_header (rev l1))) l2.
Proof.
  revert l1. induction l2 as [|x l2 IH]; intros l1; [done |].
  simpl.
  assert (Hnext : (if is_header x then header_category x
                   else category_of (walk_back is_header (rev l1))) =
                  category_of (walk_back is_header (rev (l1 ++ [x])))).
  { rewrite walk_back_snoc. by destruct (is_header x). }
  assert (Hcat : container_category (l1 ++ x :: l2) (length l1) =
                 category_of (walk_back is_header (rev l1))).
  { unfold container_category, find_previous. by rewrite take_app_length. }
  rewrite Hnext, <- IH, length_app, Nat.add_1_r, <- app_assoc. simpl.
  destruct (is_persons x); simpl; by rewrite ?Hcat.
Qed.

(** C4: the category the code finds by walking back from each container
    to the nearest preceding "csc-header" div (find_previous) is the one a
    single forward pass assigns: "Unknown" before the first heading, then
    the category of the latest heading, for every container up to the next
    heading. *)
Theorem container_categories_scan (doc : node) :
  map (fun ix => container_category (descendants doc) ix.1)
      (positions is_persons (descendants doc)) =
  scan_categories "Unknown" (descendants doc).
Proof. apply (container_categories_from [] (descendants doc)). Qed.

End AarhusCategory.

(** ** Deduplication and the rows *)

Module AarhusRows.
Import Aarhus.

(** The cells [row.find_all('td')] of a row. *)
Definition cells (row : node) : list node := find_all (is_tag "td") row.

(** The invariant of [all_staff_data] and [seen_ids]: no two records share
    an identity key, and every record's key is in [seen_ids]. *)
Definition acc_inv (a : acc) : Prop :=
  NoDup (staff_uid <$> records a) /\ forall s, s ∈ records a -> staff_uid s ∈ seen_ids a.

Lemma acc_inv_empty : acc_inv {| records := []; seen_ids := ∅ |}.
Proof. split; [constructor | intros s Hs; inversion Hs]. Qed.

Section Rows.
Context `{GenderDetector} `{PageSource} `{UrlJoin}.

Lemma row_step_inv (cat : string) (row : node) (a : acc) :
  acc_inv a -> acc_inv (flow_state (row_step cat row a)).
Proof.
  intros [Hnd Hseen]. unfold row_step.
  destruct (find_all (is_tag "td") row) as [|c cs]; [by split |].
  destruct (extract_row (c :: cs)) as [r|e]; [| by split].
  case_decide as Hin; [by split |].
  destruct (Local.get_gender (rr_name r)) as [g|e]; cbn [flow_state records seen_ids]; split.
  - cbn -[fmap]. rewrite fmap_app. simpl. apply NoDup_app. split; [done |].
    split; [| apply NoDup_singleton].
    intros k (s & -> & Hs)%list_elem_of_fmap Heq%list_elem_of_singleton.
    apply Hin. change (unique_id (rr_email r) (rr_name r))
      with (staff_uid (mk_staff cat r g)).
    rewrite <- Heq. apply Hseen, Hs.
  - intros s [Hs | ->%list_elem_of_singleton]%elem_of_app;
      [apply elem_of_union_r, Hseen, Hs | apply elem_of_union_l, elem_of_singleton; done].
  - done.
  - intros s Hs. apply elem_of_union_r, Hseen, Hs.
Qed.

(** The records already gathered are never changed: a row only appends. *)
Lemma row_step_prefix (cat : string) (row : node) (a : acc) :
  records a `prefix_of` records (flow_state (row_step cat row a)).
Proof.
  unfold row_step.
  destruct (find_all (is_tag "td") row) as [|c cs]; [done |].
  destruct (extract_row (c :: cs)) as [r|e]; [| done].
  case_decide; [done |].
  destruct (Local.get_gender (rr_name r)); simpl; [by apply prefix_app_r |done].
Qed.

(** A property of the accumulator that every row keeps is kept by a
    container, a page extraction and a whole loop body, whatever they
    raise. *)
Section Preserve.
Variable P : acc -> Prop.
Hypothesis row_step_P : forall cat row a, P a -> P (flow_state (row_step cat row a)).

Lemma container_step_pres (order : list node) (ix : nat * node) (a : acc) :
  P a -> P (flow_state (container_step order ix a)).
Proof.
  intros Ha. unfold container_step.
  destruct (find_first _ ix.2); [| done].
  apply for_each_inv; [apply row_step_P | done].
Qed.

Lemma extract_page_pres (doc : node) (a : acc) :
  P a -> P (flow_state (extract_page doc a)).
Proof. apply for_each_inv, container_step_pres. Qed.

Lemma page_step_pres (current : string) (a : acc) :
  P a -> P (page_step current a).1.
Proof.
  intros Ha. unfold page_step.
  destruct (fetch_page current) as [|status doc]; [done |].
  destruct (raise_for_status status); [done |].
  pose proof (extract_page_pres doc a Ha) as Hx.
  destruct (extract_page doc a) as [a'|e a']; [| done].
  destruct (find_next_link doc); [destruct (next_url _ _) |]; done.
Qed.
End Preserve.

Lemma extract_page_inv (doc : node) (a : acc) :
  acc_inv a -> acc_inv (flow_state (extract_page doc a)).
Proof. apply extract_page_pres, row_step_inv. Qed.

Lemma page_step_inv (current : string) (a : acc) :
  acc_inv a -> acc_inv (page_step current a).1.
Proof. apply page_step_pres, row_step_inv. Qed.

Lemma page_step_prefix (current : string) (a : acc) :
  records a `prefix_of` records (page_step current a).1.
Proof.
  apply (page_step_pres (fun s => records a `prefix_of` records s)); [| done].
  intros cat row s Hs. etrans; [exact Hs | apply row_step_prefix].
Qed.

(** Every record carries the gender the offline resolver gives for its
    name: the label is computed from the name kept in the record. *)
Definition genders_resolved (a : acc) : Prop :=
  forall s, s ∈ records a -> Local.get_gender (st_name s) = Ok (st_gender s).

Lemma row_step_resolved (cat : string) (row : node) (a : acc) :
  genders_resolved a -> genders_resolved (flow_state (row_step cat row a)).
Proof.
  intros Ha. unfold row_step.
  destruct (find_all (is_tag "td") row) as [|c cs]; [done |].
  destruct (extract_row (c :: cs)) as [r|e]; [| done].
  case_decide; [done |].
  destruct (Local.get_gender (rr_name r)) as [g|e] eqn:Hg; [| done].
  intros s [Hs | ->%list_elem_of_singleton]%elem_of_app; [by apply Ha | done].
Qed.

(** A row whose identity key was seen leaves the state unchanged. *)
Lemma row_step_dup (cat : string) (row : node) (a : acc) (r : raw_row) :
  cells row <> [] -> extract_row (cells row) = Ok r ->
  unique_id (rr_email r) (rr_name r) ∈ seen_ids a ->
  row_step cat row a = Cont a.
Proof.
  unfold row_step, cells. intros Hne Hr Hin.
  destruct (find_all (is_tag "td") row); [done |]. rewrite Hr. by case_decide.
Qed.

(** A row with a new key is recorded, with its gender, at the end. *)
Lemma row_step_admit (cat : string) (row : node) (a : acc) (r : raw_row) (g : string) :
  cells row <> [] -> extract_row (cells row) = Ok r ->
  unique_id (rr_email r) (rr_name r) ∉ seen_ids a ->
  Local.get_gender (rr_name r) = Ok g ->
  row_step cat row a =
    Cont {| records := records a ++ [mk_staff cat r g];
            seen_ids := {[unique_id (rr_email r) (rr_name r)]} ∪ seen_ids a |}.
Proof.
  unfold row_step, cells. intros Hne Hr Hin Hg.
  destruct (find_all (is_tag "td") row); [done |]. rewrite Hr.
  case_decide; [done |]. by rewrite Hg.
Qed.

(** C2: deduplication: of two rows with the same identity key (e-mail,
    or name when the e-mail is empty) only the first is recorded, whatever
    their other cells; the key is then in [seen_ids]. *)
Theorem dedup_first_wins (cat : string) (row1 row2 : node) (a : acc)
    (r1 r2 : raw_row) (g : string) :
  cells row1 <> [] -> cells row2 <> [] ->
  extract_row (cells row1) = Ok r1 -> extract_row (cells row2) = Ok r2 ->
  unique_id (rr_email r2) (rr_name r2) = unique_id (rr_email r1) (rr_name r1) ->
  unique_id (rr_email r1) (rr_name r1) ∉ seen_ids a ->
  Local.get_gender (rr_name r1) = Ok g ->
  for_each (row_step cat) [row1; row2] a =
    Cont {| records := records a ++ [mk_staff cat r1 g];
            seen_ids := {[unique_id (rr_email r1) (rr_name r1)]} ∪ seen_ids a |}.
Proof.
  intros Hne1 Hne2 Hr1 Hr2 Hkey Hnew Hg. simpl.
  rewrite (row_step_admit cat row1 a r1 g) by done.
  rewrite (row_step_dup cat row2 _ r2); [done | done | done |].
  simpl. rewrite Hkey. set_solver.
Qed.

Lemma extract_row_short (c0 : node) (cs : list node) :
  length cs < 5 ->
  (forall l, find_first (is_tag "a") c0 = Some l -> has_attr l "href" = true) ->
  extract_row (c0 :: cs) = Raise IndexError.
Proof.
  intros Hlen Hhref. unfold extract_row. simpl.
  destruct (find_first (is_tag "a") c0) as [l|] eqn:Hl.
  - specialize (Hhref l eq_refl). unfold py_attr, has_attr in *.
    destruct (get_attr l "href"); [simpl | discriminate].
    destruct cs as [|c1 [|c2 [|c3 [|c4 [|c5 cs]]]]]; simpl in *; done || lia.
  - simpl. destruct cs as [|c1 [|c2 [|c3 [|c4 [|c5 cs]]]]]; simpl in *; done || lia.
Qed.

(** C12: a row with one to five cells is not skipped: [cols[k]] raises
    IndexError, which leaves the row loop with the state unchanged; the
    [except] of the page loop then ends the whole crawl.  (The spec asks
    for such rows to be skipped silently; the code only skips rows with
    no cell at all.) *)
Theorem short_row_aborts (cat : string) (row c0 : node) (a : acc) :
  head (cells row) = Some c0 -> length (cells row) < 6 ->
  (forall l, find_first (is_tag "a") c0 = Some l -> has_attr l "href" = true) ->
  row_step cat row a = Stop IndexError a.
Proof.
  unfold row_step, cells. intros Hhd Hlen Hhref.
  destruct (find_all (is_tag "td") row) as [|c cs]; [discriminate |].
  injection Hhd as ->. simpl in Hlen.
  by rewrite extract_row_short by (done || lia).
Qed.

(** C19: a relative profile link that does not start with "/" is glued
    to the origin without a slash ("people/x" becomes
    "https://cs.au.dkpeople/x"), so the result is not a URL of the site;
    the spec asks relative links to be resolved against the origin. *)
Theorem absolute_profile_glued (link : string) :
  link <> "" -> py_startswith link "http" = false -> py_startswith link "/" = false ->
  absolute_profile link = String.append "https://cs.au.dk" link /\
  py_startswith (absolute_profile link) "https://cs.au.dk/" = false.
Proof.
  intros Hne Hhttp Hslash. unfold absolute_profile.
  rewrite string_eqb_neq, Hhttp by done. cbn [negb andb]. split; [done |].
  unfold py_startswith in *.
  change "https://cs.au.dk/" with (String.append "https://cs.au.dk" "/").
  by rewrite prefix_app.
Qed.

(** C20: a row whose e-mail and name cells are both empty is not dropped:
    its identity key is the empty string, and the first such row is
    recorded (with gender "Unknown"); the spec asks for it to be dropped
    before deduplication. *)
Theorem blank_row_recorded (cat : string) (row : node) (a : acc) (r : raw_row) :
  cells row <> [] -> extract_row (cells row) = Ok r ->
  rr_email r = "" -> rr_name r = "" -> "" ∉ seen_ids a ->
  row_step cat row a =
    Cont {| records := records a ++ [mk_staff cat r "Unknown"]; seen_ids := {[""]} ∪ seen_ids a |}.
Proof.
  intros Hne Hr He Hn Hseen.
  assert (Hk : unique_id (rr_email r) (rr_name r) = "") by (rewrite He, Hn; reflexivity).
  pose proof (row_step_admit cat row a r "Unknown" Hne Hr) as Hadm.
  rewrite Hk in Hadm. apply Hadm; [done |]. rewrite Hn. reflexivity.
Qed.
End Rows.
End AarhusRows.

(** ** Sample pages in the shape of cs.au.dk, for the witnesses *)

Module AarhusDemo.
Definition td (s : string) : node := Elem "td" [] [Text s].
Definition link (href txt : string) : node := Elem "a" [("href", href)] [Text txt].

(** A table row in the shape of cs.au.dk: name with profile link, title,
    e-mail link, phone, mobile, building. *)
Definition person_row (name email : string) : node :=
  Elem "tr" []
    [Elem "td" [] [link "/en/staff" name]; td "Professor";
     Elem "td" [] [link (String.append "mailto:" email) email];
     td " +45 8715 0000"; td ""; td "  Nygaard  "].

Definition browsebox (next : option string) : node :=
  Elem "div" [("class", "tx-pure-pure5-browsebox")]
    (match next with Some u => [link u "Next >"] | None => [] end).

Definition page (heading : string) (rows : list node) (next : option string) : node :=
  Elem "[document]" []
    [Elem "div" [("class", "csc-header")] [Elem "h2" [] [Text heading]];
     Elem "div" [("class", "pure5-persons")]
       [Elem "table" [("class", "pure-persons-table")] rows];
     browsebox next].

End AarhusDemo.

Module AarhusWitness.
Import Aarhus AarhusRows AarhusDemo.

#[local] Instance demo_detector : GenderDetector :=
  fun n => if String.eqb n "Anna" then "female" else "unknown".

Definition blank_raw : raw_row :=
  {| rr_name := ""; rr_profile_link := ""; rr_job_title := ""; rr_email := "";
     rr_phone := ""; rr_mobile := ""; rr_building := "" |}.

Definition row_a : node := person_row "Anna Holm" "ah@cs.au.dk".
Definition row_b : node := person_row "A. Holm" "ah@cs.au.dk".
Definition acc0 : acc := {| records := []; seen_ids := ∅ |}.

Lemma dedup_first_wins_witness :
  cells row_a <> [] /\ cells row_b <> [] /\
  extract_row (cells row_a) = Ok (res_catch (extract_row (cells row_a)) blank_raw) /\
  extract_row (cells row_b) = Ok (res_catch (extract_row (cells row_b)) blank_raw) /\
  for_each (row_step "Faculty") [row_a; row_b] acc0 =
    Cont {| records := records acc0 ++
                       [mk_staff "Faculty" (res_catch (extract_row (cells row_a)) blank_raw) "Female"];
            seen_ids := {[unique_id "ah@cs.au.dk" "Anna Holm"]} ∪ seen_ids acc0 |}.
Proof.
  refine (conj _ (conj _ (conj _ (conj _ _)))).
  5: apply (dedup_first_wins "Faculty" row_a row_b acc0
              (res_catch (extract_row (cells row_a)) blank_raw)
              (res_catch (extract_row (cells row_b)) blank_raw) "Female");
       (vm_compute; reflexivity) || (vm_compute; discriminate) || (vm_compute; set_solver).
  all: (vm_compute; reflexivity) || (vm_compute; discriminate).
Defined.

(** A row of three cells, as a partly filled table line would give. *)
Definition short_row : node :=
  Elem "tr" [] [Elem "td" [] [link "/en/staff" "Anna Holm"]; td "Professor"; td "ah@cs.au.dk"].

Lemma short_row_aborts_witness :
  head (cells short_row) = Some (Elem "td" [] [link "/en/staff" "Anna Holm"]) /\
  length (cells short_row) < 6 /\
  row_step "Faculty" short_row acc0 = Stop IndexError acc0.
Proof.
  refine (conj _ (conj _ _)); [vm_compute; reflexivity | vm_compute; lia |].
  apply (short_row_aborts "Faculty" short_row (Elem "td" [] [link "/en/staff" "Anna Holm"]) acc0);
    [vm_compute; reflexivity | vm_compute; lia |].
  intros l Hl. vm_compute in Hl. injection Hl as <-. vm_compute. reflexivity.
Defined.
Lemma absolute_profile_glued_witness :
  "people/jdoe" <> "" /\ py_startswith "people/jdoe" "http" = false /\
  py_startswith "people/jdoe" "/" = false /\
  absolute_profile "people/jdoe" = String.append "https://cs.au.dk" "people/jdoe" /\
  py_startswith (absolute_profile "people/jdoe") "https://cs.au.dk/" = false.
Proof.
  refine (conj _ (conj _ (conj _ _))); [discriminate | reflexivity | reflexivity |].
  apply absolute_profile_glued; [discriminate | reflexivity | reflexivity].
Defined.

Definition blank_row : node :=
  Elem "tr" [] [td ""; td ""; td ""; td ""; td ""; td ""].

Lemma blank_row_recorded_witness :
  cells blank_row <> [] /\
  extract_row (cells blank_row) = Ok (res_catch (extract_row (cells blank_row)) blank_raw) /\
  rr_email (res_catch (extract_row (cells blank_row)) blank_raw) = "" /\
  rr_name (res_catch (extract_row (cells blank_row)) blank_raw) = "" /\
  ("" ∉ seen_ids acc0) /\
  row_step "Faculty" blank_row acc0 =
    Cont {| records := records acc0 ++
              [mk_staff "Faculty" (res_catch (extract_row (cells blank_row)) blank_raw) "Unknown"];
            seen_ids := {[""]} ∪ seen_ids acc0 |}.
Proof.
  refine (conj _ (conj _ (conj _ (conj _ (conj _ _)))));
    [vm_compute; discriminate | vm_compute; reflexivity | vm_compute; reflexivity
    | vm_compute; reflexivity | set_solver |].
  apply blank_row_recorded;
    [vm_compute; discriminate | vm_compute; reflexivity | vm_compute; reflexivity
    | vm_compute; reflexivity | set_solver].
Defined.
End AarhusWitness.
