(* ===== verification/AarhusSpec.v ===== *)
(** * An abstract specification of the extraction of one Aarhus page

    [extract_page] (aarhus_scraper.py, lines 55-103) is three nested
    loops (containers, their table, its rows) threading the records and
    the set [seen_ids] through [row_step], with early exits on
    exceptions.  This file states what it computes without HTML, loops
    or sets:
    - [page_rows]: the rows of the page in document order, each with the
      category of its container;
    - [row_record]: the record a row gives (none for a row without cells);
    - [keep_first]: the deduplication as a function on lists: an element
      is kept when its key is neither among the keys already seen nor the
      key of an element kept before it.
    When no row raises, [extract_page] appends [keep_first] of the page's
    records and adds their keys to [seen_ids] ([extract_page_refines]).
    [keep_first] keeps, for every new key, exactly its first record, and
    no key twice. *)

From S2P Require Import Prelude PyStr Html Gender Aarhus.

Local Open Scope string_scope.
Local Open Scope list_scope.
Local Set Warnings "-clear-no-such-hyp".

Module AarhusSpec.
Import Aarhus AarhusRows.

(** The deduplication of lines 89-91, on a list of records. *)
Fixpoint keep_first (seen : gset string) (l : list staff) : list staff :=
  match l with
  | [] => []
  | s :: l' =>
      if decide (staff_uid s ∈ seen) then keep_first seen l'
      else s :: keep_first ({[staff_uid s]} ∪ seen) l'
  end.

(** The keys of a list of records. *)
Definition keys (l : list staff) : gset string := list_to_set (staff_uid <$> l).

Section Spec.
Context `{GenderDetector}.

(** The rows of a page, in document order, with their category. *)
Definition container_rows (order : list node) (ix : nat * node) : list (string * node) :=
  match find_first (tag_class "table" "pure-persons-table") ix.2 with
  | None => []
  | Some table => map (fun row => (container_category order ix.1, row)) (find_all (is_tag "tr") table)
  end.

Definition page_rows (doc : node) : list (string * node) :=
  concat (map (container_rows (descendants doc)) (positions is_persons (descendants doc))).

(** The record of a row whose cells extract, with the gender of its
    name. *)
Definition staff_of (cat : string) (r : raw_row) : staff :=
  mk_staff cat r (res_catch (Local.get_gender (rr_name r)) "").

Definition row_record (cr : string * node) : list staff :=
  match cells cr.2 with
  | [] => []
  | cs => match extract_row cs with Ok r => [staff_of cr.1 r] | Raise _ => [] end
  end.

Definition page_records (doc : node) : list staff := concat (map row_record (page_rows doc)).

(** A row that raises nothing: no cells, or cells that extract and a name
    that resolves. *)
Definition row_ok (cr : string * node) : Prop :=
  cells cr.2 = [] \/
  exists r g, extract_row (cells cr.2) = Ok r /\ Local.get_gender (rr_name r) = Ok g.

Definition row_okb (cr : string * node) : bool :=
  match cells cr.2 with
  | [] => true
  | cs => match extract_row cs with
          | Ok r => match Local.get_gender (rr_name r) with Ok _ => true | Raise _ => false end
          | Raise _ => false
          end
  end.

(** ** The list deduplication *)

Lemma keys_nil : keys [] = ∅.
Proof. done. Qed.

Lemma keys_cons (s : staff) (l : list staff) : keys (s :: l) = {[staff_uid s]} ∪ keys l.
Proof. done. Qed.

Lemma keys_app (l1 l2 : list staff) : keys (l1 ++ l2) = keys l1 ∪ keys l2.
Proof. unfold keys. by rewrite fmap_app, list_to_set_app_L. Qed.

Lemma keep_first_app (seen : gset string) (l1 l2 : list staff) :
  keep_first seen (l1 ++ l2) = keep_first seen l1 ++ keep_first (keys l1 ∪ seen) l2.
Proof.
  revert seen. induction l1 as [|s l1 IH]; intros seen; simpl.
  - f_equal. unfold keys. simpl. set_solver.
  - assert (Hk : forall X, keys (s :: l1) ∪ X = keys l1 ∪ ({[staff_uid s]} ∪ X))
      by (intros X; unfold keys; simpl; set_solver).
    case_decide as Hin; simpl; rewrite IH, Hk; [| done].
    by replace ({[staff_uid s]} ∪ seen) with seen by set_solver.
Qed.

Lemma keep_first_new (seen : gset string) (l : list staff) :
  Forall (fun s => staff_uid s ∉ seen) (keep_first seen l).
Proof.
  revert seen. induction l as [|s l IH]; intros seen; simpl; [done |].
  case_decide as Hin; [done |]. constructor; [done |].
  eapply Forall_impl; [apply IH | set_solver].
Qed.

Lemma keep_first_nodup (seen : gset string) (l : list staff) :
  NoDup (staff_uid <$> keep_first seen l).
Proof.
  revert seen. induction l as [|s l IH]; intros seen; simpl; [constructor |].
  case_decide as Hin; [done |]. simpl. constructor; [| apply IH].
  intros (t & Ht & Hmem)%list_elem_of_fmap.
  pose proof (keep_first_new ({[staff_uid s]} ∪ seen) l) as Hn.
  rewrite Forall_forall in Hn. apply (Hn t Hmem). set_solver.
Qed.

Lemma keep_first_sublist (seen : gset string) (l : list staff) : keep_first seen l `sublist_of` l.
Proof.
  revert seen. induction l as [|s l IH]; intros seen; simpl; [done |].
  case_decide; [by apply sublist_cons | by apply sublist_skip].
Qed.

Lemma keep_first_keys (seen : gset string) (l : list staff) :
  keys (keep_first seen l) = keys l ∖ seen.
Proof.
  revert seen. induction l as [|s l IH]; intros seen; cbn [keep_first].
  - rewrite keys_nil. set_solver.
  - rewrite keys_cons. case_decide as Hin; [rewrite IH; set_solver |].
    rewrite keys_cons, IH. apply set_eq. intros x. set_unfold. destruct (decide (x = staff_uid s)); naive_solver.
Qed.

Lemma keep_first_first (seen : gset string) (l1 l2 : list staff) (s : staff) :
  staff_uid s ∉ keys l1 ∪ seen -> s ∈ keep_first seen (l1 ++ s :: l2).
Proof.
  revert seen. induction l1 as [|t l1 IH]; intros seen Hs; simpl.
  - rewrite decide_False by (unfold keys in Hs; set_solver). by left.
  - unfold keys in Hs. simpl in Hs.
    case_decide; [apply IH; unfold keys; set_solver |].
    right. apply IH. unfold keys. set_solver.
Qed.

(** [keep_first] is the first-occurrence filter: it keeps a
    sub-list of the records with no key twice and no key already seen,
    every new key of the list is kept, and the record kept for a key is
    its first one. *)
Lemma keep_first_spec (seen : gset string) (l : list staff) :
  NoDup (staff_uid <$> keep_first seen l) /\
  Forall (fun s => staff_uid s ∉ seen) (keep_first seen l) /\
  keep_first seen l `sublist_of` l /\
  keys (keep_first seen l) = keys l ∖ seen /\
  (forall l1 s l2, l = l1 ++ s :: l2 -> staff_uid s ∉ keys l1 ∪ seen -> s ∈ keep_first seen l).
Proof.
  split_and!.
  - apply (keep_first_nodup seen l).
  - apply (keep_first_new seen l).
  - apply keep_first_sublist.
  - apply keep_first_keys.
  - intros l1 s l2 ->. apply keep_first_first.
Qed.

(** ** The loops are one flat loop *)

Lemma row_okb_ok (cr : string * node) : row_okb cr = true -> row_ok cr.
Proof.
  unfold row_okb, row_ok. destruct (cells cr.2) as [|c cs]; [by left |].
  destruct (extract_row _) as [r|]; [| done].
  destruct (Local.get_gender _) as [g|] eqn:Hg; [| done]. intros _. right. by exists r, g.
Qed.

Lemma forallb_row_ok (rows : list (string * node)) : forallb row_okb rows = true -> Forall row_ok rows.
Proof.
  intros Hb. apply List.Forall_forall. intros cr Hcr. apply row_okb_ok.
  rewrite forallb_forall in Hb. by apply Hb.
Qed.

Lemma extract_page_flat (doc : node) (a : acc) :
  extract_page doc a = for_each (fun cr => row_step cr.1 cr.2) (page_rows doc) a.
Proof.
  unfold extract_page, page_rows. rewrite for_each_concat.
  apply for_each_ext. intros [i c] s. unfold container_step, container_rows. simpl.
  destruct (find_first _ c); [| done]. by rewrite for_each_map.
Qed.

Lemma row_step_ok (cat : string) (row : node) (a : acc) :
  row_ok (cat, row) ->
  row_step cat row a =
  Cont {| records := records a ++ keep_first (seen_ids a) (row_record (cat, row));
          seen_ids := keys (row_record (cat, row)) ∪ seen_ids a |}.
Proof.
  unfold row_ok, row_record, row_step, cells. simpl.
  destruct (find_all (is_tag "td") row) as [|c cs].
  - intros _. destruct a. simpl. rewrite app_nil_r. do 2 f_equal. unfold keys. set_solver.
  - intros [? | (r & g & Hr & Hg)]; [done |]. rewrite Hr.
    unfold staff_of. rewrite Hg. simpl. unfold staff_uid, mk_staff. simpl.
    case_decide as Hin.
    + destruct a. simpl in *. rewrite app_nil_r. do 2 f_equal. unfold keys. simpl. set_solver.
    + do 2 f_equal. unfold keys. simpl. set_solver.
Qed.

Lemma for_each_rows_ok (rows : list (string * node)) (a : acc) :
  Forall row_ok rows ->
  for_each (fun cr => row_step cr.1 cr.2) rows a =
  Cont {| records := records a ++ keep_first (seen_ids a) (concat (map row_record rows));
          seen_ids := keys (concat (map row_record rows)) ∪ seen_ids a |}.
Proof.
  intros Hok. revert a. induction Hok as [|[cat row] rows Hr _ IH]; intros a; simpl.
  - destruct a. simpl. rewrite app_nil_r. do 2 f_equal. unfold keys. set_solver.
  - rewrite row_step_ok by done. rewrite IH. simpl.
    rewrite keep_first_app, keys_app, <- app_assoc. do 2 f_equal. set_solver.
Qed.

(** C28: refinement of the page extraction: when no row of the page
    raises, the nested loops of [extract_page] (containers, table, rows,
    with the set [seen_ids]) append to the records exactly [keep_first] of
    the page's records in document order, and add their keys to
    [seen_ids]. *)
Theorem extract_page_refines (doc : node) (a : acc) :
  Forall row_ok (page_rows doc) ->
  extract_page doc a =
  Cont {| records := records a ++ keep_first (seen_ids a) (page_records doc);
          seen_ids := keys (page_records doc) ∪ seen_ids a |}.
Proof. intros Hok. rewrite extract_page_flat. by apply for_each_rows_ok. Qed.
End Spec.
End AarhusSpec.

Module AarhusSpecWitness.
Import Aarhus AarhusRows AarhusSpec AarhusDemo.

#[local] Instance demo_detector : GenderDetector :=
  fun n => if String.eqb n "Anna" then "female" else "male".

(** Two rows share an e-mail: the second is dropped. *)
Definition demo_page : node :=
  page "Faculty"
    [person_row "Anna Holm" "ah@cs.au.dk"; person_row "A. Holm" "ah@cs.au.dk";
     person_row "Bo Lund" "bl@cs.au.dk"] None.

Definition acc0 : acc := {| records := []; seen_ids := ∅ |}.

Lemma extract_page_refines_witness :
  Forall row_ok (page_rows demo_page) /\
  extract_page demo_page acc0 =
  Cont {| records := records acc0 ++ keep_first (seen_ids acc0) (page_records demo_page);
          seen_ids := keys (page_records demo_page) ∪ seen_ids acc0 |}.
Proof.
  assert (Hok : Forall row_ok (page_rows demo_page)) by (apply forallb_row_ok; vm_compute; reflexivity).
  split; [exact Hok | exact (extract_page_refines demo_page acc0 Hok)].
Defined.
End AarhusSpecWitness.
