(* ===== verification/Crawl.v ===== *)
(** * The pagination walker of aarhus_scraper.py

    [scrape_aarhus] (lines 39-137) repeats [page_step] (the loop body of
    [Aarhus]) while [current_url] is set, following the "Next" link of
    each page until a page has none, links back to itself, or raises.
    The loop is modelled twice:
    - [crawl], an interpreter with fuel (one unit per page), which the
      witnesses run with [vm_compute];
    - [crawls], the big-step relation of the terminating runs.
    [crawl] is sound and complete for [crawls]; runs terminate when the
    pages are ranked (every Next link goes to a page of lower rank), and a
    two-page cycle of Next links makes the code loop forever, because the
    cycle guard of line 118 only compares with the page just fetched.
    The politeness delay of line 121 and the prints change no state and
    are not modelled; the fetched URLs are recorded in order. *)

From S2P Require Import Prelude PyStr Html Gender Aarhus.
Import Aarhus AarhusRows.

(** The variables of [scrape_aarhus]: [current_url], [page_count], the
    accumulated records and keys, and the URLs fetched so far (the order
    of the requests, observable as "Processing Page n"). *)
Record crawl_state := {
  cs_url : string;
  cs_page_count : nat;
  cs_acc : acc;
  cs_fetched : list string
}.

(** How the loop ended: [break] after the last page, [break] in the
    [except] branch, or fuel exhausted (the code itself would go on). *)
Inductive crawl_end :=
  | Finished
  | Aborted (e : py_exc)
  | OutOfFuel.

Definition start_url : string := "https://cs.au.dk/contact/people".

(** Lines 40-44. *)
Definition start_state : crawl_state :=
  {| cs_url := start_url; cs_page_count := 1;
     cs_acc := {| records := []; seen_ids := ∅ |}; cs_fetched := [] |}.

Module Crawl.
Section Crawl.
Context `{GenderDetector} `{PageSource} `{UrlJoin}.

(** One iteration of [while current_url] (lines 49-127): [None] when
    the loop goes on with the next page (after [page_count += 1] and the
    politeness delay), [Some] when it breaks. *)
Definition crawl_step (st : crawl_state) : crawl_state * option crawl_end :=
  let '(a', outcome) := page_step (cs_url st) (cs_acc st) in
  let fetched := cs_fetched st ++ [cs_url st] in
  match outcome with
  | NextPage u =>
      ({| cs_url := u; cs_page_count := S (cs_page_count st);
          cs_acc := a'; cs_fetched := fetched |}, None)
  | LastPage =>
      ({| cs_url := cs_url st; cs_page_count := cs_page_count st;
          cs_acc := a'; cs_fetched := fetched |}, Some Finished)
  | PageError e =>
      ({| cs_url := cs_url st; cs_page_count := cs_page_count st;
          cs_acc := a'; cs_fetched := fetched |}, Some (Aborted e))
  end.

(** The loop, with one unit of fuel per page. *)
Fixpoint crawl (fuel : nat) (st : crawl_state) : crawl_state * crawl_end :=
  match fuel with
  | O => (st, OutOfFuel)
  | S fuel' =>
      if String.eqb (cs_url st) "" then (st, Finished)
      else
        match crawl_step st with
        | (st', None) => crawl fuel' st'
        | (st', Some e) => (st', e)
        end
  end.

(** Lines 129-137: the records written to aarhus_staff.csv; no file
    when there is none. *)
Definition scrape_aarhus (fuel : nat) : option (list staff) * crawl_end :=
  let '(st, e) := crawl fuel start_state in
  (match records (cs_acc st) with [] => None | rs => Some rs end, e).

(** The terminating runs of the loop. *)
Inductive crawls : crawl_state -> crawl_state -> crawl_end -> Prop :=
  | crawls_no_url st :
      cs_url st = "" -> crawls st st Finished
  | crawls_break st st' e :
      cs_url st <> "" -> crawl_step st = (st', Some e) -> crawls st st' e
  | crawls_next st st' st'' e :
      cs_url st <> "" -> crawl_step st = (st', None) -> crawls st' st'' e ->
      crawls st st'' e.
End Crawl.
End Crawl.

Module CrawlFacts.
Import Crawl.
Section CrawlFacts.
Context `{GenderDetector} `{PageSource} `{UrlJoin}.

(** ** One iteration *)

(** Lifts a property of the accumulated state kept by every page. *)
Lemma crawl_step_acc (P : acc -> Prop) (st : crawl_state) :
  (forall url a, P a -> P (page_step url a).1) ->
  P (cs_acc st) -> P (cs_acc (crawl_step st).1).
Proof.
  intros Hp Hst. unfold crawl_step. specialize (Hp (cs_url st) _ Hst).
  destruct (page_step (cs_url st) (cs_acc st)) as [a' []]; exact Hp.
Qed.

Lemma crawl_step_end (st st' : crawl_state) (e : crawl_end) :
  crawl_step st = (st', Some e) -> e <> OutOfFuel.
Proof.
  unfold crawl_step. destruct (page_step _ _) as [a' []]; by intros [= _ <-].
Qed.

(** ** The fuel interpreter implements the loop *)

Lemma crawl_sound (fuel : nat) (st st' : crawl_state) (e : crawl_end) :
  crawl fuel st = (st', e) -> e <> OutOfFuel -> crawls st st' e.
Proof.
  revert st. induction fuel as [|fuel IH]; intros st; simpl; [congruence |].
  destruct (String.eqb_spec (cs_url st) "") as [He|Hne];
    [intros [= <- <-] _; by constructor |].
  destruct (crawl_step st) as [st1 [e1|]] eqn:Hs.
  - intros [= <- <-] _. by apply crawls_break.
  - intros Hc Hne'. eapply crawls_next; eauto.
Qed.

Lemma crawl_complete (st st' : crawl_state) (e : crawl_end) :
  crawls st st' e -> exists n, forall fuel, n <= fuel -> crawl fuel st = (st', e).
Proof.
  induction 1 as [st He|st st' e Hne Hs|st st' st'' e Hne Hs _ [n IH]].
  - exists 1. intros [|f] Hf; [lia |]. simpl. by rewrite He.
  - exists 1. intros [|f] Hf; [lia |]. simpl. by rewrite string_eqb_neq, Hs.
  - exists (S n). intros [|f] Hf; [lia |]. simpl.
    rewrite string_eqb_neq, Hs by done. apply IH. lia.
Qed.

Lemma crawls_end (st st' : crawl_state) (e : crawl_end) :
  crawls st st' e -> e <> OutOfFuel.
Proof. induction 1; [done | by eapply crawl_step_end | done]. Qed.

(** The fuel interpreter and the relation agree: a run that ends within
    its fuel is a terminating run, and every terminating run is computed by
    [crawl] for all large enough fuel. *)
Lemma crawl_refines (st st' : crawl_state) (e : crawl_end) :
  crawls st st' e <->
  e <> OutOfFuel /\ exists n, forall fuel, n <= fuel -> crawl fuel st = (st', e).
Proof.
  split.
  - intros Hc. split; [by eapply crawls_end | by apply crawl_complete].
  - intros [Hne [n Hn]]. apply (crawl_sound n); [apply Hn; lia | done].
Qed.

(** ** Invariants of whole runs *)

Lemma crawl_acc (P : acc -> Prop) (fuel : nat) (st : crawl_state) :
  (forall url a, P a -> P (page_step url a).1) ->
  P (cs_acc st) -> P (cs_acc (crawl fuel st).1).
Proof.
  intros Hp. revert st. induction fuel as [|fuel IH]; intros st Hst; simpl; [done |].
  destruct (String.eqb (cs_url st) ""); [done |].
  pose proof (crawl_step_acc P st Hp Hst) as Hs.
  destruct (crawl_step st) as [st1 [e1|]]; [done | by apply IH].
Qed.

(** C1: whatever the site serves and however the crawl ends, the records
    of a run have pairwise distinct identity keys. *)
Theorem crawl_unique_ids (fuel : nat) :
  NoDup (staff_uid <$> records (cs_acc (crawl fuel start_state).1)).
Proof.
  apply (crawl_acc acc_inv); [intros; by apply page_step_inv | apply acc_inv_empty].
Qed.

(** The records of a run extend those it started with: nothing gathered
    is lost, in particular when a later page fails. *)
Lemma crawl_prefix (fuel : nat) (st : crawl_state) :
  records (cs_acc st) `prefix_of` records (cs_acc (crawl fuel st).1).
Proof.
  apply (crawl_acc (fun a => records (cs_acc st) `prefix_of` records a)); [| done].
  intros url a Ha. etrans; [exact Ha | apply page_step_prefix].
Qed.

(** ** How a run ends *)

Lemma crawl_step_next (st st' : crawl_state) :
  crawl_step st = (st', None) ->
  exists a', page_step (cs_url st) (cs_acc st) = (a', NextPage (cs_url st')).
Proof.
  unfold crawl_step. destruct (page_step _ _) as [a' []]; intros [= <-]; eauto.
Qed.

(** The Next relation of a site, as the code resolves it: [u'] is the
    page the loop goes to after [u] (the page at [u] is fetched without an
    error status, its Next link is read and resolved by [next_url]). *)
Definition next_of (u u' : string) : Prop :=
  exists status doc next, fetch_page u = FetchOk status doc /\
    raise_for_status status = false /\ find_next_link doc = Ok next /\ next_url u next = Some u'.

Lemma page_step_next_of (url u : string) (a a' : acc) :
  page_step url a = (a', NextPage u) -> next_of url u.
Proof.
  intros Hp. unfold page_step in Hp.
  destruct (fetch_page url) as [|status doc] eqn:Hf; [inversion Hp |].
  destruct (raise_for_status status) eqn:Hr; [inversion Hp |].
  destruct (extract_page doc a); [| inversion Hp].
  destruct (find_next_link doc) as [next|] eqn:Hl; [| inversion Hp].
  destruct (next_url url next) eqn:Hn; inversion Hp; subst. by exists status, doc, next.
Qed.

Lemma page_step_next_inv (url u : string) (a a' : acc) :
  page_step url a = (a', NextPage u) ->
  exists status doc next, fetch_page url = FetchOk status doc /\
    find_next_link doc = Ok next /\ next_url url next = Some u.
Proof.
  intros Hp. unfold page_step in Hp.
  destruct (fetch_page url) as [|status doc]; [inversion Hp |].
  destruct (raise_for_status status); [inversion Hp |].
  destruct (extract_page doc a); [| inversion Hp].
  destruct (find_next_link doc) as [next|] eqn:Hl; [| inversion Hp].
  destruct (next_url url next) eqn:Hn; inversion Hp; subst; eauto 7.
Qed.

(** C3: the cycle guard: when the "Next" link of a page resolves to the
    URL just fetched, the walker stops after that page, with the records
    it had plus exactly those of that page. *)
Theorem cycle_guard_stops (fuel : nat) (st : crawl_state) (status : Z) (doc : node)
    (a' : acc) (l : string) :
  cs_url st <> "" ->
  fetch_page (cs_url st) = FetchOk status doc -> raise_for_status status = false ->
  extract_page doc (cs_acc st) = Cont a' ->
  find_next_link doc = Ok (Some l) -> l <> "" ->
  (if py_startswith l "http" then l else urljoin "https://cs.au.dk/" l) = cs_url st ->
  crawl (S fuel) st =
    ({| cs_url := cs_url st; cs_page_count := cs_page_count st; cs_acc := a';
        cs_fetched := cs_fetched st ++ [cs_url st] |}, Finished).
Proof.
  intros Hu Hf Hs Hx Hn Hl Hj. simpl. rewrite string_eqb_neq by done.
  unfold crawl_step, page_step. rewrite Hf, Hs, Hx, Hn. unfold next_url.
  rewrite string_eqb_neq, Hj, string_eqb_refl by done. reflexivity.
Qed.

(** C9: a page that cannot be fetched (transport error or an HTTP error
    status) ends the crawl at once, keeping every record gathered before. *)
Theorem fetch_error_aborts (fuel : nat) (st : crawl_state) :
  cs_url st <> "" ->
  (fetch_page (cs_url st) = FetchError \/
   exists status doc, fetch_page (cs_url st) = FetchOk status doc /\
                      raise_for_status status = true) ->
  crawl (S fuel) st =
    ({| cs_url := cs_url st; cs_page_count := cs_page_count st; cs_acc := cs_acc st;
        cs_fetched := cs_fetched st ++ [cs_url st] |}, Aborted RequestError).
Proof.
  intros Hu Hf. simpl. rewrite string_eqb_neq by done.
  unfold crawl_step, page_step.
  destruct Hf as [-> | (status & doc & -> & ->)]; reflexivity.
Qed.

(** C10: termination: when the chain of Next links from the current page
    is finite (no infinite sequence of pages each linking to the next),
    the loop ends, normally or by an exception, for some fuel. *)
Theorem crawl_terminates (st : crawl_state) :
  Acc (fun u' u => next_of u u') (cs_url st) ->
  exists fuel st' e, crawl fuel st = (st', e) /\ e <> OutOfFuel.
Proof.
  remember (cs_url st) as u eqn:Hu. intros Hacc. revert st Hu.
  induction Hacc as [u _ IH]; intros st ->.
  destruct (String.eqb (cs_url st) "") eqn:He.
  { exists 1, st, Finished. simpl. by rewrite He. }
  destruct (crawl_step st) as [st1 [e1|]] eqn:Hs.
  - exists 1, st1, e1. simpl. rewrite He, Hs. split; [done | by eapply crawl_step_end].
  - destruct (crawl_step_next st st1 Hs) as [a' Hp].
    destruct (IH (cs_url st1) (page_step_next_of _ _ _ _ Hp) st1 eq_refl) as (fuel & st' & e & Hc & Hne).
    exists (S fuel), st', e. simpl. by rewrite He, Hs.
Qed.

(** A set of states each of which goes on to another one of the set never
    lets the loop end. *)
Lemma crawl_diverges (P : crawl_state -> Prop) :
  (forall st, P st -> cs_url st <> "" /\ exists st', crawl_step st = (st', None) /\ P st') ->
  forall st, P st -> (forall fuel, (crawl fuel st).2 = OutOfFuel) /\
                     (forall st' e, ~ crawls st st' e).
Proof.
  intros Hstep st Hst. split.
  - intros fuel. revert st Hst. induction fuel as [|fuel IH]; intros st Hst; [done |].
    destruct (Hstep st Hst) as (Hne & st1 & Hs & Hst1). simpl.
    rewrite string_eqb_neq, Hs by done. by apply IH.
  - intros st' e Hc. revert Hst. induction Hc as [st He|st st' e Hne Hs|st st1 st'' e Hne Hs _ IH];
      intros Hst; destruct (Hstep st Hst) as (Hne' & st2 & Hs2 & Hst2); [done | congruence |].
    rewrite Hs2 in Hs. injection Hs as ->. by apply IH.
Qed.

(** C11: the cycle guard compares the next URL only with the page just
    fetched: two pages whose Next links point to each other make the
    loop run forever (every fuel is exhausted and no run terminates),
    although the spec asks the walker never to fetch a URL twice. *)
Theorem two_page_cycle_diverges (u v : string) :
  u <> "" -> v <> "" ->
  (forall a, exists a', page_step u a = (a', NextPage v)) ->
  (forall a, exists a', page_step v a = (a', NextPage u)) ->
  forall st, cs_url st = u ->
    (forall fuel, (crawl fuel st).2 = OutOfFuel) /\ (forall st' e, ~ crawls st st' e).
Proof.
  intros Hu Hv Huv Hvu st Hst.
  apply (crawl_diverges (fun s => cs_url s = u \/ cs_url s = v)); [| by left].
  intros s Hs. unfold crawl_step.
  destruct Hs as [-> | ->]; [destruct (Huv (cs_acc s)) as [a' ->] | destruct (Hvu (cs_acc s)) as [a' ->]];
    split; try done; eexists; split; [reflexivity | by right | reflexivity | by left].
Qed.
End CrawlFacts.
End CrawlFacts.

(** ** A two-page directory and the witnesses *)

Module CrawlWitness.
Import Aarhus Crawl CrawlFacts AarhusDemo.

Definition page2_url : string := "https://cs.au.dk/contact/people?page=2".

Definition page1 : node :=
  page "Faculty"
    [person_row "Anna Holm" "ah@cs.au.dk"; person_row "Bo Lund" "bl@cs.au.dk";
     person_row "Carl Dam" "dup@cs.au.dk"]
    (Some "/contact/people?page=2").

Definition page2 : node :=
  page " Technical  staff "
    [person_row "Dora Lind" "dup@cs.au.dk"; person_row "Eva Kjaer" "ek@cs.au.dk"]
    None.

#[local] Instance demo_join : UrlJoin :=
  fun base l => if py_startswith l "/" then String.append "https://cs.au.dk" l
                else String.append base l.

#[local] Instance demo_detector : GenderDetector :=
  fun n => if String.eqb n "Anna" then "female"
           else if String.eqb n "Bo" then "male" else "andy".

Module TwoPage.
#[local] Instance demo_site : PageSource :=
  fun url => if String.eqb url start_url then FetchOk 200 page1
             else if String.eqb url page2_url then FetchOk 200 page2
             else FetchError.

Lemma crawl_terminates_witness :
  Acc (fun u' u => next_of u u') (cs_url start_state) /\
  exists fuel st' e, crawl fuel start_state = (st', e) /\ e <> OutOfFuel.
Proof.
  assert (Hacc : Acc (fun u' u => next_of u u') (cs_url start_state)).
  { constructor. intros u (status & doc & next & Hf & Hr & Hn & Hu).
    vm_compute in Hf. injection Hf as <- <-. vm_compute in Hn. injection Hn as <-.
    vm_compute in Hu. injection Hu as <-.
    constructor. intros v (status' & doc' & next' & Hf' & Hr' & Hn' & Hu').
    vm_compute in Hf'. injection Hf' as <- <-. vm_compute in Hn'. injection Hn' as <-.
    discriminate Hu'. }
  split; [exact Hacc | exact (crawl_terminates start_state Hacc)].
Defined.

End TwoPage.

Module SelfLoop.
(** A page whose Next link leads back to itself. *)
Definition self_page : node :=
  page "Faculty" [person_row "Anna Holm" "ah@cs.au.dk"] (Some "/contact/people").

#[local] Instance self_site : PageSource :=
  fun url => if String.eqb url start_url then FetchOk 200 self_page else FetchError.

Lemma cycle_guard_stops_witness :
  cs_url start_state <> "" /\
  fetch_page (cs_url start_state) = FetchOk 200 self_page /\
  raise_for_status 200 = false /\
  extract_page self_page (cs_acc start_state) =
    Cont (flow_state (extract_page self_page (cs_acc start_state))) /\
  find_next_link self_page = Ok (Some "/contact/people") /\
  "/contact/people" <> "" /\
  (if py_startswith "/contact/people" "http" then "/contact/people"
   else urljoin "https://cs.au.dk/" "/contact/people") = cs_url start_state /\
  crawl 5 start_state =
    ({| cs_url := cs_url start_state; cs_page_count := cs_page_count start_state;
        cs_acc := flow_state (extract_page self_page (cs_acc start_state));
        cs_fetched := cs_fetched start_state ++ [cs_url start_state] |}, Finished).
Proof.
  refine (conj _ (conj _ (conj _ (conj _ (conj _ (conj _ (conj _ _))))))).
  8: apply (cycle_guard_stops 4 start_state 200 self_page _ "/contact/people");
       (vm_compute; reflexivity) || discriminate.
  all: (vm_compute; reflexivity) || discriminate.
Defined.

Lemma fetch_error_aborts_witness :
  cs_url {| cs_url := "https://cs.au.dk/missing"; cs_page_count := 2;
            cs_acc := cs_acc start_state; cs_fetched := [start_url] |} <> "" /\
  crawl 3 {| cs_url := "https://cs.au.dk/missing"; cs_page_count := 2;
             cs_acc := cs_acc start_state; cs_fetched := [start_url] |} =
    ({| cs_url := "https://cs.au.dk/missing"; cs_page_count := 2;
        cs_acc := cs_acc start_state;
        cs_fetched := [start_url] ++ ["https://cs.au.dk/missing"] |}, Aborted RequestError).
Proof.
  split; [discriminate |].
  apply (fetch_error_aborts 2); [discriminate | left; vm_compute; reflexivity].
Defined.
End SelfLoop.

Module Loop.
(** Two pages whose Next links point to each other. *)
Definition loop_a : string := "https://cs.au.dk/contact/people?page=1".
Definition loop_b : string := "https://cs.au.dk/contact/people?page=2".

#[local] Instance loop_site : PageSource :=
  fun url => if String.eqb url loop_a then FetchOk 200 (page "Faculty" [] (Some loop_b))
             else FetchOk 200 (page "Faculty" [] (Some loop_a)).

Lemma two_page_cycle_diverges_witness :
  loop_a <> "" /\ loop_b <> "" /\
  (forall a, exists a', page_step loop_a a = (a', NextPage loop_b)) /\
  (forall a, exists a', page_step loop_b a = (a', NextPage loop_a)) /\
  forall st, cs_url st = loop_a ->
    (forall fuel, (crawl fuel st).2 = OutOfFuel) /\ (forall st' e, ~ crawls st st' e).
Proof.
  assert (H1 : forall a, exists a', page_step loop_a a = (a', NextPage loop_b))
    by (intros a; exists a; vm_compute; reflexivity).
  assert (H2 : forall a, exists a', page_step loop_b a = (a', NextPage loop_a))
    by (intros a; exists a; vm_compute; reflexivity).
  refine (conj _ (conj _ (conj H1 (conj H2 _)))); [discriminate | discriminate |].
  apply (two_page_cycle_diverges loop_a loop_b); [discriminate | discriminate | exact H1 | exact H2].
Defined.
End Loop.
End CrawlWitness.
