(* ===== verification/CrawlSpec.v ===== *)
(** * A whole Aarhus run against the abstract specification

    The spec of the pipeline promises that records come out "in the exact
    order their rows are encountered, page by page, row by row", each
    identity key once.  This file proves it of [crawl] (the loop of
    [scrape_aarhus], lines 48-127): when a run ends normally and no row of
    the pages it fetched raises, its records are [keep_first] of the
    records of all rows of the fetched pages, in the order the pages were
    fetched ([cs_fetched]).  The proof lifts [extract_page]'s refinement
    (AarhusSpec) through [page_step] and the relation [crawls]. *)

From S2P Require Import Prelude PyStr Html Gender Aarhus AarhusSpec Crawl.

Local Open Scope string_scope.
Local Open Scope list_scope.
Local Set Warnings "-clear-no-such-hyp".

Module CrawlSpec.
Import Aarhus AarhusRows AarhusSpec Crawl CrawlFacts.

Section Run.
Context `{GenderDetector} `{PageSource} `{UrlJoin}.

(** The rows of the page at [url], as the loop body sees it: none when
    the fetch fails (the body raises before extracting). *)
Definition url_rows (url : string) : list (string * node) :=
  match fetch_page url with
  | FetchOk status doc => if raise_for_status status then [] else page_rows doc
  | FetchError => []
  end.

Definition url_records (url : string) : list staff := concat (map row_record (url_rows url)).

(** The accumulator after the records [l], deduplicated against it. *)
Definition acc_after (a : acc) (l : list staff) : acc :=
  {| records := records a ++ keep_first (seen_ids a) l; seen_ids := keys l ∪ seen_ids a |}.

Lemma acc_after_nil (a : acc) : acc_after a [] = a.
Proof. destruct a. unfold acc_after. simpl. rewrite app_nil_r. f_equal. unfold keys. set_solver. Qed.

Lemma acc_after_app (a : acc) (l1 l2 : list staff) :
  acc_after (acc_after a l1) l2 = acc_after a (l1 ++ l2).
Proof.
  unfold acc_after. simpl. rewrite keep_first_app, keys_app, app_assoc. f_equal. set_solver.
Qed.

(** A loop body that does not raise appends the page's records. *)
Lemma page_step_spec (url : string) (a a' : acc) (o : page_end) :
  page_step url a = (a', o) -> (forall e, o <> PageError e) ->
  Forall row_ok (url_rows url) -> a' = acc_after a (url_records url).
Proof.
  unfold page_step, url_records, url_rows.
  destruct (fetch_page url) as [|status doc]; [intros [= _ <-] Ho; by destruct (Ho RequestError) |].
  destruct (raise_for_status status); [intros [= _ <-] Ho; by destruct (Ho RequestError) |].
  intros Hp Ho Hok. rewrite extract_page_flat, for_each_rows_ok in Hp by done.
  destruct (find_next_link doc) as [next|e]; [| injection Hp as _ <-; by destruct (Ho e)].
  destruct (next_url url next); by injection Hp as <- _.
Qed.

Lemma crawl_step_spec (st st' : crawl_state) (o : option crawl_end) :
  crawl_step st = (st', o) -> o = None \/ o = Some Finished ->
  cs_fetched st' = cs_fetched st ++ [cs_url st] /\
  (Forall row_ok (url_rows (cs_url st)) -> cs_acc st' = acc_after (cs_acc st) (url_records (cs_url st))).
Proof.
  unfold crawl_step. destruct (page_step (cs_url st) (cs_acc st)) as [a' out] eqn:Hp.
  intros Hs Ho. destruct out as [u| |e]; injection Hs as <- <-; simpl;
    (split; [done | intros Hok; eapply page_step_spec; [exact Hp | done | done]]) ||
    (destruct Ho; discriminate).
Qed.

Lemma crawls_spec (st st' : crawl_state) :
  crawls st st' Finished ->
  exists fetched, cs_fetched st' = cs_fetched st ++ fetched /\
    (Forall (fun u => Forall row_ok (url_rows u)) fetched ->
     cs_acc st' = acc_after (cs_acc st) (concat (map url_records fetched))).
Proof.
  remember Finished as e eqn:He. induction 1 as [st Hu|st st' e Hne Hs|st st1 st' e Hne Hs _ IH].
  - exists []. rewrite app_nil_r. split; [done |]. intros _. simpl. by rewrite acc_after_nil.
  - subst. destruct (crawl_step_spec st st' _ Hs (or_intror eq_refl)) as [Hf Ha].
    exists [cs_url st]. split; [done |]. intros Hok. rewrite Forall_singleton in Hok.
    rewrite (Ha Hok). simpl. by rewrite app_nil_r.
  - destruct (crawl_step_spec st st1 _ Hs (or_introl eq_refl)) as [Hf Ha].
    destruct (IH He) as (fetched & Hf' & Ha').
    exists (cs_url st :: fetched). rewrite Hf', Hf, <- app_assoc. split; [done |].
    intros [Hok Hoks]%Forall_cons. rewrite Ha', Ha, acc_after_app by done. done.
Qed.

(** C21: an exception in the middle of a page does not discard the page:
    when the rows before a row whose cells cannot be read raise nothing,
    the loop body ends with the error and keeps the records of those
    earlier rows (Python's appends are not rolled back); the rows after it
    are never read.  The spec says a failing page contributes nothing. *)
Theorem failing_row_keeps_earlier_rows (url : string) (a : acc)
    (ok : list (string * node)) (cr : string * node) (rest : list (string * node)) (e : py_exc) :
  url_rows url = ok ++ cr :: rest -> Forall row_ok ok ->
  cells cr.2 <> [] -> extract_row (cells cr.2) = Raise e ->
  exists a', page_step url a = (a', PageError e) /\
    records a' = records a ++ keep_first (seen_ids a) (concat (map row_record ok)).
Proof.
  intros Hrows Hok Hne Hx. unfold url_rows in Hrows. unfold page_step.
  destruct (fetch_page url) as [|status doc]; [by destruct ok |].
  destruct (raise_for_status status); [by destruct ok |].
  rewrite extract_page_flat, Hrows, for_each_app, for_each_rows_ok by done. simpl.
  assert (Hr : row_step cr.1 cr.2 (acc_after a (concat (map row_record ok))) =
               Stop e (acc_after a (concat (map row_record ok)))).
  { unfold row_step. unfold cells in Hne, Hx.
    destruct (find_all (is_tag "td") cr.2); [done |]. by rewrite Hx. }
  unfold acc_after in Hr. rewrite Hr. by eexists.
Qed.

(** C29: a whole Aarhus run refines the specification: when the loop ends
    normally and no row of the fetched pages raises, the records of
    [scrape_aarhus] are the first-occurrence filter of the records of all
    rows of the fetched pages, page by page in the order they were fetched
    and row by row in document order. *)
Theorem crawl_records_spec (fuel : nat) (st : crawl_state) :
  crawl fuel start_state = (st, Finished) ->
  Forall (fun u => Forall row_ok (url_rows u)) (cs_fetched st) ->
  records (cs_acc st) = keep_first ∅ (concat (map url_records (cs_fetched st))).
Proof.
  intros Hc Hok. apply crawl_sound in Hc; [| done].
  destruct (crawls_spec _ _ Hc) as (fetched & Hf & Ha).
  simpl in Hf. subst. by rewrite Ha.
Qed.

Lemma url_rows_okb (us : list string) :
  forallb (fun u => forallb row_okb (url_rows u)) us = true ->
  Forall (fun u => Forall row_ok (url_rows u)) us.
Proof.
  intros Hb. apply List.Forall_forall. intros u Hu. apply forallb_row_ok.
  rewrite forallb_forall in Hb. by apply Hb.
Qed.
End Run.
End CrawlSpec.

Module CrawlSpecWitness.
Import Aarhus AarhusSpec Crawl CrawlSpec AarhusDemo.

#[local] Instance demo_join : UrlJoin := fun base l => String.append "https://cs.au.dk" l.
#[local] Instance demo_detector : GenderDetector :=
  fun n => if String.eqb n "Anna" then "female" else "male".

Definition page2_url : string := "https://cs.au.dk/contact/people?page=2".

(** Two pages; a person of page 1 appears again on page 2. *)
#[local] Instance two_pages : PageSource :=
  fun url =>
    if String.eqb url start_url then
      FetchOk 200 (page "Faculty"
        [person_row "Anna Holm" "ah@cs.au.dk"; person_row "Bo Lund" "bl@cs.au.dk"]
        (Some "/contact/people?page=2"))
    else if String.eqb url page2_url then
      FetchOk 200 (page "Staff" [person_row "Bo Lund" "bl@cs.au.dk"; person_row "Eva Kjaer" "ek@cs.au.dk"] None)
    else FetchError.

Definition demo_final : crawl_state := (crawl 5 start_state).1.

Lemma crawl_records_spec_witness :
  crawl 5 start_state = (demo_final, Finished) /\
  Forall (fun u => Forall row_ok (url_rows u)) (cs_fetched demo_final) /\
  records (cs_acc demo_final) = keep_first ∅ (concat (map url_records (cs_fetched demo_final))).
Proof.
  assert (H1 : crawl 5 start_state = (demo_final, Finished)) by (vm_compute; reflexivity).
  assert (H2 : Forall (fun u => Forall row_ok (url_rows u)) (cs_fetched demo_final))
    by (apply url_rows_okb; vm_compute; reflexivity).
  split; [exact H1 | split; [exact H2 | exact (crawl_records_spec 5 demo_final H1 H2)]].
Defined.
End CrawlSpecWitness.

Module PartialPageWitness.
Import Aarhus AarhusRows AarhusSpec Crawl CrawlSpec AarhusDemo AarhusWitness.

(** A page whose second row has only three cells. *)
Definition partial_doc : node :=
  page "Faculty" [person_row "Anna Holm" "ah@cs.au.dk"; short_row; person_row "Bo Lund" "bl@cs.au.dk"]
    None.

#[local] Instance partial_site : PageSource := fun _ => FetchOk 200 partial_doc.
#[local] Instance anna_detector : GenderDetector :=
  fun n => if String.eqb n "Anna" then "female" else "unknown".
#[local] Instance plain_join : UrlJoin := fun base l => String.append base l.

Definition ok_rows : list (string * node) := [("Faculty", person_row "Anna Holm" "ah@cs.au.dk")].

Lemma failing_row_keeps_earlier_rows_witness :
  url_rows start_url = ok_rows ++ ("Faculty", short_row) :: [("Faculty", person_row "Bo Lund" "bl@cs.au.dk")] /\
  Forall row_ok ok_rows /\ cells short_row <> [] /\ extract_row (cells short_row) = Raise IndexError /\
  exists a', page_step start_url acc0 = (a', PageError IndexError) /\
    records a' = records acc0 ++ keep_first (seen_ids acc0) (concat (map row_record ok_rows)).
Proof.
  assert (H1 : url_rows start_url =
               ok_rows ++ ("Faculty", short_row) :: [("Faculty", person_row "Bo Lund" "bl@cs.au.dk")])
    by (vm_compute; reflexivity).
  assert (H2 : Forall row_ok ok_rows) by (apply forallb_row_ok; vm_compute; reflexivity).
  assert (H3 : cells short_row <> []) by (vm_compute; discriminate).
  assert (H4 : extract_row (cells short_row) = Raise IndexError) by (vm_compute; reflexivity).
  split_and!; try assumption.
  exact (failing_row_keeps_earlier_rows start_url acc0 ok_rows ("Faculty", short_row) _ IndexError H1 H2 H3 H4).
Defined.
End PartialPageWitness.
