(* ===== verification/Pisa.v ===== *)
(** * The Pisa scraper (pisa_scraper.py)

    [scrape_pisa] (lines 65-142) fetches one page of di.unipi.it, takes
    every [tr] carrying a [data-cat] attribute and, row by row:
    - skips a row with fewer than six cells (line 90);
    - reads the names, the category, the room and the phone (the "tel."
      label removed, line 123);
    - resolves the gender through the run's cache ([Net.gender_lookup]);
    - rebuilds the e-mail from the three attributes of the "cryptml" link
      ([email_of], lines 107-115);
    - reads the "openscheda" link of the seventh cell and, when it carries
      a [data-url], fetches the person's JSON record
      ([get_detailed_info], lines 31-63), flattening its two HTML
      fragments into "a ; b ; c" lists, with "Error/Empty" on any failure;
    - writes the row and counts it.
    The state the loop threads is [pisa_state]: the gender cache, the rows
    written, the count and the requests sent, in order.  An exception
    escapes the loop and ends the program (there is no [try] around it);
    the rows written before stay in the file. *)

From Stdlib Require Import QArith.
From S2P Require Import Prelude PyStr Html Json Gender.
Import Net NetFacts.

(** One row of unipi_faculty_detailed.csv (lines 79 and 136). *)
Record pisa_row := {
  pr_category : string;
  pr_first_name : string;
  pr_last_name : string;
  pr_gender : string;
  pr_email : string;
  pr_website : string;
  pr_room : string;
  pr_phone : string;
  pr_publications : string;
  pr_courses : string
}.

(** The answer of the per-person API: a transport error, or a status with
    a body that decodes as JSON ([Some]) or not ([None]). *)
Inductive detail_reply :=
  | DNetError
  | DReply (status : Z) (body : option json).

Class DetailApi := fetch_detail : string -> detail_reply.

(** [BeautifulSoup(markup, 'html.parser')], a library the code only calls. *)
Class HtmlParser := parse_html : string -> node.

(** The variables of the loop of [scrape_pisa]. *)
Record pisa_state := {
  ps_cache : gmap string string;
  ps_written : list pisa_row;
  ps_count : nat;
  ps_events : list event
}.

Definition error_empty : string := "Error/Empty".

Module Pisa.
Section Pisa.
Context `{GenderizeApi} `{DetailApi} `{HtmlParser} `{PageSource}.

(** ** The person's record (lines 31-63) *)

(** The items of an HTML fragment, joined with " ; " (lines 47-49). *)
Definition flatten_items (markup : string) : string :=
  py_join " ; " (map get_text_strip (find_all (is_tag "li") (parse_html markup))).

(** Lines 43-49 (and 52-58) for the field [field] of [data['unimap']]. *)
Definition list_field (data : json) (field : string) : res string :=
  let? has_unimap := json_in "unimap" data in
  if has_unimap then
    let? unimap := json_getitem data "unimap" in
    let? has_field := json_in field unimap in
    if has_field then
      let? html := json_getitem unimap field in
      if truthy html then
        match html with
        | JStr markup => Ok (flatten_items markup)
        | _ => Raise TypeError
        end
      else Ok "N/A"
    else Ok "N/A"
  else Ok "N/A".

(** Lines 36-63: every failure gives "Error/Empty" twice. *)
Definition get_detailed_info (api_url : string) : string * string :=
  match fetch_detail api_url with
  | DNetError => (error_empty, error_empty)
  | DReply status body =>
      if raise_for_status status then (error_empty, error_empty)
      else
        match body with
        | None => (error_empty, error_empty)
        | Some data =>
            match list_field data "arpi", list_field data "insegnamenti" with
            | Ok publications, Ok courses => (publications, courses)
            | _, _ => (error_empty, error_empty)
            end
        end
  end.

(** ** The cells (lines 93-133) *)

(** Lines 107-115. *)
Definition email_of (cell : node) : string :=
  match find_first (tag_class "a" "cryptml") cell with
  | None => "N/A"
  | Some tag =>
      let name_part := attr_or tag "data-name" "" in
      let domain_part := attr_or tag "data-domain" "" in
      let tld_part := attr_or tag "data-tld" "" in
      if String.eqb name_part "" then "N/A"
      else String.append name_part
             (String.append "@" (String.append domain_part (String.append "." tld_part)))
  end.

(** Lines 118-119. *)
Definition website_of (cell : node) : string :=
  match find_first (is_tag "a") cell with
  | Some tag => if has_attr tag "href" then attr_or tag "href" "" else "N/A"
  | None => "N/A"
  end.

(** Line 123. *)
Definition phone_of (cell : node) : string :=
  py_strip (py_replace "tel." "" (get_text_strip cell)).

(** ** One row (lines 89-139) *)

(** Lines 93-104: the category, the names and the gender.  The cache is
    consulted through [Net.gender_lookup], whose IndexError on an empty
    first name escapes. *)
Definition row_names (row : node) (cols : list node) (cache : gmap string string)
  : res (string * string * string * string * gmap string string * list event) :=
  let? category := py_attr row "data-cat" in
  let? c0 := py_index cols 0 in
  let? c1 := py_index cols 1 in
  let first_name := get_text_strip c0 in
  let last_name := get_text_strip c1 in
  let? '(gender, cache', evs) := gender_lookup cache first_name in
  Ok (category, first_name, last_name, gender, cache', evs).

(** The cells [cols[2]] to [cols[6]] read by lines 107-126. *)
Definition later_cells (cols : list node) : res (node * node * node * node * node) :=
  let? c2 := py_index cols 2 in
  let? c3 := py_index cols 3 in
  let? c4 := py_index cols 4 in
  let? c5 := py_index cols 5 in
  let? c6 := py_index cols 6 in
  Ok (c2, c3, c4, c5, c6).

(** Lines 126-133: the detail fields, and the request and delay they cost. *)
Definition detail_of (c6 : node) : string * string * list event :=
  match find_first (tag_class "a" "openscheda") c6 with
  | Some tag =>
      match get_attr tag "data-url" with
      | Some api_url =>
          let '(p, c) := get_detailed_info api_url in
          (p, c, [DetailRequest api_url; Sleep 200])
      | None => ("N/A", "N/A", [])
      end
  | None => ("N/A", "N/A", [])
  end.

Definition row_step (row : node) (s : pisa_state) : flow pisa_state :=
  let cols := find_all (is_tag "td") row in
  if Nat.ltb (length cols) 6 then Cont s
  else
    match row_names row cols (ps_cache s) with
    | Raise e => Stop e s
    | Ok (category, first_name, last_name, gender, cache', evs) =>
        match later_cells cols with
        | Raise e =>
            Stop e {| ps_cache := cache'; ps_written := ps_written s;
                      ps_count := ps_count s; ps_events := ps_events s ++ evs |}
        | Ok (c2, c3, c4, c5, c6) =>
            let '(publications, courses, detail_evs) := detail_of c6 in
            Cont {| ps_cache := cache';
                    ps_written := ps_written s ++
                      [{| pr_category := category; pr_first_name := first_name;
                          pr_last_name := last_name; pr_gender := gender;
                          pr_email := email_of c2; pr_website := website_of c3;
                          pr_room := get_text_strip c4; pr_phone := phone_of c5;
                          pr_publications := publications; pr_courses := courses |}];
                    ps_count := S (ps_count s);
                    ps_events := ps_events s ++ evs ++ detail_evs |}
        end
    end.

(** ** The run (lines 65-142) *)

Definition main_url : string := "https://di.unipi.it/en/people/".

Definition pisa_init : pisa_state :=
  {| ps_cache := ∅; ps_written := []; ps_count := 0; ps_events := [] |}.

Definition is_person_row (n : node) : bool := is_tag "tr" n && has_attr n "data-cat".

(** [None] when the main page cannot be fetched (no file is written);
    otherwise the final state and the exception that ended the loop, if
    any. *)
Definition scrape_pisa : option (pisa_state * option py_exc) :=
  match fetch_page main_url with
  | FetchError => None
  | FetchOk status doc =>
      if raise_for_status status then None
      else
        match for_each row_step (find_all is_person_row doc) pisa_init with
        | Cont s => Some (s, None)
        | Stop e s => Some (s, Some e)
        end
  end.
End Pisa.
End Pisa.

Module PisaFacts.
Import Pisa.

Definition cells (row : node) : list node := find_all (is_tag "td") row.

(** C5: e-mail reconstruction: without a "cryptml" link, or with an
    empty or missing [data-name], the cell gives the sentinel "N/A";
    otherwise it gives exactly [name@domain.tld] from the [data-name],
    [data-domain] and [data-tld] attributes of that link. *)
Theorem email_of_rebuilt (cell : node) :
  (find_first (tag_class "a" "cryptml") cell = None -> email_of cell = "N/A") /\
  (forall tag, find_first (tag_class "a" "cryptml") cell = Some tag ->
     attr_or tag "data-name" "" = "" -> email_of cell = "N/A") /\
  (forall tag n d t, find_first (tag_class "a" "cryptml") cell = Some tag ->
     get_attr tag "data-name" = Some n -> n <> "" ->
     get_attr tag "data-domain" = Some d -> get_attr tag "data-tld" = Some t ->
     email_of cell = String.append n (String.append "@" (String.append d (String.append "." t)))).
Proof.
  unfold email_of. split_and!.
  - by intros ->.
  - intros tag -> Hn. cbv zeta. by rewrite Hn.
  - intros tag n d t -> Hn Hne Hd Ht. cbv zeta. unfold attr_or. rewrite Hn, Hd, Ht.
    by rewrite string_eqb_neq.
Qed.

Section Detail.
Context `{DetailApi} `{HtmlParser}.

(** C14: a failed detail fetch (transport error, HTTP error status, body
    that is not JSON) gives "Error/Empty" for both detail fields. *)
Theorem get_detailed_info_failure (api_url : string) :
  (fetch_detail api_url = DNetError \/
   (exists status body, fetch_detail api_url = DReply status body /\ raise_for_status status = true) \/
   (exists status, fetch_detail api_url = DReply status None)) ->
  get_detailed_info api_url = (error_empty, error_empty).
Proof.
  unfold get_detailed_info.
  intros [-> | [(status & body & -> & ->) | (status & ->)]]; [done | done |].
  by destruct (raise_for_status status).
Qed.
End Detail.

(** ** The detail API affects nothing but the two detail fields *)

Definition forget_row (r : pisa_row) : pisa_row :=
  {| pr_category := pr_category r; pr_first_name := pr_first_name r;
     pr_last_name := pr_last_name r; pr_gender := pr_gender r; pr_email := pr_email r;
     pr_website := pr_website r; pr_room := pr_room r; pr_phone := pr_phone r;
     pr_publications := ""; pr_courses := "" |}.

Definition forget_details (s : pisa_state) : pisa_state :=
  {| ps_cache := ps_cache s; ps_written := map forget_row (ps_written s);
     ps_count := ps_count s; ps_events := ps_events s |}.

Definition flow_forget (f : flow pisa_state) : flow pisa_state :=
  match f with
  | Cont s => Cont (forget_details s)
  | Stop e s => Stop e (forget_details s)
  end.

Section Isolation.
Context `{GenderizeApi} `{HtmlParser} `{PageSource}.
Variables D1 D2 : DetailApi.

Lemma row_step_isolated (row : node) (s1 s2 : pisa_state) :
  forget_details s1 = forget_details s2 ->
  flow_forget (@row_step _ D1 _ row s1) = flow_forget (@row_step _ D2 _ row s2).
Proof.
  intros Hs. unfold row_step.
  assert (Hc : ps_cache s1 = ps_cache s2) by (apply (f_equal ps_cache) in Hs; exact Hs).
  assert (Hw : map forget_row (ps_written s1) = map forget_row (ps_written s2))
    by (apply (f_equal ps_written) in Hs; exact Hs).
  assert (Hn : ps_count s1 = ps_count s2) by (apply (f_equal ps_count) in Hs; exact Hs).
  assert (He : ps_events s1 = ps_events s2) by (apply (f_equal ps_events) in Hs; exact Hs).
  rewrite Hc. destruct (Nat.ltb _ 6); [simpl; by f_equal |].
  destruct (row_names _ _ _) as [[[[[[cat fn] ln] g] c'] evs]|e]; [| simpl; by f_equal].
  destruct (later_cells _) as [[[[[c2 c3] c4] c5] c6]|e];
    [| unfold flow_forget, forget_details; simpl; by rewrite Hw, Hn, He].
  unfold detail_of.
  destruct (find_first (tag_class "a" "openscheda") c6) as [tag|];
    [destruct (get_attr tag "data-url") as [url|] |];
    [destruct (@get_detailed_info D1 _ url), (@get_detailed_info D2 _ url) | |];
    unfold flow_forget, forget_details; simpl; rewrite !map_app, Hw, Hn, He; done.
Qed.

Lemma for_each_isolated (rows : list node) (s1 s2 : pisa_state) :
  forget_details s1 = forget_details s2 ->
  flow_forget (for_each (@row_step _ D1 _) rows s1) =
  flow_forget (for_each (@row_step _ D2 _) rows s2).
Proof.
  revert s1 s2. induction rows as [|row rows IH]; intros s1 s2 Hs; simpl; [by f_equal |].
  pose proof (row_step_isolated row s1 s2 Hs) as Hr.
  destruct (@row_step _ D1 _ row s1) as [s1'|e1 s1'], (@row_step _ D2 _ row s2) as [s2'|e2 s2'];
    simpl in Hr; try discriminate.
  - apply IH. congruence.
  - exact Hr.
Qed.

(** C8: detail-fetch isolation: two runs of [scrape_pisa] that differ
    only in what the per-person API answers write the same rows (the two
    detail fields aside), in the same order, send the same requests, and
    end the same way: a failing detail fetch never drops its row nor stops
    the rows after it. *)
Theorem scrape_pisa_detail_isolated :
  option_map (fun '(s, e) => (forget_details s, e)) (@scrape_pisa _ D1 _ _) =
  option_map (fun '(s, e) => (forget_details s, e)) (@scrape_pisa _ D2 _ _).
Proof.
  unfold scrape_pisa. destruct fetch_page as [|status doc]; [done |].
  destruct (raise_for_status status); [done |].
  pose proof (for_each_isolated (find_all is_person_row doc) pisa_init pisa_init eq_refl) as Hf.
  destruct (for_each (@row_step _ D1 _) _ _), (for_each (@row_step _ D2 _) _ _);
    simpl in *; congruence.
Qed.
End Isolation.

(** ** The gender cache over a run *)

Section Cache.
Context `{GenderizeApi} `{DetailApi} `{HtmlParser} `{PageSource}.

Lemma row_names_lookup (row : node) (cols : list node) (cache cache' : gmap string string)
    (cat fn ln g : string) (evs : list event) :
  row_names row cols cache = Ok (cat, fn, ln, g, cache', evs) ->
  gender_lookup cache fn = Ok (g, cache', evs).
Proof.
  unfold row_names.
  intros (cat0 & _ & (c0 & Hc0 & (c1 & _ & Hl)%res_bind_Ok_inv)%res_bind_Ok_inv)%res_bind_Ok_inv.
  apply res_bind_Ok_inv in Hl as ([[g' c''] evs'] & Hg & Heq).
  injection Heq as E1 E2 E3 E4 E5 E6. subst.
  by rewrite Hg.
Qed.

Lemma detail_of_requests (c6 : node) : requests (detail_of c6).2 = [].
Proof.
  unfold detail_of. destruct (find_first _ c6) as [tag|]; [| done].
  destruct (get_attr tag "data-url") as [url|]; [| done].
  by destruct (get_detailed_info url).
Qed.

Lemma row_step_cache_inv (row : node) (s : pisa_state) :
  cache_inv (ps_cache s) (ps_events s) ->
  cache_inv (ps_cache (flow_state (row_step row s))) (ps_events (flow_state (row_step row s))).
Proof.
  intros Hinv. unfold row_step. destruct (Nat.ltb _ 6); [done |].
  destruct (row_names _ _ _) as [[[[[[cat fn] ln] g] c'] evs]|e] eqn:Hn; [| done].
  destruct (gender_lookup_inv _ _ _ _ _ _ (row_names_lookup _ _ _ _ _ _ _ _ _ Hn) Hinv)
    as [_ Hinv'].
  destruct (later_cells _) as [[[[[c2 c3] c4] c5] c6]|e]; [| done].
  pose proof (detail_of_requests c6) as Hd.
  destruct (detail_of c6) as [[p c] devs]. simpl in *.
  rewrite app_assoc. destruct Hinv' as [Hnd Hin]. unfold cache_inv.
  rewrite requests_app, Hd, app_nil_r. done.
Qed.

(** C6: the gender cache: in a whole run of [scrape_pisa], genderize.io
    is asked about each lower-cased first token at most once, however many
    rows share it, and however the run ends. *)
Theorem scrape_pisa_one_request_per_name :
  match scrape_pisa with
  | Some (s, _) => NoDup (py_lower <$> requests (ps_events s))
  | None => True
  end.
Proof.
  unfold scrape_pisa. destruct fetch_page as [|status doc]; [done |].
  destruct (raise_for_status status); [done |].
  assert (Hinv : cache_inv (ps_cache (flow_state (for_each row_step (find_all is_person_row doc) pisa_init)))
                           (ps_events (flow_state (for_each row_step (find_all is_person_row doc) pisa_init)))).
  { apply (for_each_inv (fun s => cache_inv (ps_cache s) (ps_events s))).
    - intros row s0. apply row_step_cache_inv.
    - split; [constructor | intros w Hw; inversion Hw]. }
  destruct (for_each row_step _ _); apply Hinv.
Qed.
End Cache.

(** ** Rows of exactly six cells *)

Section SixCells.
Context `{GenderizeApi} `{DetailApi} `{HtmlParser}.

Lemma row_names_ok (row c0 c1 : node) (cs : list node) (cache : gmap string string) :
  has_attr row "data-cat" = true -> py_split (get_text_strip c0) <> [] ->
  exists cat fn ln g cache' evs,
    row_names row (c0 :: c1 :: cs) cache = Ok (cat, fn, ln, g, cache', evs).
Proof.
  intros Hcat Hfn. unfold row_names, py_attr, has_attr in *.
  destruct (get_attr row "data-cat") as [cat|]; [| done].
  rewrite res_bind_ok, py_index_0, res_bind_ok, py_index_S, py_index_0, res_bind_ok.
  unfold gender_lookup. destruct (py_split (get_text_strip c0)) as [|w ws]; [done |].
  rewrite py_index_0, res_bind_ok.
  destruct (cache !! py_lower w); rewrite res_bind_ok; eauto 7.
Qed.

(** C13: the guard of line 90 skips rows with fewer than six cells, but
    line 126 reads [cols[6]], a seventh cell: a row of exactly six cells
    with a category and a first name raises IndexError after its gender
    was resolved, and the exception ends the program without writing the
    row. *)
Theorem six_cell_row_crashes (row c0 : node) (s : pisa_state) :
  length (cells row) = 6 -> head (cells row) = Some c0 ->
  has_attr row "data-cat" = true -> py_split (get_text_strip c0) <> [] ->
  exists s', row_step row s = Stop IndexError s' /\
             ps_written s' = ps_written s /\ ps_count s' = ps_count s.
Proof.
  unfold row_step, cells. intros Hlen Hhd Hcat Hfn.
  destruct (find_all (is_tag "td") row) as [|c0' [|c1 [|c2 [|c3 [|c4 [|c5 [|c6 cs]]]]]]];
    simpl in Hlen; try lia. injection Hhd as ->.
  cbn [length Nat.ltb Nat.leb].
  destruct (row_names_ok row c0 c1 [c2; c3; c4; c5] (ps_cache s) Hcat Hfn)
    as (cat & fn & ln & g & cache' & evs & ->).
  unfold later_cells. autorewrite with pyrw. eexists; eauto.
Qed.
(** C22: [first_name.split()[0]] (line 98) is outside any [try]: a row
    with at least six cells and a blank first-name cell raises IndexError
    before anything is written, and the exception ends the program; the
    spec says normalisation never raises. *)
Theorem blank_first_name_crashes (row c0 : node) (s : pisa_state) :
  6 <= length (cells row) -> head (cells row) = Some c0 ->
  has_attr row "data-cat" = true -> py_split (get_text_strip c0) = [] ->
  row_step row s = Stop IndexError s.
Proof.
  unfold row_step, cells. intros Hlen Hhd Hcat Hfn.
  destruct (find_all (is_tag "td") row) as [|c0' [|c1 cs]]; simpl in Hlen; try lia.
  injection Hhd as ->.
  replace (Nat.ltb (length (c0 :: c1 :: cs)) 6) with false
    by (symmetry; apply Nat.ltb_ge; simpl in *; lia).
  unfold row_names, py_attr, has_attr in *. destruct (get_attr row "data-cat"); [| done].
  rewrite res_bind_ok, py_index_0, res_bind_ok, py_index_S, py_index_0, res_bind_ok.
  unfold gender_lookup. by rewrite Hfn.
Qed.
End SixCells.

(** ** Every row of a name gets the cached label *)

Section Consistency.
Context `{GenderizeApi} `{DetailApi} `{HtmlParser} `{PageSource}.

(** Every written row's gender is what the cache holds for its name. *)
Definition rows_cached (s : pisa_state) : Prop :=
  forall r, r ∈ ps_written s ->
    exists k, name_key (pr_first_name r) = Some k /\ ps_cache s !! k = Some (pr_gender r).

Lemma row_step_rows_cached (row : node) (s : pisa_state) :
  rows_cached s -> rows_cached (flow_state (row_step row s)).
Proof.
  intros Hs. unfold row_step. destruct (Nat.ltb _ 6); [done |].
  destruct (row_names _ _ _) as [[[[[[cat fn] ln] g] c'] evs]|e] eqn:Hn; [| done].
  pose proof (row_names_lookup _ _ _ _ _ _ _ _ _ Hn) as Hl.
  pose proof (gender_lookup_subseteq _ _ _ _ _ Hl) as Hsub.
  assert (Hold : forall r, r ∈ ps_written s ->
            exists k, name_key (pr_first_name r) = Some k /\ c' !! k = Some (pr_gender r)).
  { intros r Hr. destruct (Hs r Hr) as (k & Hk & Hc). exists k. split; [done |].
    by eapply lookup_weaken. }
  destruct (later_cells _) as [[[[[c2 c3] c4] c5] c6]|e]; [| done].
  destruct (detail_of c6) as [[p c] devs]. simpl.
  intros r [Hr | ->%list_elem_of_singleton]%elem_of_app; [by apply Hold |].
  simpl. unfold row_names in Hn.
  apply res_bind_Ok_inv in Hn as (cat0 & _ & Hn).
  apply res_bind_Ok_inv in Hn as (c0 & _ & Hn).
  apply res_bind_Ok_inv in Hn as (c1 & _ & Hn).
  apply res_bind_Ok_inv in Hn as ([[g' c''] evs'] & Hg & Heq).
  injection Heq as E1 E2 E3 E4 E5 E6. subst.
  by eapply gender_lookup_cached.
Qed.

(** C18: a repeated name gets the cached answer: in a run of
    [scrape_pisa], two rows whose first names have the same lower-cased
    first token carry the same gender label. *)
Theorem scrape_pisa_same_key_same_gender :
  match scrape_pisa with
  | Some (s, _) =>
      forall r1 r2, r1 ∈ ps_written s -> r2 ∈ ps_written s ->
        name_key (pr_first_name r1) = name_key (pr_first_name r2) ->
        pr_gender r1 = pr_gender r2
  | None => True
  end.
Proof.
  unfold scrape_pisa. destruct fetch_page as [|status doc]; [done |].
  destruct (raise_for_status status); [done |].
  assert (Hinv : rows_cached (flow_state (for_each row_step (find_all is_person_row doc) pisa_init))).
  { apply (for_each_inv rows_cached); [intros row s0; apply row_step_rows_cached |].
    intros r Hr. inversion Hr. }
  assert (Hcons : forall s, rows_cached s -> forall r1 r2, r1 ∈ ps_written s -> r2 ∈ ps_written s ->
            name_key (pr_first_name r1) = name_key (pr_first_name r2) -> pr_gender r1 = pr_gender r2).
  { intros s0 Hs0 r1 r2 Hr1 Hr2 Hk.
    destruct (Hs0 r1 Hr1) as (k1 & Hk1 & Hc1), (Hs0 r2 Hr2) as (k2 & Hk2 & Hc2). congruence. }
  destruct (for_each row_step _ _); simpl in Hinv; apply Hcons, Hinv.
Qed.
End Consistency.
End PisaFacts.

Module PisaWitness.
Import Pisa PisaFacts.

#[local] Instance demo_genderize : GenderizeApi :=
  fun w => GReply 200 (Some {| gj_gender := Some "female"; gj_probability := Some (9 # 10)%Q |}).
#[local] Instance demo_parser : HtmlParser := fun s => Elem "[document]" [] [Text s].
#[local] Instance down_api : DetailApi := fun _ => DNetError.

Lemma get_detailed_info_failure_witness :
  (fetch_detail "https://unimap.unipi.it/api/persona/1" = DNetError \/
   (exists status body, fetch_detail "https://unimap.unipi.it/api/persona/1" = DReply status body /\
                        raise_for_status status = true) \/
   (exists status, fetch_detail "https://unimap.unipi.it/api/persona/1" = DReply status None)) /\
  get_detailed_info "https://unimap.unipi.it/api/persona/1" = (error_empty, error_empty).
Proof.
  assert (Hf : fetch_detail "https://unimap.unipi.it/api/persona/1" = DNetError) by reflexivity.
  split; [by left |]. apply get_detailed_info_failure. by left.
Defined.

Definition alice_tag : node :=
  Elem "a" [("class", "cryptml"); ("data-name", "alice"); ("data-domain", "example");
            ("data-tld", "com")] [].
Definition alice_cell : node := Elem "td" [] [alice_tag].

Lemma email_of_rebuilt_witness :
  find_first (tag_class "a" "cryptml") alice_cell = Some alice_tag /\
  get_attr alice_tag "data-name" = Some "alice" /\ "alice" <> "" /\
  get_attr alice_tag "data-domain" = Some "example" /\ get_attr alice_tag "data-tld" = Some "com" /\
  email_of alice_cell = "alice@example.com".
Proof.
  assert (H1 : find_first (tag_class "a" "cryptml") alice_cell = Some alice_tag) by reflexivity.
  assert (H2 : get_attr alice_tag "data-name" = Some "alice") by reflexivity.
  assert (H3 : "alice" <> "") by discriminate.
  assert (H4 : get_attr alice_tag "data-domain" = Some "example") by reflexivity.
  assert (H5 : get_attr alice_tag "data-tld" = Some "com") by reflexivity.
  split_and!; try assumption.
  exact (proj2 (proj2 (email_of_rebuilt alice_cell)) alice_tag _ _ _ H1 H2 H3 H4 H5).
Defined.

(** A row of the Pisa page with six cells only (no "scheda" cell). *)
Definition six_cell_row : node :=
  Elem "tr" [("data-cat", "Faculty - Professors")]
    [Elem "td" [] [Text "Maria"]; Elem "td" [] [Text "Rossi"]; Elem "td" [] [];
     Elem "td" [] []; Elem "td" [] [Text "331 O"]; Elem "td" [] [Text "tel. 050 221"]].

Lemma six_cell_row_crashes_witness :
  length (cells six_cell_row) = 6 /\
  head (cells six_cell_row) = Some (Elem "td" [] [Text "Maria"]) /\
  has_attr six_cell_row "data-cat" = true /\
  py_split (get_text_strip (Elem "td" [] [Text "Maria"])) <> [] /\
  exists s', row_step six_cell_row pisa_init = Stop IndexError s' /\
             ps_written s' = ps_written pisa_init /\ ps_count s' = ps_count pisa_init.
Proof.
  refine (conj _ (conj _ (conj _ (conj _ _))));
    [vm_compute; reflexivity | vm_compute; reflexivity | vm_compute; reflexivity
    | vm_compute; discriminate |].
  apply (six_cell_row_crashes six_cell_row (Elem "td" [] [Text "Maria"]));
    [vm_compute; reflexivity | vm_compute; reflexivity | vm_compute; reflexivity
    | vm_compute; discriminate].
Defined.
Definition blank_name_row : node :=
  Elem "tr" [("data-cat", "Staff")]
    [Elem "td" [] [Text "  "]; Elem "td" [] [Text "Rossi"]; Elem "td" [] []; Elem "td" [] [];
     Elem "td" [] []; Elem "td" [] []; Elem "td" [] []].

Lemma blank_first_name_crashes_witness :
  6 <= length (cells blank_name_row) /\
  head (cells blank_name_row) = Some (Elem "td" [] [Text "  "]) /\
  has_attr blank_name_row "data-cat" = true /\
  py_split (get_text_strip (Elem "td" [] [Text "  "])) = [] /\
  row_step blank_name_row pisa_init = Stop IndexError pisa_init.
Proof.
  refine (conj _ (conj _ (conj _ (conj _ _))));
    [vm_compute; lia | vm_compute; reflexivity | vm_compute; reflexivity
    | vm_compute; reflexivity |].
  apply (blank_first_name_crashes blank_name_row (Elem "td" [] [Text "  "]));
    [vm_compute; lia | vm_compute; reflexivity | vm_compute; reflexivity
    | vm_compute; reflexivity].
Defined.
End PisaWitness.
