(* ===== verification/Csv.v ===== *)
(** * The CSV files between the scrapers and the chart scripts

    Both scrapers end by writing their records with Python's [csv]
    module: [csv.DictWriter] in aarhus_scraper.py (lines 129-135, only
    when at least one record was gathered) and [csv.writer] in
    pisa_scraper.py (lines 77-79 and 136, the header first, then one row
    per person as the loop goes).  The chart scripts read these files back
    with [pandas.read_csv].

    This file models the format on both sides:
    - [write_field], [csv_line], [csv_text]: the writer of the default
      "excel" dialect with [QUOTE_MINIMAL]: a field is quoted when it holds
      a comma, a double quote, CR or LF, a quote inside is doubled, and a
      row made of one empty field is written as two quotes (otherwise it
      would be a blank line); every line ends with CR LF.
    - [tokenize], [csv_read]: the tokenizer of pandas' C parser, a state
      machine with the states of its source (start of record, start of
      field, in field, in quoted field, quote in quoted field, CR seen),
      skipping blank lines and failing on end of input inside quotes.
      A lone CR ends a line and the next character starts a record.
    - [aarhus_csv], [pisa_csv]: the files the two scrapers write.
    The main result is the round trip: reading what the writer wrote gives
    the rows back, for every list of non-empty rows. *)

From S2P Require Import Prelude PyStr Html Aarhus Crawl Pisa.

Local Open Scope string_scope.

(** ** Characters of the dialect *)

Definition comma : ascii := ",".
(** The double quote, character 34. *)
Definition dq : ascii := Ascii false true false false false true false false.
Definition CR : ascii := Ascii true false true true false false false false.
Definition LF : ascii := Ascii false true false true false false false false.
Definition crlf : string := String CR (String LF EmptyString).

(** ** The writer (Python's [_csv.c], dialect "excel") *)

Definition special (c : ascii) : bool :=
  Ascii.eqb c comma || Ascii.eqb c dq || Ascii.eqb c CR || Ascii.eqb c LF.

Fixpoint needs_quotes (s : string) : bool :=
  match s with
  | EmptyString => false
  | String c s' => special c || needs_quotes s'
  end.

Fixpoint double_quotes (s : string) : string :=
  match s with
  | EmptyString => EmptyString
  | String c s' =>
      if Ascii.eqb c dq then String dq (String dq (double_quotes s'))
      else String c (double_quotes s')
  end.

Definition quoted (s : string) : string := String dq (double_quotes s ++ String dq EmptyString).

Definition write_field (f : string) : string :=
  if needs_quotes f then quoted f else f.

(** [writer.writerow(row)]: the fields joined by commas, then CR LF; a
    row of one empty field is written quoted. *)
Definition csv_line (row : list string) : string :=
  match row with
  | [EmptyString] => quoted "" ++ crlf
  | _ => py_join "," (map write_field row) ++ crlf
  end.

Definition csv_text (rows : list (list string)) : string :=
  foldr (fun r t => csv_line r ++ t) "" rows.

(** ** The reader (pandas' [tokenizer.c]) *)

Inductive tok_state :=
  | StartRecord
  | StartField
  | InField
  | InQuoted
  | QuoteInQuoted
  | EatCRNL
  | EatCRNLNop.

(** End of input: a record in progress is finished; inside quotes the
    parser fails ("EOF inside string", a ValueError). *)
Definition tok_eof (st : tok_state) (fld : string) (row : list string)
  : res (list (list string)) :=
  match st with
  | StartRecord | EatCRNLNop => Ok []
  | InQuoted => Raise ValueError
  | EatCRNL => Ok [rev row]
  | StartField => Ok [rev ("" :: row)]
  | InField | QuoteInQuoted => Ok [rev (fld :: row)]
  end.

(** [fld] is the field being read, [row] the fields of the record so far
    (last first). *)
Fixpoint tokenize (st : tok_state) (fld : string) (row : list string) (s : string)
  : res (list (list string)) :=
  match s with
  | EmptyString => tok_eof st fld row
  | String c s' =>
      let go st' fld' row' := tokenize st' fld' row' s' in
      let line r := res_map (cons (rev r)) (go StartRecord "" []) in
      let push := fld ++ String c EmptyString in
      let start_field row :=
        if Ascii.eqb c LF then line ("" :: row)
        else if Ascii.eqb c CR then go EatCRNL "" ("" :: row)
        else if Ascii.eqb c dq then go InQuoted "" row
        else if Ascii.eqb c comma then go StartField "" ("" :: row)
        else go InField (String c EmptyString) row in
      let start_record (_ : unit) :=
        if Ascii.eqb c LF then go StartRecord "" []
        else if Ascii.eqb c CR then go EatCRNLNop "" []
        else start_field [] in
      match st with
      | StartRecord => start_record tt
      | StartField => start_field row
      | InField =>
          if Ascii.eqb c LF then line (fld :: row)
          else if Ascii.eqb c CR then go EatCRNL "" (fld :: row)
          else if Ascii.eqb c comma then go StartField "" (fld :: row)
          else go InField push row
      | InQuoted =>
          if Ascii.eqb c dq then go QuoteInQuoted fld row else go InQuoted push row
      | QuoteInQuoted =>
          if Ascii.eqb c dq then go InQuoted push row
          else if Ascii.eqb c comma then go StartField "" (fld :: row)
          else if Ascii.eqb c LF then line (fld :: row)
          else if Ascii.eqb c CR then go EatCRNL "" (fld :: row)
          else go InField push row
      | EatCRNL =>
          if Ascii.eqb c LF then line row
          else res_map (cons (rev row)) (start_record tt)
      | EatCRNLNop =>
          if Ascii.eqb c LF then go StartRecord "" [] else start_record tt
      end
  end.

Definition csv_read (text : string) : res (list (list string)) :=
  tokenize StartRecord "" [] text.

(** ** The round trip *)

Section RoundTrip.

Lemma special_false (c : ascii) :
  special c = false ->
  Ascii.eqb c comma = false /\ Ascii.eqb c dq = false /\
  Ascii.eqb c CR = false /\ Ascii.eqb c LF = false.
Proof. unfold special. rewrite !orb_false_iff. tauto. Qed.

Lemma needs_quotes_cons (c : ascii) (s : string) :
  needs_quotes (String c s) = false -> special c = false /\ needs_quotes s = false.
Proof. simpl. by rewrite orb_false_iff. Qed.

(** An unquoted field is read character by character. *)
Lemma read_plain (f fld s : string) (row : list string) :
  needs_quotes f = false ->
  tokenize InField fld row (f ++ s) = tokenize InField (fld ++ f) row s.
Proof.
  revert fld. induction f as [|c f IH]; intros fld Hf.
  - by rewrite str_app_nil_l, str_app_nil_r.
  - apply needs_quotes_cons in Hf as [Hc Hf].
    destruct (special_false c Hc) as (H1 & H2 & H3 & H4).
    rewrite str_app_cons. simpl. rewrite H4, H3, H1, IH by done.
    by rewrite str_app_assoc.
Qed.

(** Inside quotes, a doubled quote is read as one. *)
Lemma read_quoted (f fld s : string) (row : list string) :
  tokenize InQuoted fld row (double_quotes f ++ s) = tokenize InQuoted (fld ++ f) row s.
Proof.
  revert fld. induction f as [|c f IH]; intros fld.
  - by rewrite str_app_nil_l, str_app_nil_r.
  - simpl. destruct (Ascii.eqb c dq) eqn:Hc.
    + apply Ascii.eqb_eq in Hc as ->. rewrite !str_app_cons. simpl.
      by rewrite IH, str_app_assoc.
    + rewrite str_app_cons. simpl. rewrite Hc, IH. by rewrite str_app_assoc.
Qed.

(** The state after a field terminator: a comma starts the next field, a
    CR waits for its LF. *)
Definition after (d : ascii) : tok_state :=
  if Ascii.eqb d comma then StartField else EatCRNL.

Lemma read_field (f s : string) (d : ascii) (row : list string) :
  d = comma \/ d = CR ->
  tokenize StartField "" row (write_field f ++ String d s) =
  tokenize (after d) "" (f :: row) s.
Proof.
  intros Hd. unfold write_field.
  destruct (needs_quotes f) eqn:Hq.
  - unfold quoted. rewrite str_app_cons. simpl.
    rewrite str_app_assoc, read_quoted, str_app_nil_l, str_app_cons, str_app_nil_l.
    destruct Hd as [-> | ->]; reflexivity.
  - destruct f as [|c f].
    + rewrite str_app_nil_l. destruct Hd as [-> | ->]; reflexivity.
    + apply needs_quotes_cons in Hq as [Hc Hq].
      destruct (special_false c Hc) as (H1 & H2 & H3 & H4).
      rewrite str_app_cons. simpl. rewrite H4, H3, H2, H1, read_plain by done.
      destruct Hd as [-> | ->]; reflexivity.
Qed.

(** The fields of a non-empty row, up to the end of its line. *)
Lemma read_fields (row acc : list string) (s : string) :
  row <> [] ->
  tokenize StartField "" acc (py_join "," (map write_field row) ++ crlf ++ s) =
  res_map (cons (rev acc ++ row)%list) (tokenize StartRecord "" [] s).
Proof.
  revert acc. induction row as [|f [|f2 fs] IH]; intros acc Hne; [done | |].
  - simpl. unfold crlf. rewrite !str_app_cons, str_app_nil_l, read_field by auto.
    done.
  - change (py_join "," (map write_field (f :: f2 :: fs)))
      with (write_field f ++ "," ++ py_join "," (map write_field (f2 :: fs))).
    rewrite !str_app_assoc, (str_app_cons comma), str_app_nil_l, read_field by auto.
    change (after comma) with StartField. rewrite IH by done.
    simpl. by rewrite <- app_assoc.
Qed.

(** A line that does not start with CR or LF is no blank line. *)
Lemma read_record_start (c : ascii) (t : string) :
  Ascii.eqb c CR = false -> Ascii.eqb c LF = false ->
  tokenize StartRecord "" [] (String c t) = tokenize StartField "" [] (String c t).
Proof. intros H3 H4. simpl. by rewrite H3, H4. Qed.

Lemma write_field_head (f : string) :
  f <> "" -> exists c t, write_field f = String c t /\
                         Ascii.eqb c CR = false /\ Ascii.eqb c LF = false.
Proof.
  intros Hf. unfold write_field.
  destruct (needs_quotes f) eqn:Hq; [by do 2 eexists |].
  destruct f as [|c f]; [done |].
  apply needs_quotes_cons in Hq as [Hc _].
  destruct (special_false c Hc) as (_ & _ & H3 & H4). by do 2 eexists.
Qed.

Lemma line_head (row : list string) (s : string) :
  row <> [] -> row <> [""] ->
  exists c t, py_join "," (map write_field row) ++ crlf ++ s = String c t /\
              Ascii.eqb c CR = false /\ Ascii.eqb c LF = false.
Proof.
  intros Hne H1. destruct row as [|f [|f2 fs]]; [done | |].
  - destruct (write_field_head f) as (c & t & Hw & H3 & H4); [by intros -> |].
    simpl. rewrite Hw, str_app_cons. by do 2 eexists.
  - change (py_join "," (map write_field (f :: f2 :: fs)))
      with (write_field f ++ "," ++ py_join "," (map write_field (f2 :: fs))).
    destruct (decide (f = "")) as [-> | Hf].
    + rewrite !str_app_nil_l, !str_app_cons. by do 2 eexists.
    + destruct (write_field_head f) as (c & t & Hw & H3 & H4); [done |].
      rewrite Hw, !str_app_cons. by do 2 eexists.
Qed.

Lemma read_line (row : list string) (s : string) :
  row <> [] ->
  tokenize StartRecord "" [] (csv_line row ++ s) =
  res_map (cons row) (tokenize StartRecord "" [] s).
Proof.
  intros Hne. destruct (decide (row = [""])) as [-> | H1]; [reflexivity |].
  assert (Hl : csv_line row = py_join "," (map write_field row) ++ crlf).
  { unfold csv_line. destruct row as [|[|c f] [|f2 fs]]; done. }
  rewrite Hl, str_app_assoc.
  destruct (line_head row s Hne H1) as (c & t & Heq & H3 & H4).
  rewrite Heq, read_record_start, <- Heq by done.
  by rewrite read_fields.
Qed.
End RoundTrip.

(** ** The files of the two scrapers *)

Module Sink.

(** aarhus_scraper.py, line 131. *)
Definition aarhus_headers : list string :=
  ["Category"; "Name"; "Gender"; "Job Title"; "Email"; "Phone"; "Mobile";
   "Building"; "Profile Link"].

(** [DictWriter] writes the values of a record in the order of
    [fieldnames] (lines 93-103 give exactly these keys). *)
Definition staff_row (s : staff) : list string :=
  [st_category s; st_name s; st_gender s; st_job_title s; st_email s;
   st_phone s; st_mobile s; st_building s; st_profile_link s].

Definition aarhus_csv (rs : list staff) : string :=
  csv_text (aarhus_headers :: map staff_row rs).

(** Lines 129-135: the file is written only when records were gathered
    ([scrape_aarhus] gives [None] otherwise); else the file of an earlier
    run, if there is one, is left as it was. *)
Definition save_aarhus (old : option string) (records : option (list staff)) : option string :=
  match records with
  | Some rs => Some (aarhus_csv rs)
  | None => old
  end.

(** pisa_scraper.py, line 79. *)
Definition pisa_header : list string :=
  ["Category"; "First Name"; "Last Name"; "Gender"; "Email"; "Website";
   "Room"; "Phone"; "Recent Publications"; "Courses"].

(** Line 136. *)
Definition pisa_fields (r : pisa_row) : list string :=
  [pr_category r; pr_first_name r; pr_last_name r; pr_gender r; pr_email r;
   pr_website r; pr_room r; pr_phone r; pr_publications r; pr_courses r].

Definition pisa_csv (rs : list pisa_row) : string :=
  csv_text (pisa_header :: map pisa_fields rs).

(** Lines 68-79 and 136: no file is opened when the main page fails;
    otherwise the file holds the header and every row written before the
    loop ended, also when it ended by an exception ([with] closes the
    file before the exception goes on). *)
Definition save_pisa (old : option string) (run : option (pisa_state * option py_exc))
  : option string :=
  match run with
  | Some (s, _) => Some (pisa_csv (ps_written s))
  | None => old
  end.
End Sink.

(** ** Reading back what was written *)

Module CsvFacts.
Import Sink.

(** The round trip: the pandas tokenizer reads back exactly the rows
    Python's csv writer wrote, for any strings in the fields (commas,
    quotes and line breaks included), provided no row is empty. *)
Lemma csv_read_write (rows : list (list string)) :
  Forall (fun r => r <> []) rows -> csv_read (csv_text rows) = Ok rows.
Proof.
  unfold csv_read. induction 1 as [|r rows Hr _ IH]; [done |].
  simpl. by rewrite read_line, IH.
Qed.

Lemma aarhus_rows_nonempty (rs : list staff) :
  Forall (fun r => r <> []) (aarhus_headers :: map staff_row rs).
Proof. constructor; [done |]. apply Forall_fmap, Forall_true. done. Qed.

Lemma pisa_rows_nonempty (rs : list pisa_row) :
  Forall (fun r => r <> []) (pisa_header :: map pisa_fields rs).
Proof. constructor; [done |]. apply Forall_fmap, Forall_true. done. Qed.
End CsvFacts.

