(* ===== verification/Frame.v ===== *)
(** * The pandas operations of the chart scripts

    aarhus_visualizer.py and pisa_visualizer.py read a scraper's CSV file
    with [pd.read_csv] and count the values of some columns:
    [Series.value_counts()], [nlargest(10)], [isin], and seaborn's
    [countplot], which counts the rows of each category.  This file models
    these operations on a data frame whose cells are strings or missing:
    - [read_csv]: the records of [csv_read]; the first is the header, the
      others are rows, padded with missing cells when short (a longer row is
      a ParserError, a ValueError); a cell whose text is one of pandas'
      default NA strings ("", "N/A", "NA", "null", "nan", ...) is missing.
      Every column is read as text: pandas would turn a column all of whose
      cells are numbers into a numeric column, which the model does not do.
    - [value_counts]: the count of each value, missing cells dropped, the
      most frequent first, values of equal count in the order they first
      appear (the order pandas gives: its counting keeps the order of first
      appearance and its sort of the counts is stable on these sizes).
    - [nlargest], [isin], [countplot_order], [countplot]: the selection of
      the largest counts, the row filter, and seaborn's counting with an
      explicit order of categories or, without one, the order in which the
      categories first appear. *)

From Stdlib Require Import Sorted.
From S2P Require Import Prelude PyStr Csv.

Local Open Scope string_scope.
Local Open Scope list_scope.
Local Set Warnings "-clear-no-such-hyp".

(** A cell of the frame: [None] is NaN. *)
Definition cell := option string.

(** The strings pandas reads as NaN by default (pandas 2). *)
Definition na_values : list string :=
  [""; "#N/A"; "#N/A N/A"; "#NA"; "-1.#IND"; "-1.#QNAN"; "-NaN"; "-nan";
   "1.#IND"; "1.#QNAN"; "<NA>"; "N/A"; "NA"; "NULL"; "NaN"; "None"; "n/a";
   "nan"; "null"].

Definition na_cell (s : string) : cell :=
  if existsb (String.eqb s) na_values then None else Some s.

Record frame := {
  df_columns : list string;
  df_rows : list (list cell)
}.

(** [pd.read_csv(path)] on the text of the file. *)
Definition read_csv (text : string) : res frame :=
  let? recs := csv_read text in
  match recs with
  | [] => Raise ValueError
  | hdr :: data =>
      let n := length hdr in
      if existsb (fun r => Nat.ltb n (length r)) data then Raise ValueError
      else Ok {| df_columns := hdr;
                 df_rows := map (fun r => (map na_cell r ++ replicate (n - length r) None)%list) data |}
  end.

Fixpoint col_index (name : string) (cols : list string) : option nat :=
  match cols with
  | [] => None
  | c :: cs => if String.eqb c name then Some 0 else S <$> col_index name cs
  end.

(** [name in df.columns]. *)
Definition has_column (df : frame) (name : string) : bool :=
  existsb (String.eqb name) (df_columns df).

(** [df[name]]: KeyError when there is no such column. *)
Definition df_column (df : frame) (name : string) : res (list cell) :=
  match col_index name (df_columns df) with
  | Some i => Ok (map (fun r => List.nth i r None) (df_rows df))
  | None => Raise KeyError
  end.

(** seaborn's [data=df, x=name]: a ValueError when there is no such
    column. *)
Definition sns_column (df : frame) (name : string) : res (list cell) :=
  match df_column df name with
  | Ok c => Ok c
  | Raise _ => Raise ValueError
  end.

(** ** Counting *)

(** A series of counts: a value and its count. *)
Definition chart := list (string * nat).

(** One more occurrence of [k], in order of first appearance. *)
Fixpoint bump (k : string) (acc : chart) : chart :=
  match acc with
  | [] => [(k, 1)]
  | (k', n) :: acc' => if String.eqb k k' then (k', S n) :: acc' else (k', n) :: bump k acc'
  end.

Definition tally_step (acc : chart) (c : cell) : chart :=
  match c with Some k => bump k acc | None => acc end.

Definition tally (xs : list cell) : chart := fold_left tally_step xs [].

(** Stable sort by decreasing count: [p] goes after every entry whose
    count is at least its own. *)
Fixpoint insert_desc (p : string * nat) (l : chart) : chart :=
  match l with
  | [] => [p]
  | q :: l' => if Nat.ltb q.2 p.2 then p :: l else q :: insert_desc p l'
  end.

Definition sort_desc (l : chart) : chart := fold_left (fun acc p => insert_desc p acc) l [].

(** [series.value_counts()]. *)
Definition value_counts (xs : list cell) : chart := sort_desc (tally xs).

(** [counts.nlargest(n)], ties kept in order ([keep='first']). *)
Definition nlargest (n : nat) (s : chart) : chart := take n (sort_desc s).

(** [series.isin(keys)]: false on NaN. *)
Definition isin (keys : list string) (c : cell) : bool :=
  match c with Some k => existsb (String.eqb k) keys | None => false end.

(** The number of cells holding [k]. *)
Definition occ (k : string) (xs : list cell) : nat :=
  length (List.filter (fun c => bool_decide (c = Some k)) xs).

(** [sns.countplot(..., order=order)]: one bar per category of [order]. *)
Definition countplot_order (order : list string) (xs : list cell) : chart :=
  map (fun k => (k, occ k xs)) order.

(** The distinct values, in order of first appearance
    ([pd.Series(vector).unique()] without NaN). *)
Definition unique_step (u : list string) (c : cell) : list string :=
  match c with
  | Some k => if existsb (String.eqb k) u then u else (u ++ [k])%list
  | None => u
  end.

Definition unique (xs : list cell) : list string := fold_left unique_step xs [].

(** [sns.countplot(x=name, data=df)] without an order. *)
Definition countplot (xs : list cell) : chart := countplot_order (unique xs) xs.

(** ** The stable sort of the counts *)

(** Entries in decreasing order of count. *)
Definition desc (p q : string * nat) : Prop := q.2 <= p.2.

#[export] Instance desc_trans : Transitive desc.
Proof. intros p q r; unfold desc; lia. Qed.

(** The entries of count [n], in order. *)
Definition of_count (n : nat) (l : chart) : chart := List.filter (fun p => Nat.eqb p.2 n) l.

Section SortDesc.

Lemma insert_desc_perm (p : string * nat) (l : chart) : insert_desc p l ≡ₚ p :: l.
Proof.
  induction l as [|q l IH]; simpl; [done |].
  destruct (Nat.ltb q.2 p.2); [done |]. rewrite IH. apply perm_swap.
Qed.

Lemma sort_desc_go_perm (l acc : chart) :
  fold_left (fun acc p => insert_desc p acc) l acc ≡ₚ l ++ acc.
Proof.
  revert acc. induction l as [|p l IH]; intros acc; simpl; [done |].
  rewrite IH, insert_desc_perm. by rewrite Permutation_middle.
Qed.

Lemma sort_desc_perm (l : chart) : sort_desc l ≡ₚ l.
Proof. unfold sort_desc. by rewrite sort_desc_go_perm, app_nil_r. Qed.

Lemma insert_desc_hd (a p : string * nat) (l : chart) :
  HdRel desc a l -> desc a p -> HdRel desc a (insert_desc p l).
Proof.
  destruct l as [|q l]; simpl; intros Hl Hp; [by constructor |].
  destruct (Nat.ltb q.2 p.2); constructor; [done | by inversion Hl].
Qed.

Lemma insert_desc_sorted (p : string * nat) (l : chart) :
  Sorted desc l -> Sorted desc (insert_desc p l).
Proof.
  induction 1 as [|q l Hl IH Hq]; simpl; [by repeat constructor |].
  destruct (Nat.ltb q.2 p.2) eqn:E.
  - apply Nat.ltb_lt in E. constructor; [by constructor |].
    constructor. unfold desc. lia.
  - apply Nat.ltb_ge in E. constructor; [done |].
    apply insert_desc_hd; [done | unfold desc; lia].
Qed.

Lemma sort_desc_sorted (l : chart) : Sorted desc (sort_desc l).
Proof.
  unfold sort_desc. generalize (@nil (string * nat)) (Sorted_nil desc).
  induction l as [|p l IH]; intros acc Hacc; simpl; [done |].
  by apply IH, insert_desc_sorted.
Qed.

(** In a sorted chart nothing after the head has a larger count. *)
Lemma sorted_of_count_nil (q : string * nat) (l : chart) (n : nat) :
  Sorted desc (q :: l) -> q.2 < n -> of_count n (q :: l) = [].
Proof.
  intros Hs Hn. apply Sorted_extends in Hs; [| intros ???; unfold desc; lia].
  unfold of_count. simpl. rewrite (proj2 (Nat.eqb_neq _ _)) by lia.
  induction Hs as [|r l Hr _ IH]; simpl; [done |].
  unfold desc in Hr. by rewrite (proj2 (Nat.eqb_neq _ _)) by lia.
Qed.

(** Insertion is stable: an entry goes after those of its count. *)
Lemma insert_desc_of_count (p : string * nat) (l : chart) (n : nat) :
  Sorted desc l ->
  of_count n (insert_desc p l) = of_count n l ++ of_count n [p].
Proof.
  induction l as [|q l IH]; intros Hs; [done |].
  cbn [insert_desc]. destruct (Nat.ltb q.2 p.2) eqn:E.
  - apply Nat.ltb_lt in E.
    change (of_count n (p :: q :: l))
      with (if Nat.eqb p.2 n then p :: of_count n (q :: l) else of_count n (q :: l)).
    destruct (Nat.eqb p.2 n) eqn:En.
    + apply Nat.eqb_eq in En. rewrite (sorted_of_count_nil q l n Hs) by lia.
      destruct p as [k m]. unfold of_count. simpl in *. subst. by rewrite Nat.eqb_refl.
    + destruct p as [k m]. unfold of_count at 3. simpl in *. by rewrite En, app_nil_r.
  - unfold of_count in *. simpl.
    rewrite IH by (by inversion Hs). by destruct (Nat.eqb q.2 n).
Qed.

Lemma sort_desc_go_of_count (l acc : chart) (n : nat) :
  Sorted desc acc ->
  of_count n (fold_left (fun acc p => insert_desc p acc) l acc) = of_count n acc ++ of_count n l.
Proof.
  revert acc. induction l as [|p l IH]; intros acc Hacc; simpl; [by rewrite app_nil_r |].
  rewrite IH by (by apply insert_desc_sorted).
  rewrite insert_desc_of_count by done. rewrite <- app_assoc. f_equal.
  unfold of_count. simpl. by destruct (Nat.eqb p.2 n).
Qed.

(** Values of equal count keep their order. *)
Lemma sort_desc_stable (l : chart) (n : nat) : of_count n (sort_desc l) = of_count n l.
Proof. unfold sort_desc. by rewrite sort_desc_go_of_count by constructor. Qed.

(** A chart already in decreasing order is left as it is. *)
Lemma insert_desc_last (p : string * nat) (l : chart) :
  Forall (fun q => desc q p) l -> insert_desc p l = l ++ [p].
Proof.
  induction 1 as [|q l Hq _ IH]; simpl; [done |].
  unfold desc in Hq. rewrite (proj2 (Nat.ltb_ge _ _)) by lia. by rewrite IH.
Qed.

Lemma sort_desc_go_sorted (l acc : chart) :
  Sorted desc (acc ++ l) -> fold_left (fun acc p => insert_desc p acc) l acc = acc ++ l.
Proof.
  revert acc. induction l as [|p l IH]; intros acc Hs; simpl; [by rewrite app_nil_r |].
  rewrite insert_desc_last.
  - rewrite IH; [by rewrite <- app_assoc |]. by rewrite <- app_assoc.
  - apply Sorted_StronglySorted in Hs; [| intros ???; unfold desc; lia].
    clear IH. induction acc as [|q acc IHa]; [done |].
    apply StronglySorted_inv in Hs as [Hs Hq].
    constructor; [| by apply IHa].
    apply Forall_app in Hq as [_ Hq]. by inversion Hq.
Qed.

Lemma sort_desc_sorted_id (l : chart) : Sorted desc l -> sort_desc l = l.
Proof. apply (sort_desc_go_sorted l []). Qed.
End SortDesc.

(** ** Counting in order of first appearance *)

Section Counting.

Lemma existsb_string_elem (k : string) (u : list string) :
  existsb (String.eqb k) u = bool_decide (k ∈ u).
Proof.
  induction u as [|k' u IH]; simpl; [done |].
  rewrite IH. destruct (String.eqb_spec k k') as [-> | Hne].
  - symmetry. apply bool_decide_eq_true. by left.
  - apply bool_decide_ext. rewrite elem_of_cons. split; [by right | intros [? | ?]; [contradiction | done]].
Qed.

Lemma occ_app (k : string) (xs ys : list cell) : occ k (xs ++ ys) = occ k xs + occ k ys.
Proof. unfold occ. by rewrite List.filter_app, length_app. Qed.

Lemma occ_some (k0 k : string) : occ k [Some k0] = if String.eqb k0 k then 1 else 0.
Proof.
  unfold occ. simpl. case_bool_decide as H; destruct (String.eqb_spec k0 k); simpl; congruence.
Qed.

Lemma occ_none (k : string) : occ k [None] = 0.
Proof. done. Qed.

Lemma unique_snoc (xs : list cell) (c : cell) : unique (xs ++ [c]) = unique_step (unique xs) c.
Proof. unfold unique. by rewrite fold_left_app. Qed.

Lemma tally_snoc (xs : list cell) (c : cell) : tally (xs ++ [c]) = tally_step (tally xs) c.
Proof. unfold tally. by rewrite fold_left_app. Qed.

Lemma unique_elem (k : string) (xs : list cell) : k ∈ unique xs <-> Some k ∈ xs.
Proof.
  induction xs as [|c xs IH] using rev_ind; [unfold unique; simpl; set_solver |].
  rewrite unique_snoc, elem_of_app, list_elem_of_singleton, <- IH.
  destruct c as [k0|]; simpl; [| naive_solver].
  rewrite existsb_string_elem. case_bool_decide; rewrite ?elem_of_app, ?list_elem_of_singleton;
    naive_solver.
Qed.

Lemma unique_nodup (xs : list cell) : NoDup (unique xs).
Proof.
  induction xs as [|c xs IH] using rev_ind; [constructor |].
  rewrite unique_snoc. destruct c as [k0|]; simpl; [| done].
  rewrite existsb_string_elem. case_bool_decide; [done |].
  apply NoDup_app. split; [done |]. split; [set_solver | apply NoDup_singleton].
Qed.

Lemma occ_pos (k : string) (xs : list cell) : 0 < occ k xs <-> Some k ∈ xs.
Proof.
  unfold occ. induction xs as [|c xs IH]; simpl; [split; [lia | set_solver] |].
  rewrite elem_of_cons. case_bool_decide; simpl; [split; [by left | lia] |].
  rewrite <- IH. naive_solver.
Qed.

Lemma bump_map_in (k0 : string) (g : string -> nat) (u : list string) :
  NoDup u -> k0 ∈ u ->
  bump k0 (map (fun k => (k, g k)) u) =
  map (fun k => (k, if String.eqb k0 k then S (g k) else g k)) u.
Proof.
  induction 1 as [|k u Hk Hu IH]; intros Hin; [set_solver |].
  simpl. destruct (String.eqb_spec k0 k) as [-> | Hne].
  - f_equal. apply map_ext_in. intros k' Hk'%list_elem_of_In.
    rewrite (proj2 (String.eqb_neq k k')); [done | by intros ->].
  - rewrite IH; [done |]. apply elem_of_cons in Hin as [-> | ?]; [done | done].
Qed.

Lemma bump_map_notin (k0 : string) (g : string -> nat) (u : list string) :
  k0 ∉ u -> bump k0 (map (fun k => (k, g k)) u) = map (fun k => (k, g k)) u ++ [(k0, 1)].
Proof.
  induction u as [|k u IH]; intros Hin; [done |].
  simpl. rewrite (proj2 (String.eqb_neq k0 k)) by set_solver. rewrite IH by set_solver. done.
Qed.

(** The counting of [value_counts] before its sort is seaborn's
    [countplot]: the distinct values in order of first appearance, each
    with its number of occurrences. *)
Lemma tally_countplot (xs : list cell) : tally xs = countplot xs.
Proof.
  unfold countplot, countplot_order.
  induction xs as [|c xs IH] using rev_ind; [done |].
  rewrite tally_snoc, unique_snoc, IH.
  destruct c as [k0|]; simpl.
  - rewrite existsb_string_elem. case_bool_decide as Hin.
    + rewrite bump_map_in by auto using unique_nodup.
      apply map_ext. intros k. rewrite occ_app, occ_some.
      destruct (String.eqb k0 k); f_equal; lia.
    + rewrite bump_map_notin, map_app by done. f_equal.
      * apply map_ext_in. intros k Hk%list_elem_of_In. rewrite occ_app, occ_some.
        destruct (String.eqb_spec k0 k) as [-> | ]; [done | f_equal; lia].
      * simpl. rewrite occ_app, occ_some, string_eqb_refl.
        assert (occ k0 xs = 0) as ->; [| done].
        destruct (occ k0 xs) eqn:E; [done |].
        exfalso. apply Hin, unique_elem, occ_pos. lia.
  - apply map_ext. intros k. by rewrite occ_app, occ_none, Nat.add_0_r.
Qed.

End Counting.

(** ** What [value_counts] gives *)

Definition is_present (c : cell) : bool := match c with Some _ => true | None => false end.

(** The sum of the counts of a chart. *)
Definition chart_total (c : chart) : nat := sum_list_with snd c.

Section ValueCounts.

Lemma countplot_elem (xs : list cell) (k : string) (n : nat) :
  (k, n) ∈ countplot xs <-> Some k ∈ xs /\ n = occ k xs.
Proof.
  unfold countplot, countplot_order. rewrite list_elem_of_In, in_map_iff.
  split.
  - intros (k' & [= <- <-] & Hk%list_elem_of_In). by rewrite <- unique_elem.
  - intros [Hk ->]. exists k. split; [done |]. by apply list_elem_of_In, unique_elem.
Qed.

Lemma countplot_keys (xs : list cell) : map fst (countplot xs) = unique xs.
Proof. unfold countplot, countplot_order. rewrite List.map_map. apply List.map_id. Qed.

Lemma value_counts_perm (xs : list cell) : value_counts xs ≡ₚ countplot xs.
Proof. unfold value_counts. by rewrite sort_desc_perm, tally_countplot. Qed.

Lemma bump_total (k : string) (acc : chart) : chart_total (bump k acc) = S (chart_total acc).
Proof.
  unfold chart_total. induction acc as [|[k' n] acc IH]; simpl; [done |].
  destruct (String.eqb k k'); simpl; [lia | rewrite IH; lia].
Qed.

Lemma tally_total (xs : list cell) :
  chart_total (tally xs) = length (List.filter is_present xs).
Proof.
  induction xs as [|c xs IH] using rev_ind; [done |].
  rewrite tally_snoc, List.filter_app, length_app, <- IH.
  destruct c; simpl; [rewrite bump_total; lia | lia].
Qed.

Lemma countplot_pos (xs : list cell) : Forall (fun p => 0 < p.2) (countplot xs).
Proof.
  apply Forall_forall. intros [k n] [Hk ->]%countplot_elem. by apply occ_pos.
Qed.

Lemma chart_length_total (c : chart) : Forall (fun p => 0 < p.2) c -> length c <= chart_total c.
Proof. unfold chart_total. induction 1; simpl; lia. Qed.
Lemma value_counts_chart_total (xs : list cell) :
  chart_total (value_counts xs) = length (List.filter is_present xs).
Proof. unfold chart_total. rewrite value_counts_perm, <- tally_countplot. apply tally_total. Qed.

(** [nlargest] on the counts keeps the first entries: they are sorted. *)
Lemma nlargest_value_counts (n : nat) (xs : list cell) :
  nlargest n (value_counts xs) = take n (value_counts xs).
Proof. unfold nlargest. by rewrite sort_desc_sorted_id by apply sort_desc_sorted. Qed.

Lemma value_counts_occ (xs : list cell) : Forall (fun p => p.2 = occ p.1 xs) (value_counts xs).
Proof. apply Forall_forall. intros [k n]. rewrite value_counts_perm. by intros [_ ->]%countplot_elem. Qed.

(** Counting on the rows kept by [isin keys] changes no count of a key. *)
Lemma occ_filter_isin (keys : list string) (k : string) (xs : list cell) :
  k ∈ keys -> occ k (List.filter (isin keys) xs) = occ k xs.
Proof.
  intros Hk. unfold occ. induction xs as [|c xs IH]; [done |].
  cbn [List.filter]. destruct (isin keys c) eqn:E; cbn [List.filter length].
  - case_bool_decide; simpl; lia.
  - case_bool_decide as Hc; [| done]. subst c.
    simpl in E. rewrite existsb_string_elem in E. by case_bool_decide.
Qed.

(** A [countplot] with an explicit order of entries of [value_counts]
    draws these entries. *)
Lemma countplot_order_entries (l : chart) (xs : list cell) :
  Forall (fun p => p.2 = occ p.1 xs) l -> countplot_order (map fst l) xs = l.
Proof.
  unfold countplot_order. induction 1 as [|[k n] l Hp _ IH]; [done |].
  simpl in *. by rewrite IH, Hp.
Qed.
End ValueCounts.

(** ** Reading a file written by [csv.writer] *)

Lemma read_csv_text (hdr : list string) (data : list (list string)) :
  hdr <> [] -> Forall (fun r => length r = length hdr) data ->
  read_csv (csv_text (hdr :: data)) =
    Ok {| df_columns := hdr; df_rows := map (map na_cell) data |}.
Proof.
  intros Hh Hd. unfold read_csv.
  rewrite CsvFacts.csv_read_write.
  2:{ constructor; [done |]. eapply Forall_impl; [exact Hd |].
      intros r Hr ->. by destruct hdr. }
  cbn [res_bind].
  assert (Hx : existsb (fun r => Nat.ltb (length hdr) (length r)) data = false).
  { clear Hh. induction Hd as [|r data Hr _ IH]; [done |].
    cbn [existsb]. by rewrite Hr, Nat.ltb_irrefl. }
  rewrite Hx. do 2 f_equal. apply map_ext_in. intros r Hr%list_elem_of_In.
  rewrite Forall_forall in Hd. rewrite (Hd r Hr), Nat.sub_diag. apply app_nil_r.
Qed.
