(* ===== verification/Dashboard.v ===== *)
(** * The chart scripts: aarhus_visualizer.py and pisa_visualizer.py

    Each script reads the CSV file of its scraper with [pd.read_csv] (a
    missing file is reported and the script returns), derives some
    columns, and draws four charts.  The drawing itself (matplotlib,
    seaborn styles, the PNG file) is not modelled; what is modelled is the
    data of each chart, as a [chart] of labels and counts:
    - [AarhusViz.create_charts] (aarhus_visualizer.py, lines 12-45): the
      gender pie ([value_counts] of "Gender"), the categories
      ([countplot] of "Category", in order of first appearance), and the
      ten most frequent job titles and buildings ([top_chart]);
    - [PisaViz.create_dashboard] (pisa_visualizer.py, lines 12-59): the
      derived "Role" (the category without its "Faculty - ", "Staff - "
      and " - empty" parts, or "Unknown" without a "Category" column) and
      "Building" (the last word of the room when it has several words),
      the gender countplot in the order of [value_counts], and the counts
      of roles and buildings (the pie and the bar chart of roles draw the
      same counts).
    The theorems compose the scrapers, the CSV files and the scripts. *)

From Stdlib Require Import Sorted.
From S2P Require Import Prelude PyStr Html Gender Aarhus Crawl Pisa Csv Frame.

Local Open Scope string_scope.
Local Open Scope list_scope.

Module AarhusViz.

Record aarhus_charts := {
  ac_gender : chart;
  ac_categories : chart;
  ac_jobs : chart;
  ac_buildings : chart
}.

(** Lines 34-35 and 39-40: the ten values of largest count, then a
    countplot, in that order, of the rows that hold one of them. *)
Definition top_chart (xs : list cell) : chart :=
  let top := map fst (nlargest 10 (value_counts xs)) in
  countplot_order top (List.filter (isin top) xs).

(** Lines 12-45.  [None]: the file does not exist (lines 13-17). *)
Definition create_charts (file : option string) : res (option aarhus_charts) :=
  match file with
  | None => Ok None
  | Some text =>
      let? df := read_csv text in
      let? gender := df_column df "Gender" in
      let? category := sns_column df "Category" in
      let? jobs := df_column df "Job Title" in
      let? buildings := df_column df "Building" in
      Ok (Some {| ac_gender := value_counts gender;
                  ac_categories := countplot category;
                  ac_jobs := top_chart jobs;
                  ac_buildings := top_chart buildings |})
  end.
End AarhusViz.

Module PisaViz.

Record pisa_charts := {
  pc_gender : option chart;
  pc_roles : chart;
  pc_buildings : chart
}.

(** Line 21: [str.replace] on a column leaves NaN as NaN. *)
Definition role_of (c : cell) : cell :=
  option_map (fun s => py_replace " - empty" "" (py_replace "Staff - " "" (py_replace "Faculty - " "" s))) c.

(** [str(x)]: NaN prints as "nan". *)
Definition py_str (c : cell) : string :=
  match c with Some s => s | None => "nan" end.

(** Line 26. *)
Definition building_of (c : cell) : string :=
  let ws := py_split (py_str c) in
  if Nat.ltb 1 (length ws) then List.last ws "" else "Unknown".

(** Lines 20-23.  The [.str] accessor raises AttributeError on a column
    with rows none of which holds a string (pandas reads it as floats). *)
Definition role_column (df : frame) : res (list cell) :=
  if has_column df "Category" then
    let? cat := df_column df "Category" in
    if existsb is_present cat || bool_decide (cat = []) then Ok (map role_of cat)
    else Raise AttributeError
  else Ok (replicate (length (df_rows df)) (Some "Unknown")).

(** Lines 12-59.  [None]: the file does not exist (lines 13-17). *)
Definition create_dashboard (file : option string) : res (option pisa_charts) :=
  match file with
  | None => Ok None
  | Some text =>
      let? df := read_csv text in
      let? role := role_column df in
      let? room := df_column df "Room" in
      let building := map (fun c => Some (building_of c)) room in
      let? gender :=
        if has_column df "Gender" then
          let? g := df_column df "Gender" in
          Ok (Some (countplot_order (map fst (value_counts g)) g))
        else Ok None in
      Ok (Some {| pc_gender := gender;
                  pc_roles := value_counts role;
                  pc_buildings := value_counts building |})
  end.
End PisaViz.

(** ** From the scrapers to the charts *)

Module DashboardFacts.
Import Sink AarhusViz PisaViz.

(** A column of a frame read from rows written by [csv.writer]. *)
Lemma column_rows {A} (hdr : list string) (f : A -> list string) (rs : list A)
    (name : string) (i : nat) :
  col_index name hdr = Some i ->
  df_column {| df_columns := hdr; df_rows := map (map na_cell) (map f rs) |} name =
  Ok (map (fun a => List.nth i (map na_cell (f a)) None) rs).
Proof. intros Hi. unfold df_column. simpl. rewrite Hi. by rewrite !List.map_map. Qed.

Lemma read_aarhus_csv (rs : list staff) :
  read_csv (aarhus_csv rs) =
  Ok {| df_columns := aarhus_headers; df_rows := map (map na_cell) (map staff_row rs) |}.
Proof. apply read_csv_text; [done |]. apply List.Forall_forall. intros r (s & <- & _)%in_map_iff. done. Qed.

Lemma read_pisa_csv (rs : list pisa_row) :
  read_csv (pisa_csv rs) =
  Ok {| df_columns := pisa_header; df_rows := map (map na_cell) (map pisa_fields rs) |}.
Proof. apply read_csv_text; [done |]. apply List.Forall_forall. intros r (s & <- & _)%in_map_iff. done. Qed.

Lemma filter_present_all (xs : list cell) :
  Forall (fun c => is_present c = true) xs -> List.filter is_present xs = xs.
Proof. induction 1 as [|c xs Hc _ IH]; simpl; [done |]. by rewrite Hc, IH. Qed.

(** The labels of a column, as [value_counts] lists them, are values of
    the column. *)
Lemma value_counts_label (xs : list cell) (k : string) (n : nat) :
  (k, n) ∈ value_counts xs -> Some k ∈ xs.
Proof. rewrite value_counts_perm. by intros [? _]%countplot_elem. Qed.


(** C23: the "Top 10" charts of aarhus_visualizer.py draw exactly the ten
    largest entries of [value_counts], with their counts over the whole
    column: filtering the rows with [isin] and counting again in the order
    of [nlargest] changes no count. *)
Theorem top_chart_spec (xs : list cell) :
  top_chart xs = take 10 (value_counts xs) /\ length (top_chart xs) <= 10.
Proof.
  assert (Ht : top_chart xs = take 10 (value_counts xs)).
  { unfold top_chart. rewrite nlargest_value_counts.
    apply countplot_order_entries. apply Forall_forall. intros [k n] Hk.
    pose proof (value_counts_occ xs) as Hocc. rewrite Forall_forall in Hocc.
    rewrite (Hocc (k, n)) by (by apply subseteq_take in Hk).
    simpl. symmetry. apply occ_filter_isin.
    apply list_elem_of_In, in_map_iff. exists (k, n). split; [done | by apply list_elem_of_In]. }
  split; [done |]. rewrite Ht, length_take. lia.
Qed.

Section Aarhus.
Context `{GenderDetector} `{PageSource} `{UrlJoin}.

Lemma scrape_aarhus_records (fuel : nat) (rs : list staff) (e : crawl_end) :
  Crawl.scrape_aarhus fuel = (Some rs, e) ->
  rs = records (cs_acc (Crawl.crawl fuel start_state).1).
Proof.
  unfold Crawl.scrape_aarhus. destruct (Crawl.crawl fuel start_state) as [st e'].
  simpl. destruct (records (cs_acc st)); congruence.
Qed.

Lemma crawl_resolved (fuel : nat) :
  AarhusRows.genders_resolved (cs_acc (Crawl.crawl fuel start_state).1).
Proof.
  apply CrawlFacts.crawl_acc; [| intros s Hs; inversion Hs].
  intros url a. apply AarhusRows.page_step_pres, AarhusRows.row_step_resolved.
Qed.

Definition gender_label (k : string) : Prop := k = "Female" \/ k = "Male" \/ k = "Unknown".

(** C16: from the crawl to the gender pie: when the Aarhus run gathers
    records, the chart script reads the file it writes without error, and
    the pie has only the labels "Female", "Male" and "Unknown", whose
    counts add up to the number of records (no record is lost as a
    missing value). *)
Theorem aarhus_gender_chart (fuel : nat) (old : option string) (rs : list staff) (e : crawl_end) :
  Crawl.scrape_aarhus fuel = (Some rs, e) ->
  exists ch, AarhusViz.create_charts (save_aarhus old (Some rs)) = Ok (Some ch) /\
             Forall (fun p => gender_label p.1) (ac_gender ch) /\
             chart_total (ac_gender ch) = length rs.
Proof.
  intros Hs. pose proof (crawl_resolved fuel) as Hr. unfold AarhusRows.genders_resolved in Hr.
  rewrite <- (scrape_aarhus_records fuel rs e Hs) in Hr.
  assert (Hl : forall s, s ∈ rs -> gender_label (st_gender s) /\ na_cell (st_gender s) = Some (st_gender s)).
  { intros s Hsr. destruct (LocalFacts.get_gender_labels _ _ (Hr s Hsr)) as [-> | [-> | ->]];
      unfold gender_label; auto. }
  simpl. rewrite read_aarhus_csv, res_bind_ok. unfold sns_column.
  rewrite (column_rows aarhus_headers staff_row rs "Gender" 2 eq_refl),
    (column_rows aarhus_headers staff_row rs "Category" 0 eq_refl),
    (column_rows aarhus_headers staff_row rs "Job Title" 3 eq_refl),
    (column_rows aarhus_headers staff_row rs "Building" 7 eq_refl), !res_bind_ok.
  eexists. split; [reflexivity |]. simpl. split.
  - apply Forall_forall. intros [k n] Hk%value_counts_label.
    apply list_elem_of_In, in_map_iff in Hk as (s & Hk & Hsr%list_elem_of_In).
    destruct (Hl s Hsr) as [Hg Hn]. simpl in Hk. rewrite Hn in Hk. injection Hk as <-. done.
  - rewrite value_counts_chart_total, filter_present_all; [apply length_map |].
    apply List.Forall_forall. intros c (s & <- & Hsr%list_elem_of_In)%in_map_iff.
    simpl. by rewrite (proj2 (Hl s Hsr)).
Qed.
End Aarhus.
(** ** The Pisa dashboard *)


Lemma pisa_column (rs : list pisa_row) (name : string) (i : nat) :
  col_index name pisa_header = Some i ->
  df_column {| df_columns := pisa_header; df_rows := map (map na_cell) (map pisa_fields rs) |} name =
  Ok (map (fun r => List.nth i (map na_cell (pisa_fields r)) None) rs).
Proof. apply column_rows. Qed.


(** C25: the Pisa dashboard fails with AttributeError when people were
    written but none has a category that pandas reads as a value (every
    "data-cat" empty or an NA string such as "NA"): the column is then
    read as floats, on which [.str.replace] of line 21 raises. *)
Theorem pisa_dashboard_no_category_crash (old : option string) (s : pisa_state) (e : option py_exc) :
  ps_written s <> [] -> Forall (fun r => na_cell (pr_category r) = None) (ps_written s) ->
  create_dashboard (save_pisa old (Some (s, e))) = Raise AttributeError.
Proof.
  intros Hne Hna. simpl. rewrite read_pisa_csv, res_bind_ok. unfold role_column.
  cbn [has_column df_columns pisa_header existsb String.eqb Ascii.eqb Bool.eqb orb].
  rewrite (pisa_column _ "Category" 0 eq_refl), res_bind_ok.
  assert (Hx : existsb is_present (map (fun r => List.nth 0 (map na_cell (pisa_fields r)) None) (ps_written s)) = false).
  { clear Hne. induction Hna as [|r l Hr _ IH]; [done |]. simpl in *. by rewrite Hr. }
  rewrite Hx. rewrite bool_decide_eq_false_2; [done |].
  intros Hm%map_eq_nil. done.
Qed.

(** C26: the sentinel "N/A" that the Pisa scraper writes for a missing
    e-mail, website, publication list or course list does not reach the
    chart script as a value: pandas reads it back as a missing cell. *)
Theorem pisa_sentinel_missing (s : pisa_state) (i j : nat) (r : pisa_row) :
  ps_written s !! i = Some r -> pisa_fields r !! j = Some "N/A" ->
  exists df row, read_csv (pisa_csv (ps_written s)) = Ok df /\
                 df_rows df !! i = Some row /\ row !! j = Some None.
Proof.
  intros Hi Hj. rewrite read_pisa_csv. eexists _, (map na_cell (pisa_fields r)).
  split; [done |]. cbn [df_rows].
  change (map (map na_cell) (map pisa_fields (ps_written s)))
    with (map na_cell <$> (pisa_fields <$> ps_written s)).
  change (map na_cell (pisa_fields r)) with (na_cell <$> pisa_fields r).
  rewrite !list_lookup_fmap, Hi, Hj. done.
Qed.
(** C27: the Building of pisa_visualizer.py (line 26) is the last word
    of a room of several words ("331 O" gives "O"), and "Unknown" for a
    one-word room and for a missing room (NaN prints as the one word
    "nan"). *)
Theorem building_of_spec :
  building_of None = "Unknown" /\
  (forall w, word_ok w -> building_of (Some w) = "Unknown") /\
  (forall ws w, Forall word_ok (ws ++ [w]) -> ws <> [] ->
     building_of (Some (py_join " " (ws ++ [w]))) = w).
Proof.
  unfold building_of. split_and!; [reflexivity | |].
  - intros w Hw. simpl.
    replace (py_split w) with [w] by (symmetry; exact (py_split_join [w] ltac:(by constructor))).
    done.
  - intros ws w Hws Hne. cbn [py_str]. cbv zeta. rewrite py_split_join by done.
    destruct ws as [|w0 ws]; [done |].
    rewrite (proj2 (Nat.ltb_lt _ _)) by (rewrite length_app; simpl; lia).
    apply List.last_last.
Qed.

End DashboardFacts.

(** ** Witnesses *)

Module DashboardWitness.
Import Aarhus Sink AarhusViz PisaViz DashboardFacts AarhusDemo.

#[local] Instance demo_join : UrlJoin := fun base l => String.append base l.
#[local] Instance demo_detector : GenderDetector :=
  fun n => if String.eqb n "Anna" then "female" else if String.eqb n "Bo" then "male" else "andy".
#[local] Instance one_page : PageSource :=
  fun url => if String.eqb url start_url
             then FetchOk 200 (page "Faculty"
                    [person_row "Anna Holm" "ah@cs.au.dk"; person_row "Bo Lund" "bl@cs.au.dk";
                     person_row "Carl Dam" "cd@cs.au.dk"] None)
             else FetchError.

Definition demo_records : list staff :=
  match (Crawl.scrape_aarhus 5).1 with Some rs => rs | None => [] end.

Lemma aarhus_gender_chart_witness :
  Crawl.scrape_aarhus 5 = (Some demo_records, Finished) /\
  exists ch, AarhusViz.create_charts (save_aarhus None (Some demo_records)) = Ok (Some ch) /\
             Forall (fun p => gender_label p.1) (ac_gender ch) /\
             chart_total (ac_gender ch) = length demo_records.
Proof.
  assert (H : Crawl.scrape_aarhus 5 = (Some demo_records, Finished)) by (vm_compute; reflexivity).
  split; [exact H | exact (aarhus_gender_chart 5 None demo_records Finished H)].
Defined.

Definition pisa_person (category website : string) : pisa_row :=
  {| pr_category := category; pr_first_name := "Maria"; pr_last_name := "Rossi";
     pr_gender := "female"; pr_email := "N/A"; pr_website := website;
     pr_room := "331 O"; pr_phone := "050 2212700";
     pr_publications := "N/A"; pr_courses := "N/A" |}.

Definition pisa_state_of (rs : list pisa_row) : pisa_state :=
  {| ps_cache := ∅; ps_written := rs; ps_count := length rs; ps_events := [] |}.

Definition faculty_state : pisa_state :=
  pisa_state_of [pisa_person "Faculty - Professori Ordinari" "N/A"].

Definition blank_state : pisa_state := pisa_state_of [pisa_person "" "https://unipi.it"].


Lemma pisa_dashboard_no_category_crash_witness :
  ps_written blank_state <> [] /\
  Forall (fun r => na_cell (pr_category r) = None) (ps_written blank_state) /\
  create_dashboard (save_pisa None (Some (blank_state, None))) = Raise AttributeError.
Proof.
  assert (H1 : ps_written blank_state <> []) by discriminate.
  assert (H2 : Forall (fun r => na_cell (pr_category r) = None) (ps_written blank_state))
    by (repeat constructor).
  split; [exact H1 | split; [exact H2 | exact (pisa_dashboard_no_category_crash None blank_state None H1 H2)]].
Defined.

Lemma pisa_sentinel_missing_witness :
  ps_written faculty_state !! 0 = Some (pisa_person "Faculty - Professori Ordinari" "N/A") /\
  pisa_fields (pisa_person "Faculty - Professori Ordinari" "N/A") !! 5 = Some "N/A" /\
  exists df row, read_csv (pisa_csv (ps_written faculty_state)) = Ok df /\
                 df_rows df !! 0 = Some row /\ row !! 5 = Some None.
Proof.
  assert (H1 : ps_written faculty_state !! 0 = Some (pisa_person "Faculty - Professori Ordinari" "N/A"))
    by reflexivity.
  assert (H2 : pisa_fields (pisa_person "Faculty - Professori Ordinari" "N/A") !! 5 = Some "N/A")
    by reflexivity.
  split; [exact H1 | split; [exact H2 | exact (pisa_sentinel_missing faculty_state 0 5 _ H1 H2)]].
Defined.
Lemma building_of_spec_witness :
  Forall word_ok (["331"] ++ ["O"]) /\ ["331"] <> [] /\
  building_of (Some (py_join " " (["331"] ++ ["O"]))) = "O".
Proof.
  assert (H1 : Forall word_ok (["331"] ++ ["O"])) by (repeat constructor; discriminate).
  assert (H2 : ["331"] <> []) by discriminate.
  split_and!; [exact H1 | exact H2 |].
  exact (proj2 (proj2 building_of_spec) ["331"] "O" H1 H2).
Defined.
End DashboardWitness.
